(** * Coquette TUI (simple_tui.py): event classification, response extraction,
      PTY buffer and send path, embedded in Rocq.

    The Python program keeps one mutable object ([self], class CoquetteTUI).
    It is embedded here as a record threaded through a small state and
    exception monad.  Python strings are sequences of Unicode code points,
    JSON documents are the values [json.loads] builds, and the pieces of the
    interpreter the program leans on (the JSON decoder, the system clock,
    float formatting, [str()] of a non-string value, [str.lower]) are
    collected in one interface, [PyRuntime]; every property below holds for
    any implementation of it.  A reference implementation ([Ref.runtime],
    with a decoder written after the [json] module) is used to evaluate the
    program on concrete inputs.

    The terminal is a second interface, [Terminal]: what the curses calls
    answer (the size of the window, whether a text is accepted at a place),
    the clock text of a time stamp, and the attributes of [self] that the
    methods embedded here only read (the input line, the PTY session).
    [draw_screen] paints through it and raises what the first failing call
    raises.

    What is left out: the debug log file ([log_debug] changes nothing of
    [self]), colours and attributes of the painted text, a change of the
    window size between two draws, signals, and seconds are rationals
    rather than floats. *)

From Stdlib Require Import List NArith ZArith QArith Qround Lia Bool Ascii.
From Stdlib Require String DecimalString.
Import ListNotations String.StringSyntax.

Set Warnings "-register-all".

Delimit Scope string_scope with string.
Local Open Scope N_scope.
Local Open Scope list_scope.

(* ===================================================================== *)
(** ** Python strings *)
(* ===================================================================== *)

(** A [str] is a list of code points. *)
Definition pystr := list N.

Definition code (a : ascii) : N := N_of_ascii a.

(** An ASCII literal of the source. *)
Fixpoint lit (s : String.string) : pystr :=
  match s with
  | String.EmptyString => []
  | String.String a r => code a :: lit r
  end.

Arguments lit s%_string.

(** A literal in which an apostrophe stands for a double quote, so that JSON
    texts can be written down. *)
Definition jlit (s : String.string) : pystr :=
  map (fun c => if c =? 39 then 34 else c) (lit s).

Arguments jlit s%_string.

Definition str_eqb (a b : pystr) : bool :=
  if list_eq_dec N.eq_dec a b then true else false.

(** [str.isspace] for one code point: the characters [str.strip()] removes. *)
Definition py_isspace (c : N) : bool :=
  ((9 <=? c) && (c <=? 13)) || ((28 <=? c) && (c <=? 32))
  || (c =? 0x85) || (c =? 0xA0) || (c =? 0x1680)
  || ((0x2000 <=? c) && (c <=? 0x200A))
  || (c =? 0x2028) || (c =? 0x2029) || (c =? 0x202F) || (c =? 0x205F)
  || (c =? 0x3000).

Fixpoint lstrip (s : pystr) : pystr :=
  match s with
  | [] => []
  | c :: t => if py_isspace c then lstrip t else s
  end.

Definition rstrip (s : pystr) : pystr := rev (lstrip (rev s)).

(** [s.strip()] *)
Definition strip (s : pystr) : pystr := rstrip (lstrip s).

Fixpoint starts_with (p s : pystr) : bool :=
  match p, s with
  | [], _ => true
  | _ :: _, [] => false
  | a :: p', b :: s' => (a =? b) && starts_with p' s'
  end.

(** [needle in hay] for two strings. *)
Fixpoint contains (needle hay : pystr) : bool :=
  starts_with needle hay
  || match hay with
     | [] => false
     | _ :: t => contains needle t
     end.

(** [s.find(c)] for a one-character [c], counting from [i]; -1 when absent. *)
Fixpoint find_char (c : N) (s : pystr) (i : Z) : Z :=
  match s with
  | [] => (-1)%Z
  | x :: t => if x =? c then i else find_char c t (i + 1)%Z
  end.

(** [s[a:b]] for [0 <= a]. *)
Definition slice {A} (s : list A) (a b : nat) : list A := firstn (b - a) (skipn a s).

(** [l[-n:]] *)
Definition last_n {A} (n : nat) (l : list A) : list A := skipn (length l - n) l.

(** [s.replace(old, new)] for a non-empty [old]: occurrences are replaced
    from left to right and do not overlap.  [skip] counts the characters of
    the occurrence just replaced that are still to be passed over. *)
Fixpoint replace_go (old new : pystr) (skip : nat) (s : pystr) : pystr :=
  match s with
  | [] => []
  | c :: t =>
      match skip with
      | S k => replace_go old new k t
      | O => if starts_with old s
             then new ++ replace_go old new (length old - 1) t
             else c :: replace_go old new 0 t
      end
  end.

Definition replace (old new s : pystr) : pystr := replace_go old new 0 s.

(** [re.sub(r'\n{3,}', '\n\n', s)]: a maximal run of three or more newlines
    becomes two.  A newline followed by at least two more is dropped, which
    leaves exactly the last two of such a run. *)
Fixpoint collapse_newlines (s : pystr) : pystr :=
  match s with
  | [] => []
  | c :: t =>
      match t with
      | c1 :: c2 :: _ =>
          if (c =? 10) && (c1 =? 10) && (c2 =? 10)
          then collapse_newlines t
          else c :: collapse_newlines t
      | _ => c :: collapse_newlines t
      end
  end.

(** [re.sub(r' {2,}', ' ', s)]: a maximal run of two or more spaces becomes
    one.  A space followed by a space is dropped. *)
Fixpoint collapse_spaces (s : pystr) : pystr :=
  match s with
  | [] => []
  | c :: t =>
      match t with
      | c1 :: _ =>
          if (c =? 32) && (c1 =? 32)
          then collapse_spaces t
          else c :: collapse_spaces t
      | [] => c :: collapse_spaces t
      end
  end.

(** No three line feeds in a row anywhere in [s]. *)
Fixpoint nl_ok (s : pystr) : bool :=
  match s with
  | [] => true
  | c :: t =>
      match t with
      | c1 :: c2 :: _ => negb ((c =? 10) && (c1 =? 10) && (c2 =? 10))
      | _ => true
      end && nl_ok t
  end.

(** No two spaces in a row anywhere in [s]. *)
Fixpoint sp_ok (s : pystr) : bool :=
  match s with
  | [] => true
  | c :: t =>
      match t with
      | c1 :: _ => negb ((c =? 32) && (c1 =? 32))
      | [] => true
      end && sp_ok t
  end.

(** [s.split(sep)] for a one-character separator: never the empty list. *)
Fixpoint split_on (sep : N) (s : pystr) : list pystr :=
  match s with
  | [] => [[]]
  | c :: t =>
      if c =? sep then [] :: split_on sep t
      else match split_on sep t with
           | l :: ls => (c :: l) :: ls
           | [] => [[c]]
           end
  end.

(** The line boundaries of [str.splitlines]. *)
Definition is_linebreak (c : N) : bool :=
  ((10 <=? c) && (c <=? 13)) || ((28 <=? c) && (c <=? 30))
  || (c =? 0x85) || (c =? 0x2028) || (c =? 0x2029).

(** [s.splitlines()]: lines without their terminators; CR LF is one
    terminator; no empty last line after a final terminator.  [cur] is the
    line read so far, reversed. *)
Fixpoint splitlines_go (cur : pystr) (s : pystr) : list pystr :=
  match s with
  | [] => match cur with [] => [] | _ => [rev cur] end
  | c :: t =>
      if is_linebreak c then
        match t with
        | c1 :: t1 =>
            if (c =? 13) && (c1 =? 10)
            then rev cur :: splitlines_go [] t1
            else rev cur :: splitlines_go [] t
        | [] => [rev cur]
        end
      else splitlines_go (c :: cur) t
  end.

Definition splitlines (s : pystr) : list pystr := splitlines_go [] s.

(** [sep.join(parts)] *)
Fixpoint join (sep : pystr) (parts : list pystr) : pystr :=
  match parts with
  | [] => []
  | [p] => p
  | p :: rest => p ++ sep ++ join sep rest
  end.

(** [str(n)] for an int. *)
Definition str_of_int (z : Z) : pystr := lit (DecimalString.NilEmpty.string_of_int (Z.to_int z)).

(* ===================================================================== *)
(** ** The PTY output buffer (read_claude_output) *)
(* ===================================================================== *)

(** One turn of the reader loop that found [data] on the PTY:
<<
    if data:
        self.claude_output_buffer.extend(data.splitlines())
        if len(self.claude_output_buffer) > 1000:
            self.claude_output_buffer = self.claude_output_buffer[-500:]
>> *)
Definition pty_append (buffer : list pystr) (data : pystr) : list pystr :=
  match data with
  | [] => buffer
  | _ =>
      let extended := buffer ++ splitlines data in
      if (1000 <? length extended)%nat then last_n 500 extended else extended
  end.

(** The buffer after the reader has consumed the reads [datas] in order,
    starting from the empty buffer of [__init__]. *)
Definition pty_run (datas : list pystr) : list pystr :=
  fold_left pty_append datas [].

(* ===================================================================== *)
(** ** Python values and exceptions *)
(* ===================================================================== *)

(** What [json.loads] returns: None, bool, int, float, str, list, dict.  A
    float is kept as the text it was read from; a dict keeps its keys in
    insertion order, each key once. *)
Inductive json : Type :=
| JNull
| JBool (b : bool)
| JInt (z : Z)
| JFloat (lexeme : pystr)
| JStr (s : pystr)
| JArr (items : list json)
| JObj (entries : list (pystr * json)).

(** The exception classes that can reach the handlers of the program. *)
Inductive exn : Type :=
| JSONDecodeError
| AttributeError
| TypeError
| ValueError
| RecursionError
| OSError
| CursesError.

Inductive outcome (A : Type) : Type :=
| Done (a : A)
| Raised (e : exn).

Arguments Done {A} a.
Arguments Raised {A} e.

Definition exn_eqb (a b : exn) : bool :=
  match a, b with
  | JSONDecodeError, JSONDecodeError | AttributeError, AttributeError
  | TypeError, TypeError | ValueError, ValueError
  | RecursionError, RecursionError | OSError, OSError
  | CursesError, CursesError => true
  | _, _ => false
  end.

(** [d[k]] as a lookup. *)
Fixpoint dict_lookup (k : pystr) (d : list (pystr * json)) : option json :=
  match d with
  | [] => None
  | (k', v) :: r => if str_eqb k k' then Some v else dict_lookup k r
  end.

(** [d[k] = v]: an existing key keeps its place. *)
Fixpoint dict_set (k : pystr) (v : json) (d : list (pystr * json)) : list (pystr * json) :=
  match d with
  | [] => [(k, v)]
  | (k', v') :: r => if str_eqb k k' then (k, v) :: r else (k', v') :: dict_set k v r
  end.

(** [k in d] *)
Definition dict_has (k : pystr) (d : list (pystr * json)) : bool :=
  match dict_lookup k d with Some _ => true | None => false end.

(** [d.get(k, default)] on a dict. *)
Definition dict_get (d : list (pystr * json)) (k : pystr) (default : json) : json :=
  match dict_lookup k d with Some v => v | None => default end.

(** [v == 'literal'] *)
Definition py_eq_str (v : json) (s : pystr) : bool :=
  match v with
  | JStr x => str_eqb x s
  | _ => false
  end.

(** [obj.get(k, default)]: only a dict has the method. *)
Definition py_get (obj : json) (k : pystr) (default : json) : outcome json :=
  match obj with
  | JObj d => Done (dict_get d k default)
  | _ => Raised AttributeError
  end.

(** ['literal' in hay]: substring of a str, element of a list, key of a
    dict; any other value is not iterable. *)
Definition py_in (needle : pystr) (hay : json) : outcome bool :=
  match hay with
  | JStr s => Done (contains needle s)
  | JArr l => Done (existsb (fun x => py_eq_str x needle) l)
  | JObj d => Done (dict_has needle d)
  | _ => Raised TypeError
  end.

(** [v.strip()] *)
Definition py_strip (v : json) : outcome pystr :=
  match v with
  | JStr s => Done (strip s)
  | _ => Raised AttributeError
  end.

(** [len(v)] *)
Definition py_len (v : json) : outcome nat :=
  match v with
  | JStr s => Done (length s)
  | JArr l => Done (length l)
  | JObj d => Done (length d)
  | _ => Raised TypeError
  end.

(** [v[:50]]: a str or a list can be sliced; a dict cannot be indexed by a
    slice and the other values are not subscriptable. *)
Definition py_slice50 (v : json) : outcome json :=
  match v with
  | JStr s => Done (JStr (firstn 50 s))
  | JArr l => Done (JArr (firstn 50 l))
  | _ => Raised TypeError
  end.

(** The parts of the interpreter and its libraries that the program calls and
    whose code is not the program's. *)
Class PyRuntime : Type := {
  (** [json.loads(s)]: the value, or the exception raised. *)
  json_loads : pystr -> outcome json;
  (** the n-th reading of the system clock ([time.time()], [datetime.now()]),
      in seconds *)
  clock : nat -> Q;
  (** [f"{x:.1f}"] *)
  fmt_1f : Q -> pystr;
  (** [str(v)] of a value that is not a str, as an f-string inserts it *)
  py_format : json -> pystr;
  (** whether the float read from this text is different from 0.0 *)
  float_nonzero : pystr -> bool;
  (** [s.lower()] *)
  str_lower : pystr -> pystr;
  (** [str(e)] of an exception *)
  exn_text : exn -> pystr
}.

Section WithRuntime.

Context {RT : PyRuntime}.

(** [bool(v)] *)
Definition py_truthy (v : json) : bool :=
  match v with
  | JNull => false
  | JBool b => b
  | JInt z => negb (z =? 0)%Z
  | JFloat x => float_nonzero x
  | JStr s => match s with [] => false | _ => true end
  | JArr l => match l with [] => false | _ => true end
  | JObj d => match d with [] => false | _ => true end
  end.

(** [f"{v}"] *)
Definition fstr (v : json) : pystr :=
  match v with
  | JStr s => s
  | _ => py_format v
  end.

(** ['literal' in v.lower()] *)
Definition py_in_lower (needle : pystr) (v : json) : outcome bool :=
  match v with
  | JStr s => Done (contains needle (str_lower s))
  | _ => Raised AttributeError
  end.

(* ===================================================================== *)
(** ** The object [self] *)
(* ===================================================================== *)

Inductive role : Type := User | Assistant | System.

(** An entry of [self.messages].  The keys 'immediate', 'source' and 'tool'
    are present only in some entries. *)
Record message : Type := {
  msg_role : role;
  msg_content : json;
  msg_timestamp : Q;
  msg_immediate : bool;
  msg_source : option json;
  msg_tool : option json
}.

(** The fields of [self] that the classifier, the status line and the send
    path read or write.  The PTY buffer is written by the reader thread only
    and is modelled on its own ([pty_append]). *)
Record TUI := {
  messages : list message;
  status : pystr;
  provider : pystr;
  personality : pystr;
  streaming : bool;
  thinking : bool;
  copy_mode : bool;
  conversation_context : bool;
  tools_enabled : bool;
  view_mode : pystr;
  error_contexts_loaded : bool;
  error_context_count : Z;
  file_operations_active : bool;
  recovery_attempts : Z;
  connection_status : pystr;
  current_tool_activity : pystr;
  tool_progress_dots : Z;
  tool_start_time : option Q;
  last_response_time : Q;
  total_messages_processed : Z
}.

(** [self.messages = v] *)
Definition set_messages (v : list message) (t : TUI) : TUI :=
  {| messages := v; status := status t; provider := provider t; personality :=
     personality t; streaming := streaming t; thinking := thinking t; copy_mode :=
     copy_mode t; conversation_context := conversation_context t; tools_enabled :=
     tools_enabled t; view_mode := view_mode t; error_contexts_loaded :=
     error_contexts_loaded t; error_context_count := error_context_count t;
     file_operations_active := file_operations_active t; recovery_attempts :=
     recovery_attempts t; connection_status := connection_status t;
     current_tool_activity := current_tool_activity t; tool_progress_dots :=
     tool_progress_dots t; tool_start_time := tool_start_time t; last_response_time :=
     last_response_time t; total_messages_processed := total_messages_processed t |}.

(** [self.status = v] *)
Definition set_status (v : pystr) (t : TUI) : TUI :=
  {| messages := messages t; status := v; provider := provider t; personality :=
     personality t; streaming := streaming t; thinking := thinking t; copy_mode :=
     copy_mode t; conversation_context := conversation_context t; tools_enabled :=
     tools_enabled t; view_mode := view_mode t; error_contexts_loaded :=
     error_contexts_loaded t; error_context_count := error_context_count t;
     file_operations_active := file_operations_active t; recovery_attempts :=
     recovery_attempts t; connection_status := connection_status t;
     current_tool_activity := current_tool_activity t; tool_progress_dots :=
     tool_progress_dots t; tool_start_time := tool_start_time t; last_response_time :=
     last_response_time t; total_messages_processed := total_messages_processed t |}.

(** [self.thinking = v] *)
Definition set_thinking (v : bool) (t : TUI) : TUI :=
  {| messages := messages t; status := status t; provider := provider t; personality :=
     personality t; streaming := streaming t; thinking := v; copy_mode := copy_mode t;
     conversation_context := conversation_context t; tools_enabled := tools_enabled t;
     view_mode := view_mode t; error_contexts_loaded := error_contexts_loaded t;
     error_context_count := error_context_count t; file_operations_active :=
     file_operations_active t; recovery_attempts := recovery_attempts t;
     connection_status := connection_status t; current_tool_activity :=
     current_tool_activity t; tool_progress_dots := tool_progress_dots t;
     tool_start_time := tool_start_time t; last_response_time := last_response_time t;
     total_messages_processed := total_messages_processed t |}.

(** [self.current_tool_activity = v] *)
Definition set_current_tool_activity (v : pystr) (t : TUI) : TUI :=
  {| messages := messages t; status := status t; provider := provider t; personality :=
     personality t; streaming := streaming t; thinking := thinking t; copy_mode :=
     copy_mode t; conversation_context := conversation_context t; tools_enabled :=
     tools_enabled t; view_mode := view_mode t; error_contexts_loaded :=
     error_contexts_loaded t; error_context_count := error_context_count t;
     file_operations_active := file_operations_active t; recovery_attempts :=
     recovery_attempts t; connection_status := connection_status t;
     current_tool_activity := v; tool_progress_dots := tool_progress_dots t;
     tool_start_time := tool_start_time t; last_response_time := last_response_time t;
     total_messages_processed := total_messages_processed t |}.

(** [self.tool_progress_dots = v] *)
Definition set_tool_progress_dots (v : Z) (t : TUI) : TUI :=
  {| messages := messages t; status := status t; provider := provider t; personality :=
     personality t; streaming := streaming t; thinking := thinking t; copy_mode :=
     copy_mode t; conversation_context := conversation_context t; tools_enabled :=
     tools_enabled t; view_mode := view_mode t; error_contexts_loaded :=
     error_contexts_loaded t; error_context_count := error_context_count t;
     file_operations_active := file_operations_active t; recovery_attempts :=
     recovery_attempts t; connection_status := connection_status t;
     current_tool_activity := current_tool_activity t; tool_progress_dots := v;
     tool_start_time := tool_start_time t; last_response_time := last_response_time t;
     total_messages_processed := total_messages_processed t |}.

(** [self.tool_start_time = v] *)
Definition set_tool_start_time (v : option Q) (t : TUI) : TUI :=
  {| messages := messages t; status := status t; provider := provider t; personality :=
     personality t; streaming := streaming t; thinking := thinking t; copy_mode :=
     copy_mode t; conversation_context := conversation_context t; tools_enabled :=
     tools_enabled t; view_mode := view_mode t; error_contexts_loaded :=
     error_contexts_loaded t; error_context_count := error_context_count t;
     file_operations_active := file_operations_active t; recovery_attempts :=
     recovery_attempts t; connection_status := connection_status t;
     current_tool_activity := current_tool_activity t; tool_progress_dots :=
     tool_progress_dots t; tool_start_time := v; last_response_time :=
     last_response_time t; total_messages_processed := total_messages_processed t |}.

(** [self.last_response_time = v] *)
Definition set_last_response_time (v : Q) (t : TUI) : TUI :=
  {| messages := messages t; status := status t; provider := provider t; personality :=
     personality t; streaming := streaming t; thinking := thinking t; copy_mode :=
     copy_mode t; conversation_context := conversation_context t; tools_enabled :=
     tools_enabled t; view_mode := view_mode t; error_contexts_loaded :=
     error_contexts_loaded t; error_context_count := error_context_count t;
     file_operations_active := file_operations_active t; recovery_attempts :=
     recovery_attempts t; connection_status := connection_status t;
     current_tool_activity := current_tool_activity t; tool_progress_dots :=
     tool_progress_dots t; tool_start_time := tool_start_time t; last_response_time :=
     v; total_messages_processed := total_messages_processed t |}.

(** [self.total_messages_processed = v] *)
Definition set_total_messages_processed (v : Z) (t : TUI) : TUI :=
  {| messages := messages t; status := status t; provider := provider t; personality :=
     personality t; streaming := streaming t; thinking := thinking t; copy_mode :=
     copy_mode t; conversation_context := conversation_context t; tools_enabled :=
     tools_enabled t; view_mode := view_mode t; error_contexts_loaded :=
     error_contexts_loaded t; error_context_count := error_context_count t;
     file_operations_active := file_operations_active t; recovery_attempts :=
     recovery_attempts t; connection_status := connection_status t;
     current_tool_activity := current_tool_activity t; tool_progress_dots :=
     tool_progress_dots t; tool_start_time := tool_start_time t; last_response_time :=
     last_response_time t; total_messages_processed := v |}.

(** The object together with the number of clock readings taken so far. *)
Record World : Type := {
  self : TUI;
  reads : nat
}.

(** A method body: it may change [self], read the clock, and raise. *)
Definition M (A : Type) : Type := World -> outcome A * World.

Definition ret {A} (a : A) : M A := fun w => (Done a, w).

Definition bind {A B} (m : M A) (f : A -> M B) : M B :=
  fun w =>
    match m w with
    | (Done a, w') => f a w'
    | (Raised e, w') => (Raised e, w')
    end.

Definition raise {A} (e : exn) : M A := fun w => (Raised e, w).

(** The result of evaluating an expression. *)
Definition eval {A} (o : outcome A) : M A := fun w => (o, w).

(** [try: m  except <classes accepted by catches>: h] *)
Definition try_except {A} (m : M A) (catches : exn -> bool) (h : exn -> M A) : M A :=
  fun w =>
    match m w with
    | (Done a, w') => (Done a, w')
    | (Raised e, w') => if catches e then h e w' else (Raised e, w')
    end.

Definition get : M TUI := fun w => (Done (self w), w).

Definition modify (f : TUI -> TUI) : M unit :=
  fun w => (Done tt, {| self := f (self w); reads := reads w |}).

(** [time.time()] and [datetime.now()] *)
Definition now : M Q :=
  fun w => (Done (clock (reads w)), {| self := self w; reads := S (reads w) |}).

End WithRuntime.

Declare Scope py_scope.
Delimit Scope py_scope with py.
Notation "x <- m ;; k" := (bind m (fun x => k))
  (at level 61, m at next level, right associativity) : py_scope.
Notation "m ;; k" := (bind m (fun _ => k))
  (at level 61, right associativity) : py_scope.

Local Open Scope py_scope.

(* ===================================================================== *)
(** ** Text wrapping and what is painted *)
(* ===================================================================== *)

Definition nonempty {A} (l : list A) : bool :=
  match l with [] => false | _ => true end.

Definition Qgtb (a b : Q) : bool := negb (Qle_bool a b).

(** [s.split()]: the maximal runs of characters that are not white space, in
    order.  A character that is not white space opens a word when the next
    one is white space or missing, and else joins the word that follows. *)
Fixpoint words (s : pystr) : list pystr :=
  match s with
  | [] => []
  | c :: t =>
      if py_isspace c then words t
      else match t with
           | [] => [[c]]
           | c' :: _ =>
               if py_isspace c' then [c] :: words t
               else match words t with
                    | w :: ws => (c :: w) :: ws
                    | [] => [[c]]
                    end
           end
  end.

(** One turn of [for word in text.split()] in [wrap_text]: the state is
    [lines] and [current_line]. *)
Definition wrap_step (max_width : Z) (st : list pystr * pystr) (word : pystr)
    : list pystr * pystr :=
  let (lines, current_line) := st in
  if (Z.of_nat (length (current_line ++ lit " " ++ word)) <=? max_width)%Z then
    (lines, if nonempty current_line then current_line ++ lit " " ++ word else word)
  else
    (if nonempty current_line then lines ++ [current_line] else lines, word).

(** [wrap_text(text, max_width)] for a str. *)
Definition wrap_text (text : pystr) (max_width : Z) : list pystr :=
  if nonempty text then
    let (lines, current_line) := fold_left (wrap_step max_width) (words text) ([], []) in
    let lines := if nonempty current_line then lines ++ [current_line] else lines in
    if nonempty lines then lines else [[]]
  else [[]].

(** [s[:k]] for any int [k]: a negative [k] counts from the end. *)
Definition py_prefix {A} (s : list A) (k : Z) : list A :=
  if (k <? 0)%Z then firstn (length s - Z.to_nat (- k)) s else firstn (Z.to_nat k) s.

(** [s[k:]] for any int [k]. *)
Definition py_suffix {A} (s : list A) (k : Z) : list A :=
  if (k <? 0)%Z then skipn (length s - Z.to_nat (- k)) s else skipn (Z.to_nat k) s.

(** The status text [draw_screen] paints in a terminal of [width] columns:
<<
    if len(status_text) > width - 4:
        status_text = status_text[:width-7] + "..."
>> *)
Definition shown_status (width : Z) (status_text : pystr) : pystr :=
  if (Z.of_nat (length status_text) >? width - 4)%Z
  then py_prefix status_text (width - 7) ++ lit "..."
  else status_text.

(** [len(prompt)] for the prompt [">>> "] of [draw_screen]. *)
Definition prompt_length : Z := 4.

(** [display_input] of [draw_screen]. *)
Definition display_input (width : Z) (current_input : pystr) : pystr :=
  let available_width := (width - prompt_length - 3)%Z in
  if (Z.of_nat (length current_input) >? available_width)%Z
  then lit "..." ++ py_suffix current_input (- (available_width - 3))
  else current_input.

(** Whether [draw_screen] paints the cursor block behind the input:
    [cursor_x < width - 1]. *)
Definition cursor_shown (width : Z) (current_input : pystr) : bool :=
  (1 + prompt_length + Z.of_nat (length (display_input width current_input)) <? width - 1)%Z.

(** The buffer lines [draw_claude_raw_screen] paints in a terminal of
    [height] rows: the slice [display_lines], walked until
    [i >= output_height]. *)
Definition raw_display_lines (height : Z) (claude_output_buffer : list pystr)
    : list pystr :=
  let output_height := (height - 6)%Z in
  let display_lines :=
    if (Z.of_nat (length claude_output_buffer) >? output_height)%Z
    then py_suffix claude_output_buffer (- output_height)
    else claude_output_buffer in
  firstn (Z.to_nat output_height) display_lines.

(** A buffer line as it is painted: the erase-line sequence and carriage
    returns are removed, and a line that is too long is cut. *)
Definition raw_clean_line (width : Z) (line : pystr) : pystr :=
  let clean_line := replace [13] [] (replace ([27] ++ lit "[2K") [] line) in
  if (Z.of_nat (length clean_line) >? width - 4)%Z
  then py_prefix clean_line (width - 7) ++ lit "..."
  else clean_line.


(** The curses window, and the attributes of the object that the methods
    modelled below read and never assign.  ([run] assigns the input line; a
    turn of its loop hands the line as it stands to the draws it starts.) *)
Class Terminal : Type := {
  (** [self.stdscr.clear()]: the exception it raises, if it raises *)
  stdscr_clear : option exn;
  (** [self.stdscr.getmaxyx()]: height and width *)
  getmaxyx : Z * Z;
  (** [self.stdscr.addstr(y, x, text, attr)]: the exception it raises, if it
      raises (curses.error for a text that does not fit the window,
      ValueError for a text with a NUL character, ...) *)
  addstr : Z -> Z -> pystr -> option exn;
  (** [self.stdscr.refresh()] *)
  stdscr_refresh : option exn;
  (** [stamp.strftime("%H:%M:%S")] *)
  strftime : Q -> pystr;
  (** [self.current_input] *)
  input_line : pystr;
  (** the pid of [self.claude_process] when there is such a process and its
      [poll()] is None *)
  claude_pid : option Z;
  (** [self.claude_output_buffer], which the reader thread fills *)
  claude_output_buffer : list pystr
}.

(** The same terminal with [line] as the input line. *)
Definition typing (line : pystr) (TE : Terminal) : Terminal :=
  {| stdscr_clear := stdscr_clear; getmaxyx := getmaxyx; addstr := addstr;
     stdscr_refresh := stdscr_refresh; strftime := strftime; input_line := line;
     claude_pid := claude_pid; claude_output_buffer := claude_output_buffer |}.

Definition role_eqb (a b : role) : bool :=
  match a, b with
  | User, User | Assistant, Assistant | System, System => true
  | _, _ => false
  end.

Section Painting.

Context {RT : PyRuntime} {TE : Terminal}.

(** [wrap_text(text, max_width)] for whatever a message holds as content: a
    falsy value gives one empty line, a str is wrapped, and any other value
    has no [split]. *)
Definition wrap_value (text : json) (max_width : Z) : outcome (list pystr) :=
  if negb (py_truthy text) then Done [[]]
  else match text with
       | JStr s => Done (wrap_text s max_width)
       | _ => Raised AttributeError
       end.

(** The message window of [draw_screen]: going back from the newest message,
    the messages whose wrapped lines still fit in [messages_height], each
    with its number of lines; the first one that does not fit ends the walk.
    [newest_first] is [reversed(self.messages)] still to visit. *)
Fixpoint window_go (width messages_height : Z) (newest_first : list message)
    (visible : list (message * Z)) (total_lines_used : Z)
    : outcome (list (message * Z)) :=
  match newest_first with
  | [] => Done visible
  | msg :: older =>
      match wrap_value (msg_content msg) (width - 20) with
      | Raised e => Raised e
      | Done content_lines =>
          let message_lines := Z.max 1 (Z.of_nat (length content_lines)) in
          if (total_lines_used + message_lines <=? messages_height)%Z
          then window_go width messages_height older ((msg, message_lines) :: visible)
                         (total_lines_used + message_lines)
          else Done visible
      end
  end.

(** [visible_messages] of [draw_screen] for a terminal of [height] rows and
    [width] columns. *)
Definition visible_messages (height width : Z) (t : TUI) : outcome (list (message * Z)) :=
  window_go width (height - 8) (rev (messages t)) [] 0.


(** A call of [addstr], and [rest] when it returns. *)
Definition paint (y x : Z) (text : pystr) (rest : outcome unit) : outcome unit :=
  match addstr y x text with
  | Some e => Raised e
  | None => rest
  end.

(** [self.stdscr.refresh()] as the last statement. *)
Definition refreshed : outcome unit :=
  match stdscr_refresh with
  | Some e => Raised e
  | None => Done tt
  end.

(** [len([m for m in self.messages if m['role'] == r])] *)
Definition count_role (r : role) (t : TUI) : Z :=
  Z.of_nat (length (filter (fun m => role_eqb (msg_role m) r) (messages t))).

(** The title of the chat view, cut to the width. *)
Definition chat_title (t : TUI) (width : Z) : pystr :=
  let msg_count := count_role User t in
  let sys_count := count_role System t in
  let title :=
    [0x1F3AD] ++ lit " Coquette Enhanced (" ++ str_of_int msg_count ++ lit " msgs"
    ++ (if (0 <? sys_count)%Z then lit ", " ++ str_of_int sys_count ++ lit " sys" else [])
    ++ (if Qgtb (last_response_time t) 0
        then lit ", " ++ fmt_1f (last_response_time t) ++ lit "s" else [])
    ++ lit ")" in
  if (Z.of_nat (length title) >? width - 4)%Z
  then py_prefix title (width - 7) ++ lit "..."
  else title.

(** [max(1, (width - len(title)) // 2)] *)
Definition centred (width : Z) (title : pystr) : Z :=
  Z.max 1 ((width - Z.of_nat (length title)) / 2).

(** The icon in front of a message. *)
Definition role_icon (msg : message) : pystr :=
  match msg_role msg with
  | User => [0x1F464]
  | System =>
      if match msg_tool msg with Some tool => py_truthy tool | None => false end
      then [0x1F527] else [0x1F3AD]
  | Assistant =>
      if msg_immediate msg
         && match msg_source msg with
            | Some source => py_eq_str source (lit "personality_acknowledgment")
            | None => false
            end
      then [0x1F3AD] else [0x1F916]
  end.

(** [text[:width-2]] when [text] is longer than that. *)
Definition clipped (width : Z) (text : pystr) : pystr :=
  if (Z.of_nat (length text) >? width - 2)%Z then py_prefix text (width - 2) else text.

(** [for line in content_lines[1:]]: the continuation lines, as long as
    [current_line] stays above [limit]; the result is [current_line]. *)
Fixpoint paint_more (width limit current_line : Z) (lines : list pystr) : outcome Z :=
  match lines with
  | [] => Done current_line
  | line :: rest =>
      if (current_line <? limit)%Z then
        match addstr current_line 1 (clipped width (lit "           " ++ line)) with
        | Some e => Raised e
        | None => paint_more width limit (current_line + 1) rest
        end
      else Done current_line
  end.

(** [for msg_data in visible_messages]: each message with its time stamp and
    icon, its content wrapped once more. *)
Fixpoint paint_messages (width limit current_line : Z) (visible : list (message * Z))
    : outcome unit :=
  match visible with
  | [] => Done tt
  | (msg, _) :: rest =>
      if (current_line >=? limit)%Z then Done tt
      else
        let timestamp := strftime (msg_timestamp msg) in
        match wrap_value (msg_content msg) (width - 20) with
        | Raised e => Raised e
        | Done [] => paint_messages width limit current_line rest
        | Done (first :: more) =>
            if (current_line <? limit)%Z then
              let first_line :=
                timestamp ++ lit " " ++ role_icon msg ++ lit " " ++ first in
              match addstr current_line 1 (clipped width first_line) with
              | Some e => Raised e
              | None =>
                  match paint_more width limit (current_line + 1) more with
                  | Raised e => Raised e
                  | Done current_line => paint_messages width limit current_line rest
                  end
              end
            else paint_messages width limit current_line rest
        end
  end.

(** [draw_screen] in the chat view, from the title on. *)
Definition draw_chat (t : TUI) (height width : Z) : outcome unit :=
  let title := chat_title t width in
  paint 0 (centred width title) title
    (match visible_messages height width t with
    | Raised e => Raised e
    | Done visible =>
        match paint_messages width (2 + (height - 8)) 2 visible with
        | Raised e => Raised e
        | Done _ =>
            paint (height - 4) 1 (repeat 0x2500 (Z.to_nat (width - 2)))
              (paint (height - 3) 1 (shown_status width (status t))
                 (paint (height - 2) 1 (lit ">>> ")
                    (paint (height - 2) (1 + prompt_length)
                           (display_input width input_line)
                       (if cursor_shown width input_line
                        then paint (height - 2)
                                   (1 + prompt_length
                                    + Z.of_nat (length (display_input width input_line)))
                                   [0x2588] refreshed
                        else refreshed))))
        end
    end).

(** [draw_claude_raw_screen(height, width)].  The lines of the buffer are
    painted each inside a [try] whose bare [except] passes, so that loop
    raises nothing; what it paints is [raw_display_lines], each line as
    [raw_clean_line]. *)
Definition draw_claude_raw_screen (height width : Z) : outcome unit :=
  let title := [0x1F527] ++ lit " Claude Raw Session (Ctrl+V: back to chat)" in
  let title :=
    if (Z.of_nat (length title) >? width - 4)%Z
    then py_prefix title (width - 4) ++ lit "..." else title in
  let status_text :=
    match claude_pid with
    | Some pid => lit "Claude PTY running (PID: " ++ str_of_int pid ++ lit ")"
    | None => lit "Claude PTY not running"
    end in
  let prompt_text := lit "Direct Claude input: " ++ input_line in
  let prompt_text :=
    if (Z.of_nat (length prompt_text) >? width - 2)%Z
    then py_prefix prompt_text (width - 5) ++ lit "..." else prompt_text in
  let foot :=
    paint (height - 3) 1 (repeat 0x2500 (Z.to_nat (width - 2)))
      (paint (height - 2) 1 prompt_text refreshed) in
  paint 0 (centred width title) title
    (paint 1 2 status_text
       (if nonempty claude_output_buffer then foot
        else paint 3 2 (lit "No output from Claude yet...")
               (paint (3 + 2) 2
                  (lit "Try sending a command in chat view (Ctrl+V to switch back)")
                  foot))).

(** [self.draw_screen()]: nothing of [self] is assigned; the outcome is
    that of the first statement that raises, if one does. *)
Definition draw (t : TUI) : outcome unit :=
  match stdscr_clear with
  | Some e => Raised e
  | None =>
      let (height, width) := getmaxyx in
      if str_eqb (view_mode t) (lit "claude_raw")
      then draw_claude_raw_screen height width
      else draw_chat t height width
  end.

End Painting.

(* ===================================================================== *)
(** ** Status line, noise filter and event classifier *)
(* ===================================================================== *)

Section Classifier.

Context {RT : PyRuntime} {TE : Terminal}.

(** [self.log_debug(...)] appends a line to the debug file and swallows its
    own errors; nothing of [self] changes. *)
Definition log_debug : M unit := ret tt.

(** [self.draw_screen()] paints the terminal from [self]: it changes
    nothing of [self], and raises when the painting does. *)
Definition draw_screen : M unit := fun w => (draw (self w), w).

(** [if not self.copy_mode: self.draw_screen()] *)
Definition redraw : M unit :=
  t <- get ;; if copy_mode t then ret tt else draw_screen.

(** The first part of the status line: provider, view, personality, context,
    the system indicators and the raw-view mark (everything [update_status]
    builds before it looks at the activity). *)
Definition status_head (t : TUI) : pystr :=
  let context_icon := if conversation_context t then [0x1F9E0] else [0x1F504] in
  let tools_display :=
    if str_eqb (provider t) (lit "local")
    then lit " " ++ (if tools_enabled t then [0x1F527] else [0x1F4AC])
    else [] in
  let view_icon :=
    if str_eqb (view_mode t) (lit "claude_raw") then [0x1F527] else [0x1F3AD] in
  let status_text :=
    provider t ++ lit " | " ++ view_icon ++ personality t ++ lit " | "
    ++ context_icon ++ tools_display in
  let status_indicators :=
    (if error_contexts_loaded t
     then [[0x26A0; 0xFE0F] ++ str_of_int (error_context_count t)] else [])
    ++ (if file_operations_active t then [[0x1F4C1]] else [])
    ++ (if (0 <? recovery_attempts t)%Z
        then [[0x1F504] ++ str_of_int (recovery_attempts t)] else [])
    ++ (if str_eqb (connection_status t) (lit "error") then [[0x1F50C; 0x274C]]
        else if str_eqb (connection_status t) (lit "ok") then [[0x1F50C; 0x2705]]
        else [])
    ++ (if Qgtb (last_response_time t) 0
        then if Qgtb (last_response_time t) 10
             then [[0x23F1; 0xFE0F] ++ fmt_1f (last_response_time t) ++ lit "s"]
             else []
        else []) in
  let status_text :=
    if nonempty status_indicators
    then status_text ++ lit " | " ++ join (lit " ") status_indicators
    else status_text in
  if str_eqb (view_mode t) (lit "claude_raw")
  then status_text ++ lit " | RAW VIEW" else status_text.

(** The last part of the status line. *)
Definition copy_mode_mark (t : TUI) : pystr :=
  if copy_mode t
  then lit " | " ++ [0x1F4CB] ++ lit " COPY MODE (Ctrl+R to resume)"
  else [].

(** The elapsed time shown behind a running activity: nothing without a start
    time, else the clock is read and the time is shown once it exceeds two
    seconds. *)
Definition elapsed_mark (t : TUI) : M pystr :=
  match tool_start_time t with
  | Some started =>
      if Qeq_bool started 0 then ret []
      else
        t1 <- now ;;
        let elapsed_sec := (t1 - started)%Q in
        ret (if Qgtb elapsed_sec 2
             then lit " (" ++ fmt_1f elapsed_sec ++ lit "s)" else [])
  | None => ret []
  end.

(** [update_status]: rebuilds [self.status] from the other fields. *)
Definition update_status : M unit :=
  t <- get ;;
  let status_text := status_head t in
  status_text <-
    (if nonempty (current_tool_activity t) then
       let dots := repeat 46 (Z.to_nat (tool_progress_dots t mod 4)) in
       elapsed <- elapsed_mark t ;;
       ret (status_text ++ lit " | " ++ [0x1F527] ++ lit " "
            ++ current_tool_activity t ++ dots ++ elapsed)
     else if thinking t
     then ret (status_text ++ lit " | " ++ [0x1F4AD] ++ lit " thinking...")
     else ret status_text) ;;
  modify (set_status (status_text ++ copy_mode_mark t)).

Definition debug_noise_keywords : list pystr :=
  [ lit "ollama_request_enqueued";
    lit "ollama_queue_reordered";
    lit "ollama_request_processing_start";
    lit "ollama_api_call_start";
    lit "ollama_model_switch_delay";
    lit "ollama_queue_processing_start";
    lit "ollama_queue_processing_complete";
    lit "intent_calling_gemma";
    lit "intent_gemma_response";
    lit "intent_parsing_response";
    lit "intent_parsed_successfully";
    lit "deepseek_json_debug";
    lit "error_context_agent_initializing";
    lit "error_context_agent_initialized";
    lit "component_status_changed";
    lit "processMessage_start";
    lit "input_routing_start";
    lit "input_routing_complete";
    lit "recursive_validation_iteration";
    lit "recursive_validation_analysis";
    lit "recursive_validation_satisfied" ].

Definition important_keywords : list pystr :=
  [ lit "system_state_changed";
    lit "intelligence_router_start";
    lit "intelligence_router_complete";
    lit "tools_agent_start";
    lit "tools_agent_executing_step";
    lit "subconscious_reasoning_start";
    lit "subconscious_reasoning_complete";
    lit "personality_interpretation_start";
    lit "personality_interpretation_success";
    lit "ollama_request_success" ].

(** [for k in keywords: if k in message: return True] (falling through gives
    [Done false]). *)
Fixpoint any_in (keywords : list pystr) (message : json) : outcome bool :=
  match keywords with
  | [] => Done false
  | k :: rest =>
      match py_in k message with
      | Done true => Done true
      | Done false => any_in rest message
      | Raised e => Raised e
      end
  end.

(** [a or b] over two membership tests. *)
Definition in_or (a b : pystr) (message : json) : outcome bool :=
  match py_in a message with
  | Done true => Done true
  | Done false => py_in b message
  | Raised e => Raised e
  end.

(** [should_ignore_message(message, msg_type)] *)
Definition should_ignore_message (message msg_type : json) : outcome bool :=
  if py_eq_str msg_type (lit "error") then
    in_or (lit "all_json_blocks_failed") (lit "deepseek_json_debug") message
  else if negb (py_eq_str msg_type (lit "engine")) then Done false
  else
    match any_in debug_noise_keywords message with
    | Done true => Done true
    | Done false =>
        match any_in important_keywords message with
        | Done true => Done false
        | Done false => Done true
        | Raised e => Raised e
        end
    | Raised e => Raised e
    end.

Definition append_message (m : message) : M unit :=
  modify (fun t => set_messages (messages t ++ [m]) t).

(** [self.tool_start_time = time.time()] *)
Definition start_timer : M unit :=
  t <- now ;; modify (set_tool_start_time (Some t)).

(** The call [self.x = a; self.current_tool_activity = b; self.tool_start_time
    = time.time()] shared by the progress branches. *)
Definition progress (status_text activity : pystr) : M unit :=
  modify (set_status status_text) ;;
  modify (set_current_tool_activity activity) ;;
  start_timer.

(** The chain [elif msg_type == 'engine': if ... elif ...] of status updates. *)
Definition engine_status (message metadata : json) : M unit :=
  b <- eval (py_in (lit "loading_personality") message) ;;
  if b then
    personality_name <- eval (py_get metadata (lit "message") (JStr (lit "personality"))) ;;
    modify (set_status (lit "Loading " ++ fstr personality_name ++ lit "..."))
  else
  b <- eval (py_in (lit "file_operations_calling_gemma") message) ;;
  if b then modify (set_status (lit "Planning file operations...")) else
  b <- eval (py_in (lit "file_operation_executing") message) ;;
  if b then
    operation <- eval (py_get metadata (lit "operation") (JStr (lit "operation"))) ;;
    modify (set_status (lit "Executing: " ++ fstr operation))
  else
  b <- eval (in_or (lit "personalizing") (lit "personality_interpretation") message) ;;
  if b then modify (set_status (lit "Personalizing response...")) else
  b <- eval (py_in (lit "intent_classification") message) ;;
  if b then
    progress ([0x1F9E0] ++ lit " Analyzing intent...") (lit "analyzing user intent")
  else
  b <- eval (py_in (lit "intelligence_router") message) ;;
  if b then
    progress ([0x1F916] ++ lit " Selecting optimal model...") (lit "routing to best AI model")
  else
  b <- eval (py_in (lit "tools_agent_start") message) ;;
  if b then
    progress ([0x1F527] ++ lit " Planning tool execution...") (lit "planning tool steps")
  else
  b <- eval (py_in (lit "tools_agent_executing_step") message) ;;
  if b then
    step_data <- eval (py_get metadata (lit "step") (JObj [])) ;;
    tool_name <- eval (py_get step_data (lit "tool") (JStr (lit "unknown"))) ;;
    description <- eval (py_get step_data (lit "description") (JStr [])) ;;
    modify (set_current_tool_activity (lit "executing " ++ fstr tool_name)) ;;
    (if py_truthy description
     then modify (set_status ([0x1F527] ++ lit " " ++ fstr description ++ lit "..."))
     else modify (set_status ([0x1F527] ++ lit " Executing " ++ fstr tool_name ++ lit "..."))) ;;
    start_timer
  else
  b <- eval (py_in (lit "recursive_validation") message) ;;
  if b then
    progress ([0x1F50D] ++ lit " Validating results recursively...") (lit "recursive validation")
  else
  b <- eval (py_in (lit "subconscious_reasoning") message) ;;
  if b then
    progress ([0x1F9E0] ++ lit " Deep reasoning with DeepSeek...")
             (lit "deep subconscious analysis")
  else
  b <- eval (py_in (lit "deepseek_attempt") message) ;;
  if b then
    attempt <- eval (py_get metadata (lit "attempt") (JInt 1)) ;;
    modify (set_status ([0x1F9E0] ++ lit " DeepSeek thinking (attempt "
                        ++ fstr attempt ++ lit ")...")) ;;
    modify (set_current_tool_activity
              (lit "DeepSeek reasoning (try " ++ fstr attempt ++ lit ")"))
  else
  b <- eval (py_in (lit "personality_interpretation") message) ;;
  if b then
    progress ([0x1F3AD] ++ lit " Ani interpreting response...")
             (lit "personality interpretation")
  else
  b <- eval (py_in (lit "thinking") message) ;;
  if b then
    thinking_msg <- eval (py_get metadata (lit "message") (JStr (lit "Thinking..."))) ;;
    progress ([0x1F4AD] ++ lit " " ++ fstr thinking_msg) (lit "thinking")
  else
  b <- eval (in_or (lit "_complete") (lit "_success") message) ;;
  if b then
    modify (set_current_tool_activity []) ;;
    modify (set_tool_start_time None) ;;
    modify (set_status ([0x2705] ++ lit " Task completed"))
  else
  b <- eval (match py_in (lit "_failed") message with
             | Done true => Done true
             | Done false => py_in_lower (lit "error") message
             | Raised e => Raised e
             end) ;;
  if b then
    modify (set_current_tool_activity []) ;;
    modify (set_tool_start_time None) ;;
    error_msg <- eval (py_get metadata (lit "error") (JStr (lit "Unknown error"))) ;;
    cut <- eval (py_slice50 error_msg) ;;
    modify (set_status ([0x274C] ++ lit " Error: " ++ fstr cut ++ lit "..."))
  else ret tt.

(** The body of the loop of [process_system_messages] for a line that parsed
    to the dict [msg]. *)
Definition handle_event (msg : list (pystr * json)) : M unit :=
  let msg_type := dict_get msg (lit "type") (JStr []) in
  let message := dict_get msg (lit "message") (JStr []) in
  let metadata := dict_get msg (lit "metadata") (JObj []) in
  ignored <- eval (should_ignore_message message msg_type) ;;
  if ignored then ret tt
  else if py_eq_str msg_type (lit "assistant_message") then
    let content := dict_get msg (lit "content") (JStr []) in
    source <- eval (py_get metadata (lit "source") (JStr [])) ;;
    stripped <- eval (py_strip content) ;;
    if nonempty stripped then
      let content :=
        if py_eq_str source (lit "personality_acknowledgment")
        then JStr ([0x1F3AD] ++ lit " " ++ fstr content)
        else content in
      stamp <- now ;;
      append_message {| msg_role := Assistant; msg_content := content;
                        msg_timestamp := stamp; msg_immediate := true;
                        msg_source := Some source; msg_tool := None |} ;;
      redraw
    else ret tt
  else if py_eq_str msg_type (lit "tool_activity") then
    let activity := dict_get msg (lit "activity") (JStr []) in
    stripped <- eval (py_strip activity) ;;
    (if nonempty stripped then
       (* [activity] is a str here: [strip] has just succeeded on it *)
       modify (set_current_tool_activity (fstr activity)) ;;
       start_timer ;;
       modify (set_tool_progress_dots 0%Z)
     else
       modify (set_current_tool_activity []) ;;
       modify (set_tool_start_time None)) ;;
    update_status ;;
    redraw
  else if py_eq_str msg_type (lit "tool_blurb") then
    let content := dict_get msg (lit "content") (JStr []) in
    let tool_name := dict_get msg (lit "tool_name") (JStr []) in
    stripped <- eval (py_strip content) ;;
    if nonempty stripped then
      stamp <- now ;;
      append_message {| msg_role := System;
                        msg_content := JStr ([0x1F527] ++ lit " " ++ fstr content);
                        msg_timestamp := stamp; msg_immediate := false;
                        msg_source := None; msg_tool := Some tool_name |} ;;
      redraw
    else ret tt
  else if py_eq_str msg_type (lit "engine") then
    state_changed <- eval (py_in (lit "system_state_changed") message) ;;
    if state_changed then
      status <- eval (py_get metadata (lit "status") (JStr [])) ;;
      status_message <- eval (py_get metadata (lit "message") (JStr [])) ;;
      if py_eq_str status (lit "ready") && py_truthy status_message then
        stamp <- now ;;
        append_message {| msg_role := System; msg_content := status_message;
                          msg_timestamp := stamp; msg_immediate := false;
                          msg_source := None; msg_tool := None |} ;;
        modify (set_status (lit "Status: Ready"))
      else ret tt
    else
    acknowledged <- eval (py_in (lit "file_operations_user_acknowledgment") message) ;;
    if acknowledged then
      acknowledgment <- eval (py_get metadata (lit "acknowledgment") (JStr [])) ;;
      stripped <- eval (py_strip acknowledgment) ;;
      if nonempty stripped then
        stamp <- now ;;
        append_message {| msg_role := Assistant; msg_content := acknowledgment;
                          msg_timestamp := stamp; msg_immediate := false;
                          msg_source := None; msg_tool := None |}
      else ret tt
    else engine_status message metadata
  else ret tt.

(** [for x in xs: body(x)] *)
Fixpoint for_each {A} (xs : list A) (body : A -> M unit) : M unit :=
  match xs with
  | [] => ret tt
  | x :: rest => body x ;; for_each rest body
  end.

Definition is_decode_error (e : exn) : bool := exn_eqb e JSONDecodeError.

(** One turn of [for line in lines]: blank lines are passed over, a line that
    is not JSON is skipped by [except json.JSONDecodeError: continue], and a
    JSON value that is not a dict is ignored. *)
Definition process_line (line : pystr) : M unit :=
  if nonempty (strip line) then
    try_except
      (msg <- eval (json_loads line) ;;
       match msg with
       | JObj d => handle_event d
       | _ => ret tt
       end)
      is_decode_error
      (fun _ => ret tt)
  else ret tt.

(** The body of the [try] of [process_system_messages]: the loop over the
    lines of the trimmed chunk. *)
Definition classify_lines (stderr_output : pystr) : M unit :=
  for_each (split_on 10 (strip stderr_output)) process_line.

(** [process_system_messages(stderr_output)]: the whole body stands in a
    [try] whose [except Exception] logs and returns. *)
Definition process_system_messages (stderr_output : pystr) : M unit :=
  try_except (classify_lines stderr_output) (fun _ => true) (fun _ => log_debug).

(** A chunk that ends where a line ends: it is empty or its last character
    is a line feed. *)
Definition at_line_boundary (chunk : pystr) : bool :=
  match rev chunk with
  | [] => true
  | c :: _ => c =? 10
  end.

(** The JSON decoder reads [line] the same with and without the white space
    at its ends. *)
Definition trims_alike (line : pystr) : Prop :=
  json_loads (lstrip line) = json_loads line
  /\ json_loads (rstrip line) = json_loads line
  /\ json_loads (strip line) = json_loads line.

(** The lines the loop does not pass over. *)
Definition nonblank (line : pystr) : bool := nonempty (strip line).

(* ===================================================================== *)
(** ** Response extraction and the end of [send_message] *)
(* ===================================================================== *)

(** [clean_response_formatting(content)] for a str. *)
Definition clean_response_formatting (content : pystr) : pystr :=
  match content with
  | [] => content
  | _ =>
      let content := replace (lit "*") [] content in
      let content := replace (lit "_") [] content in
      let content := replace (lit "**") [] content in
      let content := replace (lit "__") [] content in
      let content := collapse_newlines content in
      let content := collapse_spaces content in
      let content := replace [92; 34] [34] content in
      let content := replace [92; 110] [10] content in
      strip content
  end.

(** [clean_response_formatting] applied to whatever [response.get] gave: a
    falsy value is returned as it is, a str is cleaned, and any other value
    has no [replace]. *)
Definition clean_value (content : json) : outcome json :=
  if negb (py_truthy content) then Done content
  else match content with
       | JStr s => Done (JStr (clean_response_formatting s))
       | _ => Raised AttributeError
       end.

(** The variables of the candidate scan. *)
Record scan : Type := {
  brace_count : Z;
  start_pos : Z;
  json_candidates : list (pystr * Z)
}.

(** [isinstance(parsed, dict) and 'content' in parsed and 'metadata' in
    parsed], with the bare [except: pass] around the parse. *)
Definition looks_like_response (potential_json : pystr) : bool :=
  match json_loads potential_json with
  | Done (JObj d) => dict_has (lit "content") d && dict_has (lit "metadata") d
  | _ => false
  end.

(** One turn of [for i, char in enumerate(clean_stdout)]. *)
Definition scan_char (clean_stdout : pystr) (st : scan) (i : nat) (char : N) : scan :=
  if char =? 123 then
    {| brace_count := brace_count st + 1;
       start_pos := if (brace_count st =? 0)%Z then Z.of_nat i else start_pos st;
       json_candidates := json_candidates st |}
  else if char =? 125 then
    let count := (brace_count st - 1)%Z in
    if (count =? 0)%Z && negb (start_pos st =? -1)%Z then
      let potential_json := slice clean_stdout (Z.to_nat (start_pos st)) (i + 1) in
      {| brace_count := count;
         start_pos := (-1)%Z;
         json_candidates :=
           if looks_like_response potential_json
           then json_candidates st ++ [(potential_json, start_pos st)]
           else json_candidates st |}
    else
      {| brace_count := count; start_pos := start_pos st;
         json_candidates := json_candidates st |}
  else st.

Fixpoint scan_from (clean_stdout : pystr) (i : nat) (rest : pystr) (st : scan) : scan :=
  match rest with
  | [] => st
  | char :: rest' => scan_from clean_stdout (S i) rest' (scan_char clean_stdout st i char)
  end.

Definition scan_candidates (clean_stdout : pystr) : list (pystr * Z) :=
  json_candidates
    (scan_from clean_stdout 0 clean_stdout
       {| brace_count := 0; start_pos := -1; json_candidates := [] |}).

(** The second scan ("old method"): the index just after the brace that
    closes the first one, or -1. *)
Fixpoint find_json_end (i : nat) (count : Z) (json_part : pystr) : Z :=
  match json_part with
  | [] => (-1)%Z
  | char :: rest =>
      if char =? 123 then find_json_end (S i) (count + 1) rest
      else if char =? 125 then
        if (count - 1 =? 0)%Z then Z.of_nat i + 1
        else find_json_end (S i) (count - 1) rest
      else find_json_end (S i) count rest
  end.

(** Reading [s] at brace depth [depth]: whether the counter first comes back
    to 0 at the very last character of [s]. *)
Fixpoint closes_at_end (depth : Z) (s : pystr) : bool :=
  match s with
  | [] => false
  | c :: t =>
      if c =? 123 then closes_at_end (depth + 1) t
      else if c =? 125 then
        if (depth - 1 =? 0)%Z then match t with [] => true | _ => false end
        else closes_at_end (depth - 1) t
      else closes_at_end depth t
  end.

(** [s] is one balanced-brace span: it opens with a brace that its last
    character closes. *)
Definition brace_span (s : pystr) : bool :=
  match s with
  | c :: t => (c =? 123) && closes_at_end 1 t
  | [] => false
  end.

(** The brace counter after [s] has been read from 0: the opening braces
    of [s] minus its closing braces. *)
Fixpoint brace_depth (s : pystr) : Z :=
  match s with
  | [] => 0
  | c :: t => (if c =? 123 then 1 else if c =? 125 then -1 else 0) + brace_depth t
  end.

(** [s] has no brace. *)
Definition brace_free (s : pystr) : bool :=
  forallb (fun c => negb ((c =? 123) || (c =? 125))) s.

(** The candidate list after the span [text[a:b]], found at [p], has been
    tried. *)
Definition push (text : pystr) (cands : list (pystr * Z)) (a b : nat) (p : Z)
    : list (pystr * Z) :=
  if looks_like_response (slice text a b) then cands ++ [(slice text a b, p)] else cands.

(** The text handed to the final [json.loads]. *)
Definition choose_json (clean_stdout : pystr) : pystr :=
  match rev (scan_candidates clean_stdout) with
  | (clean_json, _) :: _ => clean_json
  | [] =>
      let json_start := find_char 123 clean_stdout 0 in
      if negb (json_start =? -1)%Z then
        let json_part := skipn (Z.to_nat json_start) clean_stdout in
        let json_end := find_json_end 0 0 json_part in
        if negb (json_end =? -1)%Z
        then firstn (Z.to_nat json_end) json_part
        else json_part
      else clean_stdout
  end.

Definition assistant_says (content : json) : M unit :=
  stamp <- now ;;
  append_message {| msg_role := Assistant; msg_content := content;
                    msg_timestamp := stamp; msg_immediate := false;
                    msg_source := None; msg_tool := None |}.

(** The branch [if return_code == 0] of [send_message]. *)
Definition handle_success (full_stdout : pystr) : M unit :=
  let clean_stdout := strip full_stdout in
  let clean_json := choose_json clean_stdout in
  log_debug ;;
  try_except
    (response <- eval (json_loads clean_json) ;;
     response_content <- eval (py_get response (lit "content") (JStr (lit "No response"))) ;;
     response_content <- eval (clean_value response_content) ;;
     _ <- eval (py_len response_content) ;;
     log_debug ;;
     assistant_says response_content)
    is_decode_error
    (fun _ =>
       let fallback_content :=
         if nonempty clean_stdout then clean_stdout else lit "No response" in
       log_debug ;;
       assistant_says (JStr fallback_content)).

(** The branch [else] of [if return_code == 0]. *)
Definition handle_failure (full_stderr : pystr) : M unit :=
  let error_msg := if nonempty full_stderr then full_stderr else lit "Command failed" in
  log_debug ;;
  assistant_says (JStr (lit "Error: " ++ error_msg)).

(** What follows the polling loop inside the [try] of [send_message]. *)
Definition handle_result (return_code : Z) (full_stdout full_stderr : pystr) : M unit :=
  if (return_code =? 0)%Z then handle_success full_stdout
  else handle_failure full_stderr.

(** [except Exception as e:] of [send_message].  The clause [except
    subprocess.TimeoutExpired] stands before it; none of the calls in the
    [try] is given a timeout, so none raises that class. *)
Definition report_exception (e : exn) : M unit :=
  log_debug ;;
  assistant_says (JStr (lit "Error: " ++ exn_text e)).

(** The statements after the [try] of [send_message]. *)
Definition finish_send (start_time : Q) : M unit :=
  modify (set_thinking false) ;;
  modify (set_current_tool_activity []) ;;
  modify (set_tool_start_time None) ;;
  finished <- now ;;
  modify (set_last_response_time (finished - start_time)%Q) ;;
  modify (fun t => set_total_messages_processed (total_messages_processed t + 1)%Z t) ;;
  update_status.

(** [send_message] from the moment the child has exited with [return_code]
    and the two streams have been joined. *)
Definition complete_send (start_time : Q) (return_code : Z)
    (full_stdout full_stderr : pystr) : M unit :=
  try_except (handle_result return_code full_stdout full_stderr)
             (fun _ => true) report_exception ;;
  finish_send start_time.

(* ===================================================================== *)
(** ** The polling loop of [send_message] *)
(* ===================================================================== *)

(** What the operating system shows of the backend child, turn by turn of the
    [while True] loop. *)
Record Child : Type := {
  (** the exception [subprocess.Popen] raises, if it does *)
  spawn_error : option exn;
  (** [process.poll()] at the given turn: [None] while the child runs *)
  poll : nat -> option Z;
  (** what [fd.read()] returns on stdout at the given turn (empty when the
      descriptor is not ready or has nothing) *)
  stdout_at : nat -> pystr;
  (** the same for stderr *)
  stderr_at : nat -> pystr;
  (** [process.stdout.read()] once the child has exited *)
  remaining_stdout : pystr;
  (** [process.stderr.read()] once the child has exited *)
  remaining_stderr : pystr
}.

(** The results of the loop: [stdout_lines], [stderr_lines] and the return
    code. *)
Definition gathered : Type := (list pystr * list pystr * Z)%type.

(** The [while True] loop.  The source has no bound on it; [fuel] bounds the
    number of turns the model follows, and [None] says that the loop is still
    running after that many turns. *)
Fixpoint pump (fuel turn : nat) (child : Child) (stdout_lines stderr_lines : list pystr)
    (w : World) : option (outcome gathered * World) :=
  match fuel with
  | O => None
  | S fuel' =>
      match poll child turn with
      | Some return_code =>
          let stdout_lines :=
            if nonempty (remaining_stdout child)
            then stdout_lines ++ [remaining_stdout child] else stdout_lines in
          if nonempty (remaining_stderr child) then
            match process_system_messages (remaining_stderr child) w with
            | (Done _, w') =>
                Some (Done (stdout_lines, stderr_lines ++ [remaining_stderr child],
                            return_code), w')
            | (Raised e, w') => Some (Raised e, w')
            end
          else Some (Done (stdout_lines, stderr_lines, return_code), w)
      | None =>
          let stdout_lines :=
            if nonempty (stdout_at child turn)
            then stdout_lines ++ [stdout_at child turn] else stdout_lines in
          if nonempty (stderr_at child turn) then
            match (process_system_messages (stderr_at child turn) ;; redraw) w with
            | (Done _, w') =>
                pump fuel' (S turn) child stdout_lines
                     (stderr_lines ++ [stderr_at child turn]) w'
            | (Raised e, w') =>
                (* [except IOError: pass] around the reads of one turn *)
                if exn_eqb e OSError
                then pump fuel' (S turn) child stdout_lines
                          (stderr_lines ++ [stderr_at child turn]) w'
                else Some (Raised e, w')
            end
          else pump fuel' (S turn) child stdout_lines stderr_lines w
      end
  end.

(** [send_message] up to the [try]: the start time is read, the status shows
    "thinking", the user message is appended. *)
Definition send_prologue (message : pystr) : M unit :=
  modify (set_thinking true) ;;
  update_status ;;
  draw_screen ;;
  stamp <- now ;;
  append_message {| msg_role := User; msg_content := JStr message;
                    msg_timestamp := stamp; msg_immediate := false;
                    msg_source := None; msg_tool := None |}.

(** [send_message(message)] against the child [child], followed for at most
    [fuel] turns of the polling loop. *)
Definition send_message (fuel : nat) (message : pystr) (child : Child)
    (w : World) : option (outcome unit * World) :=
  match (start_time <- now ;; log_debug ;; ret start_time) w with
  | (Raised e, w0) => Some (Raised e, w0)
  | (Done start_time, w0) =>
      if str_eqb (view_mode (self w0)) (lit "claude_raw")
      then Some (Done tt, w0)   (* send_to_claude_pty(message); return *)
      else
        match send_prologue message w0 with
        | (Raised e, w1) => Some (Raised e, w1)
        | (Done _, w1) =>
            match spawn_error child with
            | Some e => Some ((report_exception e ;; finish_send start_time) w1)
            | None =>
                match pump fuel 0 child [] [] w1 with
                | None => None
                | Some (Raised e, w2) =>
                    Some ((report_exception e ;; finish_send start_time) w2)
                | Some (Done (stdout_lines, stderr_lines, return_code), w2) =>
                    Some (complete_send start_time return_code
                            (concat stdout_lines) (concat stderr_lines) w2)
                end
            end
        end
  end.

End Classifier.

(* ===================================================================== *)
(** ** Text wrapping, keyboard shortcuts and the input line *)
(* ===================================================================== *)

(** [self.provider = v] *)
Definition set_provider (v : pystr) (t : TUI) : TUI :=
  {| messages := messages t; status := status t; provider := v; personality :=
     personality t; streaming := streaming t; thinking := thinking t; copy_mode :=
     copy_mode t; conversation_context := conversation_context t; tools_enabled :=
     tools_enabled t; view_mode := view_mode t; error_contexts_loaded :=
     error_contexts_loaded t; error_context_count := error_context_count t;
     file_operations_active := file_operations_active t; recovery_attempts :=
     recovery_attempts t; connection_status := connection_status t;
     current_tool_activity := current_tool_activity t; tool_progress_dots :=
     tool_progress_dots t; tool_start_time := tool_start_time t; last_response_time :=
     last_response_time t; total_messages_processed := total_messages_processed t |}.

(** [self.personality = v] *)
Definition set_personality (v : pystr) (t : TUI) : TUI :=
  {| messages := messages t; status := status t; provider := provider t; personality :=
     v; streaming := streaming t; thinking := thinking t; copy_mode := copy_mode t;
     conversation_context := conversation_context t; tools_enabled := tools_enabled t;
     view_mode := view_mode t; error_contexts_loaded := error_contexts_loaded t;
     error_context_count := error_context_count t; file_operations_active :=
     file_operations_active t; recovery_attempts := recovery_attempts t;
     connection_status := connection_status t; current_tool_activity :=
     current_tool_activity t; tool_progress_dots := tool_progress_dots t;
     tool_start_time := tool_start_time t; last_response_time := last_response_time t;
     total_messages_processed := total_messages_processed t |}.

(** [self.streaming = v] *)
Definition set_streaming (v : bool) (t : TUI) : TUI :=
  {| messages := messages t; status := status t; provider := provider t; personality :=
     personality t; streaming := v; thinking := thinking t; copy_mode := copy_mode t;
     conversation_context := conversation_context t; tools_enabled := tools_enabled t;
     view_mode := view_mode t; error_contexts_loaded := error_contexts_loaded t;
     error_context_count := error_context_count t; file_operations_active :=
     file_operations_active t; recovery_attempts := recovery_attempts t;
     connection_status := connection_status t; current_tool_activity :=
     current_tool_activity t; tool_progress_dots := tool_progress_dots t;
     tool_start_time := tool_start_time t; last_response_time := last_response_time t;
     total_messages_processed := total_messages_processed t |}.

(** [self.copy_mode = v] *)
Definition set_copy_mode (v : bool) (t : TUI) : TUI :=
  {| messages := messages t; status := status t; provider := provider t; personality :=
     personality t; streaming := streaming t; thinking := thinking t; copy_mode := v;
     conversation_context := conversation_context t; tools_enabled := tools_enabled t;
     view_mode := view_mode t; error_contexts_loaded := error_contexts_loaded t;
     error_context_count := error_context_count t; file_operations_active :=
     file_operations_active t; recovery_attempts := recovery_attempts t;
     connection_status := connection_status t; current_tool_activity :=
     current_tool_activity t; tool_progress_dots := tool_progress_dots t;
     tool_start_time := tool_start_time t; last_response_time := last_response_time t;
     total_messages_processed := total_messages_processed t |}.

(** [self.conversation_context = v] *)
Definition set_conversation_context (v : bool) (t : TUI) : TUI :=
  {| messages := messages t; status := status t; provider := provider t; personality :=
     personality t; streaming := streaming t; thinking := thinking t; copy_mode :=
     copy_mode t; conversation_context := v; tools_enabled := tools_enabled t; view_mode
     := view_mode t; error_contexts_loaded := error_contexts_loaded t;
     error_context_count := error_context_count t; file_operations_active :=
     file_operations_active t; recovery_attempts := recovery_attempts t;
     connection_status := connection_status t; current_tool_activity :=
     current_tool_activity t; tool_progress_dots := tool_progress_dots t;
     tool_start_time := tool_start_time t; last_response_time := last_response_time t;
     total_messages_processed := total_messages_processed t |}.

(** [self.tools_enabled = v] *)
Definition set_tools_enabled (v : bool) (t : TUI) : TUI :=
  {| messages := messages t; status := status t; provider := provider t; personality :=
     personality t; streaming := streaming t; thinking := thinking t; copy_mode :=
     copy_mode t; conversation_context := conversation_context t; tools_enabled := v;
     view_mode := view_mode t; error_contexts_loaded := error_contexts_loaded t;
     error_context_count := error_context_count t; file_operations_active :=
     file_operations_active t; recovery_attempts := recovery_attempts t;
     connection_status := connection_status t; current_tool_activity :=
     current_tool_activity t; tool_progress_dots := tool_progress_dots t;
     tool_start_time := tool_start_time t; last_response_time := last_response_time t;
     total_messages_processed := total_messages_processed t |}.

(** [self.view_mode = v] *)
Definition set_view_mode (v : pystr) (t : TUI) : TUI :=
  {| messages := messages t; status := status t; provider := provider t; personality :=
     personality t; streaming := streaming t; thinking := thinking t; copy_mode :=
     copy_mode t; conversation_context := conversation_context t; tools_enabled :=
     tools_enabled t; view_mode := v; error_contexts_loaded := error_contexts_loaded t;
     error_context_count := error_context_count t; file_operations_active :=
     file_operations_active t; recovery_attempts := recovery_attempts t;
     connection_status := connection_status t; current_tool_activity :=
     current_tool_activity t; tool_progress_dots := tool_progress_dots t;
     tool_start_time := tool_start_time t; last_response_time := last_response_time t;
     total_messages_processed := total_messages_processed t |}.

(** Two states of the object that differ at most in the status line. *)
Definition same_but_status (a b : TUI) : Prop := set_status [] a = set_status [] b.

(** The parts of the object that belong to the conversation and its
    bookkeeping are the same in two states. *)
Definition session_kept (a b : TUI) : Prop :=
  messages a = messages b /\ thinking a = thinking b
  /\ current_tool_activity a = current_tool_activity b
  /\ tool_progress_dots a = tool_progress_dots b
  /\ tool_start_time a = tool_start_time b
  /\ last_response_time a = last_response_time b
  /\ total_messages_processed a = total_messages_processed b
  /\ error_contexts_loaded a = error_contexts_loaded b
  /\ error_context_count a = error_context_count b
  /\ file_operations_active a = file_operations_active b
  /\ recovery_attempts a = recovery_attempts b
  /\ connection_status a = connection_status b.

(** The settings the user chooses with the shortcuts are the same in two
    states. *)
Definition settings_kept (a b : TUI) : Prop :=
  provider a = provider b /\ personality a = personality b
  /\ streaming a = streaming b /\ copy_mode a = copy_mode b
  /\ conversation_context a = conversation_context b
  /\ tools_enabled a = tools_enabled b /\ view_mode a = view_mode b.

(** The message log of [b] is the log of [a] with messages added at its
    end. *)
Definition log_extends (a b : TUI) : Prop :=
  exists added, messages b = messages a ++ added.

(** The thinking flag, the response time, the counter and the system
    indicators are the same in two states. *)
Definition bookkeeping_kept (a b : TUI) : Prop :=
  thinking a = thinking b
  /\ last_response_time a = last_response_time b
  /\ total_messages_processed a = total_messages_processed b
  /\ error_contexts_loaded a = error_contexts_loaded b
  /\ error_context_count a = error_context_count b
  /\ file_operations_active a = file_operations_active b
  /\ recovery_attempts a = recovery_attempts b
  /\ connection_status a = connection_status b.

(** From [a] to [b] the log has only grown, the settings and the bookkeeping
    are what they were, and the clock has not gone back: at most the status
    line, the activity label, its dots and its start time differ otherwise. *)
Definition evolves (a b : World) : Prop :=
  log_extends (self a) (self b)
  /\ settings_kept (self a) (self b)
  /\ bookkeeping_kept (self a) (self b)
  /\ (reads a <= reads b)%nat.

(** A method body that only lets the world evolve, whatever it returns or
    raises. *)
Definition steady {A} (m : M A) : Prop := forall w, evolves w (snd (m w)).

(** What [handle_shortcuts] returns: [True], ["EXIT"] or [False]. *)
Inductive shortcut : Type := Handled | ExitRequested | NotAShortcut.

(** [options.index(x)] *)
Fixpoint index_of (x : pystr) (options : list pystr) : option nat :=
  match options with
  | [] => None
  | o :: rest =>
      if str_eqb o x then Some 0%nat
      else match index_of x rest with
           | Some i => Some (S i)
           | None => None
           end
  end.

(** [options[(current_idx + 1) % len(options)]] with [current_idx =
    options.index(current) if current in options else 0]. *)
Definition next_option (options : list pystr) (current : pystr) : pystr :=
  let current_idx := match index_of current options with
                     | Some i => i
                     | None => 0%nat
                     end in
  nth ((current_idx + 1) mod length options) options [].

Definition providers : list pystr := [lit "claude"; lit "gemini"; lit "local"].
Definition personalities : list pystr := [lit "ani"; lit "professional"; lit "casual"].

(** [curses.KEY_BACKSPACE] *)
Definition KEY_BACKSPACE : Z := 263.

(** What one turn of the main loop decides. *)
Inductive loop_step : Type := KeepRunning | LeaveLoop.

Section Keyboard.

Context {RT : PyRuntime} {TE : Terminal}.

(** [handle_shortcuts(ch)] *)
Definition handle_shortcuts (ch : Z) : M shortcut :=
  if (ch =? 20)%Z then
    t <- get ;;
    let new_provider := next_option providers (provider t) in
    log_debug ;;
    modify (set_provider new_provider) ;;
    update_status ;;
    ret Handled
  else if (ch =? 12)%Z then
    modify (fun t => set_conversation_context (negb (conversation_context t)) t) ;;
    log_debug ;;
    update_status ;;
    ret Handled
  else if (ch =? 19)%Z then
    modify (fun t => set_streaming (negb (streaming t)) t) ;;
    update_status ;;
    ret Handled
  else if (ch =? 16)%Z then
    modify (fun t => set_personality (next_option personalities (personality t)) t) ;;
    update_status ;;
    ret Handled
  else if (ch =? 22)%Z then
    modify (fun t =>
              if str_eqb (view_mode t) (lit "personality")
              then set_view_mode (lit "claude_raw") t
              else set_view_mode (lit "personality") t) ;;
    log_debug ;;
    update_status ;;
    ret Handled
  else if (ch =? 18)%Z then
    modify (fun t => set_copy_mode (negb (copy_mode t)) t) ;;
    update_status ;;
    ret Handled
  else if (ch =? 15)%Z then
    t <- get ;;
    (if str_eqb (provider t) (lit "local") then
       modify (fun t => set_tools_enabled (negb (tools_enabled t)) t) ;;
       log_debug ;;
       update_status
     else log_debug) ;;
    ret Handled
  else if (ch =? 3)%Z then ret ExitRequested
  else ret NotAShortcut.

(** The world after the key [ch] has gone through [handle_shortcuts]. *)
Definition press (ch : Z) (w : World) : World := snd (handle_shortcuts ch w).

(** The keys [handle_shortcuts] knows. *)
Definition shortcut_keys : list Z := [20; 12; 19; 16; 22; 18; 15; 3]%Z.

(** The input line after a key that is no shortcut and not Enter: backspace
    removes the last character, a printable character is added at the end. *)
Definition edit_input (ch : Z) (current_input : pystr) : pystr :=
  if (ch =? 8)%Z || (ch =? 127)%Z || (ch =? KEY_BACKSPACE)%Z then
    if nonempty current_input then removelast current_input else current_input
  else if (32 <=? ch)%Z && (ch <=? 126)%Z then current_input ++ [Z.to_N ch]
  else current_input.

(** What a turn of the [while True] of [run] does from the key [ch] that
    [getch] returned on, with the input line [current_input]; [child] is
    the backend started if the turn sends a message, followed for [fuel]
    turns of its polling loop.  The result is what the turn decides, the
    input line and the world after it.  The input line is cleared before
    the send, so the draws of the send show an empty line. *)
Definition on_key (fuel : nat) (child : Child) (ch : Z) (current_input : pystr)
    (w : World) : option (outcome loop_step * pystr * World) :=
  if (ch =? -1)%Z then
    match (t <- get ;;
           if nonempty (current_tool_activity t) then
             modify (set_tool_progress_dots ((tool_progress_dots t + 1) mod 4)%Z) ;;
             update_status
           else ret tt) w with
    | (Done _, w1) => Some (Done KeepRunning, current_input, w1)
    | (Raised e, w1) => Some (Raised e, current_input, w1)
    end
  else
    match handle_shortcuts ch w with
    | (Raised e, w1) => Some (Raised e, current_input, w1)
    | (Done ExitRequested, w1) => Some (Done LeaveLoop, current_input, w1)
    | (Done Handled, w1) => Some (Done KeepRunning, current_input, w1)
    | (Done NotAShortcut, w1) =>
        if (ch =? 10)%Z || (ch =? 13)%Z then
          if nonempty (strip current_input) then
            match send_message (TE := typing [] TE) fuel (strip current_input) child w1 with
            | None => None
            | Some (Done _, w2) => Some (Done KeepRunning, [], w2)
            | Some (Raised e, w2) => Some (Raised e, [], w2)
            end
          else Some (Done KeepRunning, current_input, w1)
        else Some (Done KeepRunning, edit_input ch current_input, w1)
    end.

(** One whole turn of the [while True] of [run]: the draw unless copy mode
    is on, then [getch], which returns a key [Done ch] or raises, then what
    the key does.  An exception leaves [run]. *)
Definition turn (fuel : nat) (child : Child) (got : outcome Z) (current_input : pystr)
    (w : World) : option (outcome loop_step * pystr * World) :=
  match redraw (TE := typing current_input TE) w with
  | (Raised e, w0) => Some (Raised e, current_input, w0)
  | (Done _, w0) =>
      match got with
      | Raised e => Some (Raised e, current_input, w0)
      | Done ch => on_key fuel child ch current_input w0
      end
  end.

End Keyboard.

(* ===================================================================== *)
(** ** A reference runtime: the JSON decoder of the [json] module *)
(* ===================================================================== *)

Module Ref.

(** [WHITESPACE = re.compile(r'[ \t\n\r]*')] *)
Definition is_json_ws (c : N) : bool :=
  (c =? 32) || (c =? 9) || (c =? 10) || (c =? 13).

Fixpoint skip_ws (s : pystr) : pystr :=
  match s with
  | [] => []
  | c :: t => if is_json_ws c then skip_ws t else s
  end.

Definition is_digit (c : N) : bool := (48 <=? c) && (c <=? 57).

(** The value of a hexadecimal digit. *)
Definition hex_value (c : N) : option N :=
  if is_digit c then Some (c - 48)
  else if (97 <=? c) && (c <=? 102) then Some (c - 87)
  else if (65 <=? c) && (c <=? 70) then Some (c - 55)
  else None.

Definition hex4 (a b c d : N) : option N :=
  match hex_value a, hex_value b, hex_value c, hex_value d with
  | Some x, Some y, Some z, Some u => Some (((x * 16 + y) * 16 + z) * 16 + u)
  | _, _, _, _ => None
  end.

Definition is_high_surrogate (c : N) : bool := (0xD800 <=? c) && (c <=? 0xDBFF).
Definition is_low_surrogate (c : N) : bool := (0xDC00 <=? c) && (c <=? 0xDFFF).

(** [scanstring] in strict mode, from just after the opening quote: the
    decoded string and the text after the closing quote.  [acc] is the string
    decoded so far, reversed. *)
Fixpoint scanstring (acc : pystr) (s : pystr) : option (pystr * pystr) :=
  match s with
  | [] => None                                   (* unterminated *)
  | c :: t =>
      if c =? 34 then Some (rev acc, t)
      else if c =? 92 then
        match t with
        | [] => None
        | e :: t1 =>
            if e =? 117 then
              match t1 with
              | h1 :: h2 :: h3 :: h4 :: t2 =>
                  match hex4 h1 h2 h3 h4 with
                  | None => None
                  | Some u =>
                      match t2 with
                      | b :: v :: g1 :: g2 :: g3 :: g4 :: t3 =>
                          if is_high_surrogate u && (b =? 92) && (v =? 117) then
                            match hex4 g1 g2 g3 g4 with
                            | None => None
                            | Some u2 =>
                                if is_low_surrogate u2
                                then scanstring
                                       ((0x10000 + ((u - 0xD800) * 1024 + (u2 - 0xDC00)))
                                          :: acc) t3
                                else scanstring (u :: acc) t2
                            end
                          else scanstring (u :: acc) t2
                      | _ => scanstring (u :: acc) t2
                      end
                  end
              | _ => None
              end
            else if (e =? 34) || (e =? 92) || (e =? 47) then scanstring (e :: acc) t1
            else if e =? 98 then scanstring (8 :: acc) t1
            else if e =? 102 then scanstring (12 :: acc) t1
            else if e =? 110 then scanstring (10 :: acc) t1
            else if e =? 114 then scanstring (13 :: acc) t1
            else if e =? 116 then scanstring (9 :: acc) t1
            else None
        end
      else if c <=? 31 then None                 (* control character *)
      else scanstring (c :: acc) t
  end.

(** The longest prefix of digits, and what follows it. *)
Fixpoint take_digits (s : pystr) : pystr * pystr :=
  match s with
  | c :: t => if is_digit c then let (ds, r) := take_digits t in (c :: ds, r) else ([], s)
  | [] => ([], [])
  end.

Definition digits_value (ds : pystr) : Z :=
  fold_left (fun (n : Z) (c : N) => (n * 10 + Z.of_N (c - 48))%Z) ds 0%Z.

(** [s] without the prefix [p], when it starts with it. *)
Fixpoint after (p s : pystr) : option pystr :=
  match p, s with
  | [], _ => Some s
  | _ :: _, [] => None
  | a :: p', b :: s' => if a =? b then after p' s' else None
  end.

(** The parts of a number, as NUMBER_RE reads them: an optional minus sign;
    then 0, or a digit 1-9 followed by digits; optionally a point and at
    least one digit; optionally e or E, an optional sign and at least one
    digit.  Each function returns the text it matched and the text after
    it. *)
Definition take_sign (s : pystr) : pystr * pystr :=
  match after [45] s with
  | Some t => ([45], t)
  | None => ([], s)
  end.

Definition take_integer (s : pystr) : option (pystr * pystr) :=
  match s with
  | [] => None
  | c :: t =>
      if (49 <=? c) && (c <=? 57)
      then let (ds, r) := take_digits t in Some (c :: ds, r)
      else if c =? 48 then Some ([48], t)
      else None
  end.

Definition take_fraction (s : pystr) : pystr * pystr :=
  match s with
  | p :: d :: r =>
      if (p =? 46) && is_digit d
      then let (ds, r') := take_digits r in (p :: d :: ds, r')
      else ([], s)
  | _ => ([], s)
  end.

Definition take_exponent (s : pystr) : pystr * pystr :=
  match s with
  | e :: r =>
      if (e =? 101) || (e =? 69) then
        let (sg, r') :=
          match r with
          | x :: y => if (x =? 43) || (x =? 45) then ([x], y) else ([], r)
          | [] => ([], r)
          end in
        let (ds, r'') := take_digits r' in
        match ds with
        | [] => ([], s)
        | _ => (e :: sg ++ ds, r'')
        end
      else ([], s)
  | [] => ([], s)
  end.

(** The number at the head of [s]: an int when only the integer part
    matched, else a float. *)
Definition match_number (s : pystr) : option (json * pystr) :=
  let (sign, s1) := take_sign s in
  match take_integer s1 with
  | None => None
  | Some (ip, r) =>
      let (frac, r1) := take_fraction r in
      let (expo, r2) := take_exponent r1 in
      match frac, expo with
      | [], [] =>
          Some (JInt (match sign with
                      | [] => digits_value ip
                      | _ => - digits_value ip
                      end)%Z, r2)
      | _, _ => Some (JFloat (sign ++ ip ++ frac ++ expo), r2)
      end
  end.

Inductive parsed (A : Type) : Type :=
| Parsed (v : A) (rest : pystr)
| Malformed
| Exhausted.

Arguments Parsed {A} v rest.
Arguments Malformed {A}.
Arguments Exhausted {A}.

(** The constants and numbers of [scan_once]. *)
Definition scan_atom (s : pystr) : parsed json :=
  match after (lit "null") s with
  | Some r => Parsed JNull r
  | None =>
  match after (lit "true") s with
  | Some r => Parsed (JBool true) r
  | None =>
  match after (lit "false") s with
  | Some r => Parsed (JBool false) r
  | None =>
  match after (lit "NaN") s with
  | Some r => Parsed (JFloat (lit "NaN")) r
  | None =>
  match after (lit "Infinity") s with
  | Some r => Parsed (JFloat (lit "Infinity")) r
  | None =>
  match after (lit "-Infinity") s with
  | Some r => Parsed (JFloat (lit "-Infinity")) r
  | None =>
  match match_number s with
  | Some (v, r) => Parsed v r
  | None => Malformed
  end end end end end end end.

(** [scan_once], [JSONObject] and [JSONArray].  Every call costs one unit of
    [fuel]; [Exhausted] says that the fuel ran out.  A text of n characters
    never needs more than 2n+1 units ([loads_fuel_suffices]). *)
Fixpoint scan_once (fuel : nat) (s : pystr) {struct fuel} : parsed json :=
  match fuel with
  | O => Exhausted
  | S fuel' =>
      match s with
      | [] => Malformed
      | c :: t =>
          if c =? 34 then
            match scanstring [] t with
            | Some (str, rest) => Parsed (JStr str) rest
            | None => Malformed
            end
          else if c =? 123 then
            match after [125] (skip_ws t) with
            | Some rest => Parsed (JObj []) rest
            | None => parse_members fuel' [] (skip_ws t)
            end
          else if c =? 91 then
            match after [93] (skip_ws t) with
            | Some rest => Parsed (JArr []) rest
            | None => parse_items fuel' [] (skip_ws t)
            end
          else scan_atom s
      end
  end

with parse_members (fuel : nat) (acc : list (pystr * json)) (s : pystr)
    {struct fuel} : parsed json :=
  match fuel with
  | O => Exhausted
  | S fuel' =>
      match after [34] s with
      | None => Malformed                (* a key must open with a quote *)
      | Some t =>
          match scanstring [] t with
          | None => Malformed
          | Some (key, r1) =>
              match after [58] (skip_ws r1) with
              | None => Malformed
              | Some r2 =>
                  match scan_once fuel' (skip_ws r2) with
                  | Parsed value r3 =>
                      let acc' := dict_set key value acc in
                      match after [125] (skip_ws r3) with
                      | Some r4 => Parsed (JObj acc') r4
                      | None =>
                          match after [44] (skip_ws r3) with
                          | Some r4 => parse_members fuel' acc' (skip_ws r4)
                          | None => Malformed
                          end
                      end
                  | Malformed => Malformed
                  | Exhausted => Exhausted
                  end
              end
          end
      end
  end

with parse_items (fuel : nat) (acc : list json) (s : pystr) {struct fuel} : parsed json :=
  match fuel with
  | O => Exhausted
  | S fuel' =>
      match scan_once fuel' s with
      | Parsed value r1 =>
          match after [93] (skip_ws r1) with
          | Some r2 => Parsed (JArr (acc ++ [value])) r2
          | None =>
              match after [44] (skip_ws r1) with
              | Some r2 => parse_items fuel' (acc ++ [value]) (skip_ws r2)
              | None => Malformed
              end
          end
      | Malformed => Malformed
      | Exhausted => Exhausted
      end
  end.

(** [json.loads(s)] for a str: a leading byte-order mark is refused, white
    space around the document is allowed, anything after it is "Extra data". *)
Definition loads (s : pystr) : outcome json :=
  match after [0xFEFF] s with
  | Some _ => Raised JSONDecodeError
  | None =>
      match scan_once (S (2 * length s)) (skip_ws s) with
      | Parsed v rest =>
          match skip_ws rest with
          | [] => Done v
          | _ => Raised JSONDecodeError
          end
      | Malformed => Raised JSONDecodeError
      | Exhausted => Raised RecursionError
      end
  end.

(** A clock that advances by a hundredth of a second per reading. *)
Definition ticks (n : nat) : Q := (1 + inject_Z (Z.of_nat n) / 100)%Q.

(** One decimal, rounded to the nearest tenth. *)
Definition format_1f (q : Q) : pystr :=
  let tenths := Qfloor (q * 10 + (1 # 2))%Q in
  let a := Z.abs tenths in
  (if (tenths <? 0)%Z then lit "-" else [])
  ++ str_of_int (a / 10)%Z ++ lit "." ++ str_of_int (a mod 10)%Z.

(** [repr(v)], with strings in single quotes and without escapes. *)
Fixpoint repr (v : json) : pystr :=
  match v with
  | JNull => lit "None"
  | JBool true => lit "True"
  | JBool false => lit "False"
  | JInt z => str_of_int z
  | JFloat x => x
  | JStr s => lit "'" ++ s ++ lit "'"
  | JArr l => lit "[" ++ join (lit ", ") (map repr l) ++ lit "]"
  | JObj d =>
      lit "{"
      ++ join (lit ", ")
           (map (fun kv => lit "'" ++ fst kv ++ lit "': " ++ repr (snd kv)) d)
      ++ lit "}"
  end.

(** A float text denotes 0.0 when its mantissa has no digit other than 0. *)
Fixpoint mantissa_nonzero (x : pystr) : bool :=
  match x with
  | [] => false
  | c :: t =>
      if (c =? 101) || (c =? 69) then false
      else if (c =? 78) || (c =? 73) then true       (* NaN, Infinity *)
      else ((49 <=? c) && (c <=? 57)) || mantissa_nonzero t
  end.

(** [lower] on the letters A to Z. *)
Definition lower (s : pystr) : pystr :=
  map (fun c => if (65 <=? c) && (c <=? 90) then c + 32 else c) s.

Definition exception_name (e : exn) : pystr :=
  match e with
  | JSONDecodeError => lit "JSONDecodeError"
  | AttributeError => lit "AttributeError"
  | TypeError => lit "TypeError"
  | ValueError => lit "ValueError"
  | RecursionError => lit "RecursionError"
  | OSError => lit "OSError"
  | CursesError => lit "curses.error"
  end.

#[export] Instance runtime : PyRuntime := {|
  json_loads := loads;
  clock := ticks;
  fmt_1f := format_1f;
  py_format := repr;
  float_nonzero := mantissa_nonzero;
  str_lower := lower;
  exn_text := exception_name
|}.

(** [self] as [__init__] leaves it. *)
Definition fresh : TUI :=
  {| messages := []; status := lit "Ready"; provider := lit "claude";
     personality := lit "ani"; streaming := true; thinking := false;
     copy_mode := false; conversation_context := true; tools_enabled := false;
     view_mode := lit "personality"; error_contexts_loaded := false;
     error_context_count := 0; file_operations_active := false;
     recovery_attempts := 0; connection_status := lit "unknown";
     current_tool_activity := []; tool_progress_dots := 0;
     tool_start_time := None; last_response_time := 0;
     total_messages_processed := 0 |}.

Definition boot : World := {| self := fresh; reads := 0 |}.

(** A window of 24 rows and 80 columns: a text is refused when it holds a
    NUL character or does not fit between its place and the end of the
    window.  No PTY session, an empty input line. *)
Definition window_addstr (y x : Z) (text : pystr) : option exn :=
  if existsb (N.eqb 0) text then Some ValueError
  else if ((y <? 0) || (x <? 0) || (80 <=? x)
           || (24 * 80 <=? y * 80 + x + Z.of_nat (length text)))%Z
  then Some CursesError
  else None.

Definition clock_text (stamp : Q) : pystr := lit "12:00:00".

#[export] Instance terminal : Terminal := {|
  stdscr_clear := None;
  getmaxyx := (24, 80)%Z;
  addstr := window_addstr;
  stdscr_refresh := None;
  strftime := clock_text;
  input_line := [];
  claude_pid := None;
  claude_output_buffer := []
|}.

End Ref.

(* ===================================================================== *)
(** ** Inputs used in the examples *)
(* ===================================================================== *)

(** One read of 1000 line feeds: it fills the PTY buffer to its cap. *)
Definition full_read : pystr := repeat 10 1000.

(** Two response objects one after the other. *)
Definition object_a : pystr := jlit "{'content':'a','metadata':{}}".
Definition object_b : pystr := jlit "{'content':'b','metadata':{}}".
Definition two_objects : pystr := object_a ++ lit " " ++ object_b.
(** The two objects and then an object without the two keys. *)
Definition three_spans : pystr := object_a ++ lit " " ++ object_b ++ lit " {}".
(** The same two objects behind a stray closing brace. *)
Definition two_objects_after_brace : pystr := lit "}" ++ object_a ++ object_b.

Definition marked_error_event : list (pystr * json) :=
  [(lit "type", JStr (lit "error")); (lit "message", JStr (lit "all_json_blocks_failed"))].
Definition reading_event : list (pystr * json) :=
  [(lit "type", JStr (lit "tool_activity")); (lit "activity", JStr (lit "reading file"))].
Definition space_event : list (pystr * json) :=
  [(lit "type", JStr (lit "tool_activity")); (lit "activity", JStr (lit " "))].
Definition blank_assistant_event : list (pystr * json) :=
  [(lit "type", JStr (lit "assistant_message")); (lit "content", JStr (lit "   "))].

(** Diagnostic lines. *)
Definition reading_line : pystr := jlit "{'type':'tool_activity','activity':'reading file'}".
Definition cleared_line : pystr := jlit "{'type':'tool_activity','activity':''}".
Definition hello_line : pystr := jlit "{'type':'assistant_message','content':'hi'}".
(** The same lines with a blank, a tab or a carriage return around them,
    cut at the line feeds. *)
Definition padded_chunks : list pystr :=
  [lit " " ++ reading_line ++ lit " " ++ [10]; [9] ++ hello_line ++ [13; 10];
   cleared_line].
Definition padded_lines : list pystr :=
  [lit " " ++ reading_line ++ lit " "; [9] ++ hello_line ++ [13]; cleared_line].
Definition ready_number_line : pystr :=
  jlit "{'type':'engine','message':'system_state_changed','metadata':{'status':'ready','message':5}}".
Definition ill_typed_line : pystr := jlit "{'type':'assistant_message','content':5}".

(** A backend child that starts, prints nothing and never exits. *)
Definition hung_child : Child :=
  {| spawn_error := None; poll := fun _ => None;
     stdout_at := fun _ => []; stderr_at := fun _ => [];
     remaining_stdout := []; remaining_stderr := [] |}.

(** A backend child that never exits and prints a diagnostic line at every
    turn, and a world with copy mode on. *)
Definition chatty_child : Child :=
  {| spawn_error := None; poll := fun _ => None;
     stdout_at := fun _ => []; stderr_at := fun _ => hello_line ++ [10];
     remaining_stdout := []; remaining_stderr := [] |}.
Definition copy_world : World :=
  {| self := set_copy_mode true Ref.fresh; reads := 0 |}.

(** A backend child that exits with [return_code] at the third turn, having
    printed [out] and [err]. *)
Definition finished_child (return_code : Z) (out err : pystr) : Child :=
  {| spawn_error := None;
     poll := fun turn => if (turn <? 2)%nat then None else Some return_code;
     stdout_at := fun _ => []; stderr_at := fun _ => [];
     remaining_stdout := out; remaining_stderr := err |}.

(** An assistant message with the given text. *)
Definition said (content : pystr) : message :=
  {| msg_role := Assistant; msg_content := JStr content; msg_timestamp := 0%Q;
     msg_immediate := false; msg_source := None; msg_tool := None |}.

(** A chat of three short messages, and the two of them that fit a terminal
    of ten rows. *)
Definition short_chat : TUI :=
  set_messages [said (lit "one"); said (lit "two words"); said (lit "three")] Ref.fresh.
Definition short_chat_window : list (message * Z) :=
  [(said (lit "two words"), 1%Z); (said (lit "three"), 1%Z)].

(** A backend child that prints its answer in two parts and a diagnostic
    line in between, and exits at the third turn with one more diagnostic
    line left to read. *)
Definition streaming_child : Child :=
  {| spawn_error := None;
     poll := fun turn => if (turn <? 2)%nat then None else Some 0%Z;
     stdout_at := fun turn => if (turn =? 0)%nat then jlit "{'content':'po"
                              else if (turn =? 1)%nat then jlit "ng','metadata':{}}"
                              else [];
     stderr_at := fun turn => if (turn =? 1)%nat then reading_line ++ [10] else [];
     remaining_stdout := []; remaining_stderr := hello_line |}.


(** The world after 'ping' has been sent to that child. *)
Definition sent_world : World :=
  match send_message (RT := Ref.runtime) (TE := Ref.terminal) 5 (lit "ping") streaming_child Ref.boot with
  | Some (_, w) => w
  | None => Ref.boot
  end.

(** A backend that cannot be started, and the world after 'ping' has been
    sent to it. *)
Definition broken_child : Child :=
  {| spawn_error := Some OSError; poll := fun _ => None;
     stdout_at := fun _ => []; stderr_at := fun _ => [];
     remaining_stdout := []; remaining_stderr := [] |}.
Definition refused_world : World :=
  match send_message (RT := Ref.runtime) (TE := Ref.terminal) 0 (lit "ping") broken_child Ref.boot with
  | Some (_, w) => w
  | None => Ref.boot
  end.

(** A world in the raw view. *)
Definition raw_world : World :=
  {| self := set_view_mode (lit "claude_raw") Ref.fresh; reads := 0 |}.

(** More events. *)
Definition blurb_event : list (pystr * json) :=
  [(lit "type", JStr (lit "tool_blurb")); (lit "content", JStr (lit "ran ls"));
   (lit "tool_name", JStr (lit "shell"));
   (lit "message", JStr (lit "ollama_request_enqueued"))].
Definition progress_event : list (pystr * json) :=
  [(lit "type", JStr (lit "progress")); (lit "message", JStr (lit "tools_agent_start"))].
Definition ready_event : list (pystr * json) :=
  [(lit "type", JStr (lit "engine")); (lit "message", JStr (lit "system_state_changed"));
   (lit "metadata", JObj [(lit "status", JStr (lit "ready"));
                          (lit "message", JStr (lit "Ani is ready"))])].
Definition ready_number_event : list (pystr * json) :=
  [(lit "type", JStr (lit "engine")); (lit "message", JStr (lit "system_state_changed"));
   (lit "metadata", JObj [(lit "status", JStr (lit "ready")); (lit "message", JInt 5)])].
Definition failed_event : list (pystr * json) :=
  [(lit "type", JStr (lit "engine")); (lit "message", JStr (lit "tools_agent_start_failed"));
   (lit "metadata", JObj [(lit "error", JStr (lit "disk full"))])].

(** The world after a ready event whose text is the number 5, which the
    chat view cannot draw, and the world a send of 'ping' leaves then. *)
Definition numbered_world : World :=
  snd (handle_event (RT := Ref.runtime) (TE := Ref.terminal) ready_number_event Ref.boot).
Definition stuck_world : World :=
  match send_message (RT := Ref.runtime) (TE := Ref.terminal) 5 (lit "ping")
          streaming_child numbered_world with
  | Some (_, w) => w
  | None => Ref.boot
  end.

(* ===================================================================== *)
(** * Properties of the PTY buffer *)
(* ===================================================================== *)

Section PtyBuffer.

Lemma last_n_length {A} (n : nat) (l : list A) :
  (n <= length l)%nat -> length (last_n n l) = n.
Proof.
  intros Hn. unfold last_n. rewrite length_skipn. lia.
Qed.

Lemma last_n_suffix {A} (n : nat) (l : list A) :
  firstn (length l - n) l ++ last_n n l = l.
Proof. unfold last_n. apply firstn_skipn. Qed.

Lemma pty_append_cases (buffer : list pystr) (data : pystr) :
  let extended := buffer ++ splitlines data in
  (length buffer <= 1000)%nat ->
  pty_append buffer data =
    if (1000 <? length extended)%nat then last_n 500 extended else extended.
Proof.
  intros extended Hb. unfold pty_append. destruct data as [|c data'].
  - subst extended. cbn [splitlines splitlines_go]. rewrite app_nil_r.
    destruct (Nat.ltb_spec 1000 (length buffer)); [lia | reflexivity].
  - reflexivity.
Qed.

Lemma pty_append_bound (buffer : list pystr) (data : pystr) :
  (length buffer <= 1000)%nat -> (length (pty_append buffer data) <= 1000)%nat.
Proof.
  intros Hb. rewrite pty_append_cases by assumption.
  destruct (Nat.ltb_spec 1000 (length (buffer ++ splitlines data))) as [Hgt | Hle].
  - rewrite last_n_length; lia.
  - exact Hle.
Qed.

Lemma pty_fold_bound (datas : list pystr) :
  forall buffer, (length buffer <= 1000)%nat ->
                 (length (fold_left pty_append datas buffer) <= 1000)%nat.
Proof.
  induction datas as [|d datas IH]; intros buffer Hb; cbn [fold_left].
  - exact Hb.
  - apply IH, pty_append_bound, Hb.
Qed.

Lemma pty_run_bound (datas : list pystr) : (length (pty_run datas) <= 1000)%nat.
Proof. apply pty_fold_bound. cbn. lia. Qed.

Lemma last_n_app_short {A} (n : nat) (a b : list A) :
  (length b <= n <= length a + length b)%nat ->
  last_n n (a ++ b) = last_n (n - length b) a ++ b.
Proof.
  intros Hn. unfold last_n. rewrite length_app, skipn_app.
  replace (length a + length b - n - length a)%nat with 0%nat by lia.
  cbn [skipn]. f_equal. f_equal. lia.
Qed.

Lemma last_n_app_long {A} (n : nat) (a b : list A) :
  (n <= length b)%nat -> last_n n (a ++ b) = last_n n b.
Proof.
  intros Hn. unfold last_n. rewrite length_app, skipn_app.
  rewrite skipn_all2 by lia. cbn [app]. f_equal. lia.
Qed.

(** C6 (as amended).  Whatever the reader has read so far, the buffer holds
    at most 1000 lines after the next append; and when the append takes it
    past 1000 the buffer becomes the most recent 500 lines of the extended
    buffer, so its length is exactly 500.  What is kept depends on the size
    of the read: when the read has at most 500 lines, all of them are kept,
    at the end of the buffer, behind the most recent older lines that fill
    it to 500; when the read has 500 lines or more, only the last 500 lines
    of the read are kept, and every older line and the earlier lines of the
    read are dropped. *)
Theorem pty_buffer_eviction (datas : list pystr) (data : pystr) :
  let buffer := pty_run datas in
  let extended := buffer ++ splitlines data in
  (length (pty_append buffer data) <= 1000)%nat
  /\ ((1000 < length extended)%nat ->
      length (pty_append buffer data) = 500%nat
      /\ pty_append buffer data = last_n 500 extended
      /\ firstn (length extended - 500) extended ++ pty_append buffer data = extended
      /\ ((length (splitlines data) <= 500)%nat ->
          pty_append buffer data
          = last_n (500 - length (splitlines data)) buffer ++ splitlines data)
      /\ ((500 <= length (splitlines data))%nat ->
          pty_append buffer data = last_n 500 (splitlines data))).
Proof.
  intros buffer extended. pose proof (pty_run_bound datas) as Hb. fold buffer in Hb.
  split.
  - apply pty_append_bound, Hb.
  - intros Hover. rewrite pty_append_cases by exact Hb. fold extended.
    destruct (Nat.ltb_spec 1000 (length extended)) as [_ | Hle]; [| lia].
    unfold extended in *. rewrite length_app in Hover.
    split; [apply last_n_length; rewrite length_app; lia |].
    split; [reflexivity |].
    split; [apply last_n_suffix |].
    split; intros Hsize.
    + apply last_n_app_short. lia.
    + apply last_n_app_long. exact Hsize.
Qed.

End PtyBuffer.

(** C6, witness: 1000 buffered lines and a read of one line, and an empty
    buffer and a read of 1001 lines. *)
Lemma pty_buffer_eviction_witness :
  ((1000 < length (pty_run [full_read] ++ splitlines (lit "x")))%nat
   /\ length (pty_append (pty_run [full_read]) (lit "x")) = 500%nat
   /\ pty_append (pty_run [full_read]) (lit "x")
      = last_n 499 (pty_run [full_read]) ++ splitlines (lit "x"))
  /\ pty_append (pty_run []) (full_read ++ lit "x")
     = last_n 500 (splitlines (full_read ++ lit "x")).
Proof.
  assert (H : (1000 < length (pty_run [full_read] ++ splitlines (lit "x")))%nat).
  { apply Nat.ltb_lt. vm_compute. reflexivity. }
  assert (H' : (1000 < length (pty_run [] ++ splitlines (full_read ++ lit "x")))%nat).
  { apply Nat.ltb_lt. vm_compute. reflexivity. }
  split.
  - split; [exact H |].
    destruct (proj2 (pty_buffer_eviction [full_read] (lit "x")) H)
      as (Hlen & _ & _ & Hshort & _).
    split; [exact Hlen |]. apply Hshort. apply Nat.leb_le. vm_compute. reflexivity.
  - destruct (proj2 (pty_buffer_eviction [] (full_read ++ lit "x")) H')
      as (_ & _ & _ & _ & Hlong).
    apply Hlong. apply Nat.leb_le. vm_compute. reflexivity.
Defined.

(** C6 as the claim words it fails: with 1000 lines buffered and one line
    appended, the length becomes 500 and not 500 plus the one new line. *)
Lemma pty_buffer_not_500_plus_new :
  length (pty_run [full_read]) = 1000%nat
  /\ length (splitlines (lit "x")) = 1%nat
  /\ length (pty_append (pty_run [full_read]) (lit "x")) = 500%nat
  /\ length (pty_append (pty_run [full_read]) (lit "x"))
     <> (500 + length (splitlines (lit "x")))%nat.
Proof.
  assert (E : length (pty_append (pty_run [full_read]) (lit "x")) = 500%nat)
    by (vm_compute; reflexivity).
  repeat split; try (vm_compute; reflexivity).
  rewrite E. cbn. lia.
Qed.

(* ===================================================================== *)
(** * Properties of the noise filter *)
(* ===================================================================== *)

Section NoiseFilter.



Lemma any_in_str (keywords : list pystr) (s : pystr) :
  any_in keywords (JStr s) = Done (existsb (fun k => contains k s) keywords).
Proof.
  induction keywords as [|k ks IH]; cbn [any_in existsb py_in]; [reflexivity |].
  destruct (contains k s); [reflexivity | exact IH].
Qed.


(** The filter on an engine event whose message is a str. *)
Lemma should_ignore_engine (s : pystr) :
  should_ignore_message (JStr s) (JStr (lit "engine"))
  = Done (existsb (fun k => contains k s) debug_noise_keywords
          || negb (existsb (fun k => contains k s) important_keywords)).
Proof.
  unfold should_ignore_message.
  change (py_eq_str (JStr (lit "engine")) (lit "error")) with false.
  change (py_eq_str (JStr (lit "engine")) (lit "engine")) with true.
  cbn [negb]. rewrite !any_in_str.
  destruct (existsb _ debug_noise_keywords); [reflexivity |].
  destruct (existsb _ important_keywords); reflexivity.
Qed.

(** The filter on an error event whose message is a str. *)
Lemma should_ignore_error (s : pystr) :
  should_ignore_message (JStr s) (JStr (lit "error"))
  = Done (contains (lit "all_json_blocks_failed") s
          || contains (lit "deepseek_json_debug") s).
Proof.
  unfold should_ignore_message.
  change (py_eq_str (JStr (lit "error")) (lit "error")) with true.
  unfold in_or, py_in.
  destruct (contains (lit "all_json_blocks_failed") s); reflexivity.
Qed.

Context {RT : PyRuntime} {TE : Terminal}.

(** An event the filter rejects leaves the world as it was. *)
Lemma handle_event_ignored (msg : list (pystr * json)) (w : World) :
  should_ignore_message (dict_get msg (lit "message") (JStr []))
                        (dict_get msg (lit "type") (JStr [])) = Done true ->
  handle_event msg w = (Done tt, w).
Proof.
  intros H. unfold handle_event, bind, eval. rewrite H. reflexivity.
Qed.

(** An event whose filter test raises leaves the world as it was, too. *)
Lemma handle_event_filter_raises (msg : list (pystr * json)) (w : World) (e : exn) :
  should_ignore_message (dict_get msg (lit "message") (JStr []))
                        (dict_get msg (lit "type") (JStr [])) = Raised e ->
  handle_event msg w = (Raised e, w).
Proof.
  intros H. unfold handle_event, bind, eval. rewrite H. reflexivity.
Qed.

(** No branch of the classifier acts on the kind 'error'. *)
Lemma handle_event_error_kind (msg : list (pystr * json)) (w : World) :
  dict_get msg (lit "type") (JStr []) = JStr (lit "error") ->
  snd (handle_event msg w) = w.
Proof.
  intros Hty. unfold handle_event, bind, eval. rewrite Hty.
  destruct (should_ignore_message _ _) as [[|] | e]; reflexivity.
Qed.

(** C5 (as amended).  An error event is dropped by the filter exactly when
    its message contains 'all_json_blocks_failed' or 'deepseek_json_debug',
    and passes it otherwise; either way the event changes nothing, since no
    branch handles the kind 'error'.  An event of a kind other than 'engine'
    and 'error' always passes the filter. *)
Theorem error_filter_drops_marked (s : pystr) (message msg_type : json)
    (msg : list (pystr * json)) (w : World) :
  dict_get msg (lit "type") (JStr []) = JStr (lit "error") ->
  py_eq_str msg_type (lit "error") = false ->
  py_eq_str msg_type (lit "engine") = false ->
  should_ignore_message (JStr s) (JStr (lit "error"))
  = Done (contains (lit "all_json_blocks_failed") s
          || contains (lit "deepseek_json_debug") s)
  /\ snd (handle_event msg w) = w
  /\ should_ignore_message message msg_type = Done false.
Proof.
  intros Hty Hne1 Hne2. repeat split.
  - apply should_ignore_error.
  - apply handle_event_error_kind, Hty.
  - unfold should_ignore_message. rewrite Hne1, Hne2. reflexivity.
Qed.

End NoiseFilter.

(* ===================================================================== *)
(** * Properties of the event classifier *)
(* ===================================================================== *)

Section ClassifierProperties.

Context {RT : PyRuntime} {TE : Terminal}.

Lemma should_ignore_other_kind (message msg_type : json) :
  py_eq_str msg_type (lit "error") = false ->
  py_eq_str msg_type (lit "engine") = false ->
  should_ignore_message message msg_type = Done false.
Proof.
  intros H1 H2. unfold should_ignore_message. rewrite H1, H2. reflexivity.
Qed.

Lemma nonempty_false {A} (l : list A) : nonempty l = false <-> l = [].
Proof. destruct l; cbn; split; congruence. Qed.

Lemma nonempty_true {A} (l : list A) : nonempty l = true <-> l <> [].
Proof. destruct l; cbn; split; congruence. Qed.

Lemma strip_nonempty (s : pystr) : strip s <> [] -> s <> [].
Proof. intros H E. subst s. apply H. reflexivity. Qed.

(** A draw changes nothing of the world; in copy mode there is none. *)
Lemma redraw_runs (w : World) : redraw w = (fst (redraw w), w).
Proof.
  unfold redraw, bind, get, draw_screen, ret. destruct (copy_mode (self w)); reflexivity.
Qed.

Lemma redraw_state (w : World) : snd (redraw w) = w.
Proof. rewrite redraw_runs. reflexivity. Qed.

Lemma redraw_outcome (w : World) :
  fst (redraw w) = if copy_mode (self w) then Done tt else draw (self w).
Proof.
  unfold redraw, bind, get, draw_screen, ret. destruct (copy_mode (self w)); reflexivity.
Qed.

(** A computation followed by the draw: the state is that of the
    computation, the outcome that of the draw. *)
Lemma then_redraw (m : M unit) (w w1 : World) :
  m w = (Done tt, w1) -> (m ;; redraw) w = (fst (redraw w1), w1).
Proof. intros H. unfold bind. rewrite H. apply redraw_runs. Qed.

Lemma bind_done {A B} (m : M A) (f : A -> M B) (w w' : World) (a : A) :
  m w = (Done a, w') -> bind m f w = f a w'.
Proof. intros H. unfold bind. rewrite H. reflexivity. Qed.

Lemma bind_raised {A B} (m : M A) (f : A -> M B) (w w' : World) (e : exn) :
  m w = (Raised e, w') -> bind m f w = (Raised e, w').
Proof. intros H. unfold bind. rewrite H. reflexivity. Qed.

Lemma update_status_idle (w : World) :
  current_tool_activity (self w) = [] ->
  update_status w
  = (Done tt,
     {| self := set_status
                  (status_head (self w)
                   ++ (if thinking (self w)
                       then lit " | " ++ [0x1F4AD] ++ lit " thinking..." else [])
                   ++ copy_mode_mark (self w)) (self w);
        reads := reads w |}).
Proof.
  intros Hidle. unfold update_status, bind, get, modify, ret.
  rewrite Hidle. cbn [nonempty].
  destruct (thinking (self w)); cbn [fst snd self reads];
    rewrite ?app_nil_l, <- ?app_assoc; reflexivity.
Qed.

Lemma elapsed_mark_done (t : TUI) (w : World) :
  exists elapsed n, elapsed_mark t w = (Done elapsed, {| self := self w; reads := n |}).
Proof.
  unfold elapsed_mark. destruct (tool_start_time t) as [started|].
  - destruct (Qeq_bool started 0).
    + exists [], (reads w). destruct w; reflexivity.
    + unfold bind, now, ret. eexists _, _. reflexivity.
  - exists [], (reads w). destruct w; reflexivity.
Qed.

Lemma update_status_active (w : World) :
  current_tool_activity (self w) <> [] ->
  exists elapsed n,
    update_status w
    = (Done tt,
       {| self := set_status
                    (status_head (self w) ++ lit " | " ++ [0x1F527] ++ lit " "
                     ++ current_tool_activity (self w)
                     ++ repeat 46 (Z.to_nat (tool_progress_dots (self w) mod 4))
                     ++ elapsed ++ copy_mode_mark (self w)) (self w);
          reads := n |}).
Proof.
  intros Hact. apply nonempty_true in Hact.
  destruct (elapsed_mark_done (self w) w) as (elapsed & n & He).
  exists elapsed, n.
  unfold update_status, bind, get, modify, ret. rewrite Hact.
  unfold bind. rewrite He. cbn [self reads]. rewrite <- !app_assoc. reflexivity.
Qed.

(** [update_status] writes the status line, may read the clock, and does
    nothing else. *)
Lemma update_status_frame (w : World) :
  exists s n,
    update_status w = (Done tt, {| self := set_status s (self w); reads := n |})
    /\ (reads w <= n)%nat
    /\ (current_tool_activity (self w) = [] ->
        n = reads w
        /\ s = status_head (self w)
               ++ (if thinking (self w)
                   then lit " | " ++ [0x1F4AD] ++ lit " thinking..." else [])
               ++ copy_mode_mark (self w)).
Proof.
  destruct (current_tool_activity (self w)) as [| c act] eqn:Hact.
  - rewrite (update_status_idle w Hact). eexists _, _. split; [reflexivity |].
    split; [lia |]. intros _. split; reflexivity.
  - assert (Hne : current_tool_activity (self w) <> []) by congruence.
    unfold update_status, bind, get, modify, ret.
    apply nonempty_true in Hne. rewrite Hne. unfold bind.
    unfold elapsed_mark. destruct (tool_start_time (self w)) as [started |].
    + destruct (Qeq_bool started 0).
      * unfold ret. cbn [self reads]. eexists _, _. split; [reflexivity |].
        split; [lia | discriminate].
      * unfold bind, now, ret. cbn [self reads]. eexists _, _. split; [reflexivity |].
        split; [lia | discriminate].
    + unfold ret. cbn [self reads]. eexists _, _. split; [reflexivity |].
      split; [lia | discriminate].
Qed.

(** What one tool_activity event does. *)
Lemma tool_activity_event (msg : list (pystr * json)) (activity : pystr) (w : World) :
  dict_get msg (lit "type") (JStr []) = JStr (lit "tool_activity") ->
  dict_get msg (lit "activity") (JStr []) = JStr activity ->
  let w' := snd (handle_event msg w) in
  let t := self w in
  let t' := self w' in
  fst (handle_event msg w) = fst (redraw w')
  /\ messages t' = messages t
  /\ (strip activity <> [] ->
      current_tool_activity t' = activity
      /\ tool_start_time t' = Some (clock (reads w))
      /\ tool_progress_dots t' = 0%Z
      /\ exists elapsed,
           status t' = status_head t ++ lit " | " ++ [0x1F527] ++ lit " "
                       ++ activity ++ elapsed ++ copy_mode_mark t)
  /\ (strip activity = [] ->
      current_tool_activity t' = []
      /\ tool_start_time t' = None
      /\ status t' = status_head t
                     ++ (if thinking t then lit " | " ++ [0x1F4AD] ++ lit " thinking..."
                         else [])
                     ++ copy_mode_mark t).
Proof.
  intros Hty Hact w' t t'. subst w' t'.
  unfold handle_event. rewrite Hty, Hact.
  rewrite should_ignore_other_kind by reflexivity.
  change (py_eq_str (JStr (lit "tool_activity")) (lit "assistant_message")) with false.
  change (py_eq_str (JStr (lit "tool_activity")) (lit "tool_activity")) with true.
  cbv iota.
  rewrite (bind_done _ _ w w false) by reflexivity. cbv iota.
  rewrite (bind_done _ _ w w (strip activity)) by reflexivity.
  destruct (strip activity) as [|c stripped] eqn:Hs; cbn [nonempty].
  - (* blank: the activity is cleared *)
    set (w1 := {| self := set_tool_start_time None (set_current_tool_activity [] (self w));
                  reads := reads w |}).
    rewrite (bind_done _ _ w w1 tt) by reflexivity.
    rewrite (then_redraw _ _ _ (update_status_idle w1 eq_refl)). cbn [fst snd self].
    repeat split; try reflexivity; try congruence.
  - (* not blank: the activity is set *)
    assert (Hne : activity <> []) by (apply strip_nonempty; congruence).
    set (w1 := {| self := set_tool_progress_dots 0
                            (set_tool_start_time (Some (clock (reads w)))
                               (set_current_tool_activity activity (self w)));
                  reads := S (reads w) |}).
    rewrite (bind_done _ _ w w1 tt) by reflexivity.
    destruct (update_status_active w1 Hne) as (elapsed & n & Hup).
    rewrite (then_redraw _ _ _ Hup). cbn [fst snd self].
    repeat split; try reflexivity; try congruence.
    exists elapsed. reflexivity.
Qed.

(** C9 (as amended).  For a tool_activity event whose activity field is a
    str.  The event appends no message.  When the activity is not blank
    (something is left after [strip]) the activity label becomes that text,
    its start time the current clock reading and the dots 0, and the status
    line shows the label; when the activity is blank (empty or white space
    only) the label is cleared and the start time with it, and the status
    line is the idle one, built from the other fields.  The status line is
    rebuilt in both cases.  The one statement of the branch that can raise
    is the draw that follows (there is none in copy mode): the event raises
    exactly what that draw raises, and the fields are set as described
    whether it raises or not.  So when a clearing event [later] follows the
    event in the same chunk: if the draw after the event succeeds, the
    clearing event is handled and leaves the label and its start time
    cleared; if that draw raises, the clearing event is never reached and
    the world stays as the event left it, label set. *)
Theorem tool_activity_sets_or_clears (msg : list (pystr * json)) (activity : pystr) (w : World) :
  dict_get msg (lit "type") (JStr []) = JStr (lit "tool_activity") ->
  dict_get msg (lit "activity") (JStr []) = JStr activity ->
  let w' := snd (handle_event msg w) in
  let t := self w in
  let t' := self w' in
  fst (handle_event msg w) = fst (redraw w')
  /\ messages t' = messages t
  /\ (strip activity <> [] ->
      current_tool_activity t' = activity
      /\ tool_start_time t' = Some (clock (reads w))
      /\ tool_progress_dots t' = 0%Z
      /\ exists elapsed,
           status t' = status_head t ++ lit " | " ++ [0x1F527] ++ lit " "
                       ++ activity ++ elapsed ++ copy_mode_mark t)
  /\ (strip activity = [] ->
      current_tool_activity t' = []
      /\ tool_start_time t' = None
      /\ status t' = status_head t
                     ++ (if thinking t then lit " | " ++ [0x1F4AD] ++ lit " thinking..."
                         else [])
                     ++ copy_mode_mark t)
  /\ (forall (later : list (pystr * json)) (blank : pystr),
        dict_get later (lit "type") (JStr []) = JStr (lit "tool_activity") ->
        dict_get later (lit "activity") (JStr []) = JStr blank ->
        strip blank = [] ->
        let w2 := snd ((handle_event msg ;; handle_event later) w) in
        match fst (redraw w') with
        | Done _ => current_tool_activity (self w2) = []
                    /\ tool_start_time (self w2) = None
        | Raised _ => w2 = w'
        end).
Proof.
  intros Hty Hact w' t t'.
  destruct (tool_activity_event msg activity w Hty Hact) as (Hout & Hmsgs & Hset & Hclear).
  split; [exact Hout |]. split; [exact Hmsgs |]. split; [exact Hset |].
  split; [exact Hclear |].
  intros later blank Hty2 Hact2 Hblank w2. subst w2. unfold bind.
  fold w' in Hout.
  destruct (handle_event msg w) as [o w1] eqn:Hrun. cbn [fst snd] in *. subst w'.
  cbn [snd] in *. rewrite Hout.
  destruct (fst (redraw w1)) as [[] | e]; [| reflexivity].
  destruct (tool_activity_event later blank w1 Hty2 Hact2) as (_ & _ & _ & Hlater).
  destruct (Hlater Hblank) as (H1 & H2 & _). split; assumption.
Qed.

(** The branch [if msg_type == 'assistant_message'] in closed form. *)
Lemma handle_assistant_message (msg : list (pystr * json)) (w : World) :
  dict_get msg (lit "type") (JStr []) = JStr (lit "assistant_message") ->
  handle_event msg w
  = match py_get (dict_get msg (lit "metadata") (JObj [])) (lit "source") (JStr []) with
    | Raised e => (Raised e, w)
    | Done source =>
        match py_strip (dict_get msg (lit "content") (JStr [])) with
        | Raised e => (Raised e, w)
        | Done stripped =>
            if nonempty stripped then
              let w1 :=
                {| self :=
                     set_messages
                       (messages (self w)
                        ++ [{| msg_role := Assistant;
                               msg_content :=
                                 if py_eq_str source (lit "personality_acknowledgment")
                                 then JStr ([0x1F3AD] ++ lit " "
                                            ++ fstr (dict_get msg (lit "content") (JStr [])))
                                 else dict_get msg (lit "content") (JStr []);
                               msg_timestamp := clock (reads w);
                               msg_immediate := true;
                               msg_source := Some source;
                               msg_tool := None |}]) (self w);
                   reads := S (reads w) |} in
              (fst (redraw w1), w1)
            else (Done tt, w)
        end
    end.
Proof.
  intros Hty. unfold handle_event. rewrite Hty.
  rewrite should_ignore_other_kind by reflexivity.
  change (py_eq_str (JStr (lit "assistant_message")) (lit "assistant_message")) with true.
  cbv iota.
  rewrite (bind_done _ _ w w false) by reflexivity. cbv iota.
  destruct (py_get _ (lit "source") _) as [source | e].
  2: { apply bind_raised. reflexivity. }
  rewrite (bind_done _ _ w w source) by reflexivity.
  destruct (py_strip _) as [stripped | e].
  2: { apply bind_raised. reflexivity. }
  rewrite (bind_done _ _ w w stripped) by reflexivity.
  destruct (nonempty stripped); [| reflexivity].
  unfold bind, now, append_message, modify. cbn [self reads]. cbv zeta.
  apply redraw_runs.
Qed.

(** C10.  An assistant_message event whose content is empty or white space
    only leaves the world exactly as it was, so it appends no message; if the
    event did change the message log then its content is a str that is not
    blank; and an event with such a content (and a dict for metadata) appends
    one assistant message carrying that content, with the personality mark in
    front when the source says so. *)
Theorem blank_assistant_message_ignored (msg : list (pystr * json)) (w : World) :
  dict_get msg (lit "type") (JStr []) = JStr (lit "assistant_message") ->
  let content := dict_get msg (lit "content") (JStr []) in
  let w' := snd (handle_event msg w) in
  (forall c, content = JStr c -> strip c = [] -> w' = w)
  /\ (messages (self w') <> messages (self w) ->
      exists c, content = JStr c /\ strip c <> [])
  /\ (forall c d, content = JStr c -> strip c <> [] ->
      dict_get msg (lit "metadata") (JObj []) = JObj d ->
      exists m, messages (self w') = messages (self w) ++ [m]
                /\ msg_role m = Assistant
                /\ (msg_content m = JStr c
                    \/ msg_content m = JStr ([0x1F3AD] ++ lit " " ++ c))).
Proof.
  intros Hty content w'. subst w'. rewrite (handle_assistant_message msg w Hty).
  fold content. repeat split.
  - intros c Hc Hblank. rewrite Hc. cbn [py_strip]. rewrite Hblank. cbn [nonempty].
    destruct (py_get _ _ _); reflexivity.
  - intros Hchanged.
    destruct (py_get _ (lit "source") _) as [source | e]; [| now cbn in Hchanged].
    destruct content as [| | | | c | |]; try now cbn in Hchanged.
    cbn [py_strip] in Hchanged. exists c. split; [reflexivity |].
    intros Hblank. rewrite Hblank in Hchanged. now cbn in Hchanged.
  - intros c d Hc Hnb Hmeta. rewrite Hmeta, Hc. cbn [py_get py_strip].
    apply nonempty_true in Hnb. rewrite Hnb. cbn [snd self messages set_messages].
    eexists. split; [reflexivity |]. split; [reflexivity |].
    cbn [msg_content fstr]. destruct (py_eq_str _ _); [right | left]; reflexivity.
Qed.
End ClassifierProperties.

(* ===================================================================== *)
(** * Properties of the response extractor and of the end of the send path *)
(* ===================================================================== *)

Section ExtractorProperties.

Context {RT : PyRuntime} {TE : Terminal}.

Lemma assistant_says_done (c : json) (w : World) :
  assistant_says c w
  = (Done tt,
     {| self := set_messages
                  (messages (self w)
                   ++ [{| msg_role := Assistant; msg_content := c;
                          msg_timestamp := clock (reads w); msg_immediate := false;
                          msg_source := None; msg_tool := None |}]) (self w);
        reads := S (reads w) |}).
Proof. reflexivity. Qed.

(** The branch for a zero return code in closed form: either one assistant
    message is appended, or an exception other than JSONDecodeError leaves
    the [try] with the world untouched. *)
Lemma handle_success_cases (full_stdout : pystr) (w : World) :
  let clean_stdout := strip full_stdout in
  handle_success full_stdout w
  = match json_loads (choose_json clean_stdout) with
    | Raised e =>
        if is_decode_error e
        then assistant_says
               (JStr (if nonempty clean_stdout then clean_stdout else lit "No response")) w
        else (Raised e, w)
    | Done response =>
        match py_get response (lit "content") (JStr (lit "No response")) with
        | Raised e => (Raised e, w)
        | Done found =>
            match clean_value found with
            | Raised e => (Raised e, w)
            | Done cleaned =>
                match py_len cleaned with
                | Raised e => (Raised e, w)
                | Done _ => assistant_says cleaned w
                end
            end
        end
    end.
Proof.
  intros clean_stdout. unfold handle_success. fold clean_stdout.
  unfold log_debug at 1. rewrite (bind_done _ _ w w tt) by reflexivity.
  unfold try_except, bind, eval, log_debug, ret.
  destruct (json_loads (choose_json clean_stdout)) as [response | e].
  - destruct response; cbn [py_get]; try reflexivity.
    unfold clean_value.
    destruct (dict_get entries (lit "content") (JStr (lit "No response")))
      as [| b | z | x | s | l | d];
      cbn [py_truthy negb py_len is_decode_error exn_eqb]; try reflexivity.
    + destruct b; reflexivity.
    + destruct (z =? 0)%Z; reflexivity.
    + destruct (float_nonzero x); reflexivity.
    + destruct s; reflexivity.
    + destruct l; reflexivity.
    + destruct d; reflexivity.
  - destruct (is_decode_error e); reflexivity.
Qed.

Lemma finish_send_done (start_time : Q) (w : World) :
  exists w', finish_send start_time w = (Done tt, w')
             /\ messages (self w') = messages (self w).
Proof.
  unfold finish_send.
  set (w1 := {| self := set_total_messages_processed
                          (total_messages_processed (self w) + 1)%Z
                          (set_last_response_time (clock (reads w) - start_time)%Q
                             (set_tool_start_time None
                                (set_current_tool_activity []
                                   (set_thinking false (self w)))));
                reads := S (reads w) |}).
  assert (H : forall k : unit -> M unit,
             (modify (set_thinking false) ;;
              modify (set_current_tool_activity []) ;;
              modify (set_tool_start_time None) ;;
              finished <- now ;;
              modify (set_last_response_time (finished - start_time)%Q) ;;
              modify (fun t => set_total_messages_processed
                                 (total_messages_processed t + 1)%Z t) ;;
              k tt) w = k tt w1) by reflexivity.
  rewrite (H (fun _ => update_status)).
  rewrite (update_status_idle w1 eq_refl).
  eexists. split; reflexivity.
Qed.

(** Whatever happens inside the [try], exactly one assistant message is
    appended and nothing else of [self] changes. *)
Lemma try_result_says (return_code : Z) (full_stdout full_stderr : pystr) (w : World) :
  exists c,
    try_except (handle_result return_code full_stdout full_stderr)
               (fun _ => true) report_exception w
    = assistant_says c w.
Proof.
  unfold try_except, handle_result.
  destruct (return_code =? 0)%Z.
  - rewrite handle_success_cases.
    destruct (json_loads _) as [response | e].
    + destruct (py_get response _ _) as [found | e]; [| eexists; reflexivity].
      destruct (clean_value found) as [cleaned | e]; [| eexists; reflexivity].
      destruct (py_len cleaned) as [n | e]; eexists; reflexivity.
    + destruct (is_decode_error e); eexists; reflexivity.
  - eexists. reflexivity.
Qed.

Lemma complete_send_says (start_time : Q) (return_code : Z)
    (full_stdout full_stderr : pystr) (w : World) :
  exists c w',
    complete_send start_time return_code full_stdout full_stderr w = (Done tt, w')
    /\ messages (self w')
       = messages (self w)
         ++ [{| msg_role := Assistant; msg_content := c;
                msg_timestamp := clock (reads w); msg_immediate := false;
                msg_source := None; msg_tool := None |}].
Proof.
  destruct (try_result_says return_code full_stdout full_stderr w) as [c Hc].
  unfold complete_send.
  rewrite (bind_done _ _ w _ tt Hc).
  match goal with |- context [finish_send _ ?w1] =>
    destruct (finish_send_done start_time w1) as (w' & Hfin & Hmsgs) end.
  exists c, w'. split; [exact Hfin |]. rewrite Hmsgs. reflexivity.
Qed.

(** C8 (as amended).  After a zero return code: when [json.loads] refuses
    the chosen text with a JSONDecodeError, the assistant message is the raw
    trimmed primary text, or 'No response' when that text is empty.  And in
    every case, whatever the return code and the two streams, the send path
    ends without an exception and has appended exactly one assistant
    message. *)
Theorem malformed_response_falls_back (start_time : Q) (return_code : Z)
    (full_stdout full_stderr : pystr) (w : World) :
  let clean_stdout := strip full_stdout in
  (json_loads (choose_json clean_stdout) = Raised JSONDecodeError ->
   handle_success full_stdout w
   = assistant_says
       (JStr (if nonempty clean_stdout then clean_stdout else lit "No response")) w)
  /\ (exists m w',
        complete_send start_time return_code full_stdout full_stderr w = (Done tt, w')
        /\ messages (self w') = messages (self w) ++ [m]
        /\ msg_role m = Assistant).
Proof.
  intros clean_stdout. split.
  - intros Hfail. rewrite handle_success_cases. fold clean_stdout. rewrite Hfail.
    reflexivity.
  - destruct (complete_send_says start_time return_code full_stdout full_stderr w)
      as (c & w' & Hrun & Hmsgs).
    eexists _, w'. split; [exact Hrun |]. split; [exact Hmsgs | reflexivity].
Qed.

(** Every candidate the scan records parses to a dict with both keys. *)
Lemma scan_from_candidates (clean_stdout : pystr) (rest : pystr) :
  forall i st,
    Forall (fun p => looks_like_response (fst p) = true) (json_candidates st) ->
    Forall (fun p => looks_like_response (fst p) = true)
           (json_candidates (scan_from clean_stdout i rest st)).
Proof.
  induction rest as [|char rest IH]; intros i st Hst; cbn [scan_from]; [exact Hst |].
  apply IH. unfold scan_char.
  destruct (char =? 123); [exact Hst |].
  destruct (char =? 125); [| exact Hst].
  destruct (_ && _); [| exact Hst]. cbn [json_candidates].
  destruct (looks_like_response _) eqn:Hlook; [| exact Hst].
  apply Forall_app. split; [exact Hst |]. constructor; [exact Hlook | constructor].
Qed.

Lemma looks_like_response_inv (text : pystr) :
  looks_like_response text = true ->
  exists d, json_loads text = Done (JObj d)
            /\ dict_has (lit "content") d = true
            /\ dict_has (lit "metadata") d = true.
Proof.
  unfold looks_like_response. destruct (json_loads text) as [[| | | | | |d] | e];
    try discriminate.
  intros H. apply andb_true_iff in H. exists d. tauto.
Qed.

Lemma choose_json_last (clean_stdout : pystr) earlier clean_json (pos : Z) :
  scan_candidates clean_stdout = earlier ++ [(clean_json, pos)] ->
  choose_json clean_stdout = clean_json.
Proof.
  intros H. unfold choose_json. rewrite H, rev_app_distr. reflexivity.
Qed.

Lemma last_candidate_answer (full_stdout : pystr) (earlier : list (pystr * Z))
    (clean_json : pystr) (pos : Z) (w : World) :
  scan_candidates (strip full_stdout) = earlier ++ [(clean_json, pos)] ->
  exists d,
    json_loads clean_json = Done (JObj d)
    /\ dict_has (lit "content") d = true
    /\ dict_has (lit "metadata") d = true
    /\ choose_json (strip full_stdout) = clean_json
    /\ forall c, dict_lookup (lit "content") d = Some (JStr c) ->
                 handle_success full_stdout w
                 = assistant_says (JStr (clean_response_formatting c)) w.
Proof.
  intros Hscan.
  assert (Hall : Forall (fun p => looks_like_response (fst p) = true)
                        (scan_candidates (strip full_stdout))).
  { apply scan_from_candidates. constructor. }
  rewrite Hscan in Hall. apply Forall_app in Hall. destruct Hall as [_ Hlast].
  inversion Hlast as [|? ? Hlook _]; subst. cbn [fst] in Hlook.
  destruct (looks_like_response_inv _ Hlook) as (d & Hparse & Hc & Hm).
  exists d. repeat split; try assumption.
  - eapply choose_json_last, Hscan.
  - intros c Hcontent. rewrite handle_success_cases.
    rewrite (choose_json_last _ _ _ _ Hscan), Hparse.
    cbn [py_get]. unfold dict_get. rewrite Hcontent.
    unfold clean_value. cbn [py_truthy].
    destruct c as [|x c']; reflexivity.
Qed.

Lemma scan_from_app (text a b : pystr) :
  forall i st,
    scan_from text i (a ++ b) st = scan_from text (i + length a) b (scan_from text i a st).
Proof.
  induction a as [|c a IH]; intros i st; cbn [app scan_from length].
  - rewrite Nat.add_0_r. reflexivity.
  - rewrite IH. f_equal. lia.
Qed.

Lemma scan_brace_free (text s : pystr) :
  brace_free s = true -> forall i st, scan_from text i s st = st.
Proof.
  induction s as [|c s IH]; intros Hfree i st; cbn [scan_from]; [reflexivity |].
  cbn [brace_free forallb] in Hfree. apply andb_true_iff in Hfree.
  destruct Hfree as [Hc Hs]. apply negb_true_iff, orb_false_iff in Hc.
  destruct Hc as [H1 H2]. unfold scan_char. rewrite H1, H2. apply IH, Hs.
Qed.

Lemma scan_inside (text : pystr) (t : pystr) :
  forall i depth p cands,
    (0 < depth)%Z -> (0 <= p)%Z ->
    closes_at_end depth t = true ->
    scan_from text i t {| brace_count := depth; start_pos := p; json_candidates := cands |}
    = {| brace_count := 0; start_pos := -1;
         json_candidates := push text cands (Z.to_nat p) (i + length t) p |}.
Proof.
  induction t as [|c t IH]; intros i depth p cands Hd Hp Hclose; [discriminate |].
  cbn [closes_at_end] in Hclose. cbn [scan_from length]. unfold scan_char at 1.
  cbn [brace_count start_pos json_candidates].
  destruct (c =? 123).
  - replace (depth =? 0)%Z with false by (symmetry; apply Z.eqb_neq; lia).
    rewrite IH by (assumption || lia). do 2 f_equal. lia.
  - destruct (c =? 125).
    + destruct (depth - 1 =? 0)%Z eqn:Hz.
      * destruct t; [| discriminate]. cbn [scan_from length andb].
        replace (p =? -1)%Z with false by (symmetry; apply Z.eqb_neq; lia).
        cbn [negb]. unfold push. apply Z.eqb_eq in Hz. rewrite Hz.
        reflexivity.
      * cbn [andb]. apply Z.eqb_neq in Hz.
        rewrite IH by (assumption || lia). do 2 f_equal. lia.
    + rewrite IH by assumption. do 2 f_equal. lia.
Qed.

Lemma scan_span (text a : pystr) (i : nat) (cands : list (pystr * Z)) :
  brace_span a = true ->
  scan_from text i a {| brace_count := 0; start_pos := -1; json_candidates := cands |}
  = {| brace_count := 0; start_pos := -1;
       json_candidates := push text cands i (i + length a) (Z.of_nat i) |}.
Proof.
  destruct a as [|c t]; [discriminate |]. cbn [brace_span]. intros H.
  apply andb_true_iff in H. destruct H as [Hc Ht].
  cbn [scan_from length]. unfold scan_char. rewrite Hc.
  cbn [brace_count start_pos json_candidates]. cbn [Z.eqb].
  change (0 + 1)%Z with 1%Z.
  rewrite scan_inside by (assumption || lia).
  rewrite Nat2Z.id. do 2 f_equal. lia.
Qed.

Lemma slice_middle {A} (pre a post : list A) :
  slice (pre ++ a ++ post) (length pre) (length pre + length a) = a.
Proof.
  unfold slice. rewrite skipn_app, skipn_all, Nat.sub_diag. cbn [app skipn].
  replace (length pre + length a - length pre)%nat with (length a) by lia.
  rewrite firstn_app, firstn_all, Nat.sub_diag. cbn [firstn]. apply app_nil_r.
Qed.

Lemma two_spans_scan (pre a mid b post : pystr) :
  brace_free pre = true -> brace_free mid = true -> brace_free post = true ->
  brace_span a = true -> brace_span b = true ->
  looks_like_response b = true ->
  exists earlier,
    scan_candidates (pre ++ a ++ mid ++ b ++ post)
    = earlier ++ [(b, Z.of_nat (length pre + length a + length mid))].
Proof.
  intros Hpre Hmid Hpost Ha Hb Hlook.
  set (text := pre ++ a ++ mid ++ b ++ post).
  unfold scan_candidates. fold text. unfold text at 2.
  rewrite scan_from_app, (scan_brace_free text pre Hpre).
  rewrite scan_from_app, (scan_span text a _ _ Ha).
  rewrite scan_from_app, (scan_brace_free text mid Hmid).
  rewrite scan_from_app, (scan_span text b _ _ Hb).
  rewrite (scan_brace_free text post Hpost). cbn [json_candidates].
  set (early := push text [] _ _ _).
  exists early. unfold push at 1.
  assert (Hslice : slice text (0 + length pre + length a + length mid)
                     (0 + length pre + length a + length mid + length b) = b).
  { unfold text.
    replace (pre ++ a ++ mid ++ b ++ post) with ((pre ++ a ++ mid) ++ b ++ post)
      by (rewrite <- !app_assoc; reflexivity).
    replace (0 + length pre + length a + length mid)%nat
      with (length (pre ++ a ++ mid)) by (rewrite !length_app; lia).
    apply slice_middle. }
  rewrite Hslice, Hlook. do 3 f_equal.
Qed.

Lemma two_spans_answer (full_stdout pre a mid b post : pystr)
    (d : list (pystr * json)) (c : pystr) (w : World) :
  strip full_stdout = pre ++ a ++ mid ++ b ++ post ->
  brace_free pre = true -> brace_free mid = true -> brace_free post = true ->
  brace_span a = true -> brace_span b = true ->
  json_loads b = Done (JObj d) ->
  dict_has (lit "metadata") d = true ->
  dict_lookup (lit "content") d = Some (JStr c) ->
  handle_success full_stdout w = assistant_says (JStr (clean_response_formatting c)) w.
Proof.
  intros Hshape Hpre Hmid Hpost Ha Hb Hparse Hmeta Hcontent.
  assert (Hlook : looks_like_response b = true).
  { unfold looks_like_response. rewrite Hparse, Hmeta. unfold dict_has.
    rewrite Hcontent. reflexivity. }
  destruct (two_spans_scan pre a mid b post Hpre Hmid Hpost Ha Hb Hlook)
    as [earlier Hscan].
  rewrite <- Hshape in Hscan.
  destruct (last_candidate_answer full_stdout earlier b _ w Hscan)
    as (d' & Hparse' & _ & _ & _ & Hsays).
  rewrite Hparse in Hparse'. injection Hparse' as <-. apply Hsays, Hcontent.
Qed.

(** *** The last candidate, told from the text *)

Lemma brace_depth_app (a b : pystr) :
  brace_depth (a ++ b) = (brace_depth a + brace_depth b)%Z.
Proof.
  induction a as [|c a IH]; cbn [app brace_depth]; [reflexivity |]. rewrite IH. lia.
Qed.

Lemma closes_at_end_depth (x : pystr) :
  forall depth, closes_at_end depth x = true -> (depth + brace_depth x = 0)%Z.
Proof.
  induction x as [|c x IH]; intros depth H; [discriminate |].
  cbn [closes_at_end brace_depth] in *. destruct (c =? 123).
  - apply IH in H. lia.
  - destruct (c =? 125).
    + destruct (depth - 1 =? 0)%Z eqn:Hz.
      * destruct x; [| discriminate]. cbn [brace_depth]. apply Z.eqb_eq in Hz. lia.
      * apply IH in H. lia.
    + apply IH in H. lia.
Qed.

Lemma brace_span_depth (s : pystr) : brace_span s = true -> brace_depth s = 0%Z.
Proof.
  destruct s as [|c t]; [discriminate |]. cbn [brace_span brace_depth]. intros H.
  apply andb_true_iff in H. destruct H as [Hc Ht]. rewrite Hc.
  apply closes_at_end_depth in Ht. lia.
Qed.

(** The counter is the depth of what has been read, and a span is open
    exactly while the counter is positive. *)
Lemma scan_from_state (text rest : pystr) :
  forall i st,
    (start_pos st = (-1)%Z /\ (brace_count st <= 0)%Z
     \/ (0 <= start_pos st)%Z /\ (1 <= brace_count st)%Z) ->
    let st' := scan_from text i rest st in
    (start_pos st' = (-1)%Z /\ (brace_count st' <= 0)%Z
     \/ (0 <= start_pos st')%Z /\ (1 <= brace_count st')%Z)
    /\ brace_count st' = (brace_count st + brace_depth rest)%Z.
Proof.
  induction rest as [|c rest IH]; intros i st Hinv; cbn [scan_from brace_depth].
  - split; [exact Hinv | lia].
  - cbv zeta.
    assert (Hstep : (start_pos (scan_char text st i c) = (-1)%Z
                     /\ (brace_count (scan_char text st i c) <= 0)%Z
                     \/ (0 <= start_pos (scan_char text st i c))%Z
                        /\ (1 <= brace_count (scan_char text st i c))%Z)
                    /\ brace_count (scan_char text st i c)
                       = (brace_count st
                          + (if (c =? 123)%N then 1 else if (c =? 125)%N then -1 else 0))%Z).
    { unfold scan_char. destruct (c =? 123).
      - cbn [brace_count start_pos]. split; [| reflexivity].
        destruct (Z.eqb_spec (brace_count st) 0) as [E | E]; lia.
      - destruct (c =? 125).
        + destruct (Z.eqb_spec (brace_count st - 1) 0) as [E | E]; cbn [andb].
          * destruct (Z.eqb_spec (start_pos st) (-1)) as [E' | E']; cbn [negb];
              cbn [brace_count start_pos]; split; lia.
          * cbn [brace_count start_pos]. split; lia.
        + split; [exact Hinv | lia]. }
    destruct Hstep as [Hinv' Hcount].
    destruct (IH (S i) _ Hinv') as [H1 H2]. split; [exact H1 |].
    rewrite H2, Hcount. lia.
Qed.

(** Inside a span: either the text goes on to close it, or the scan records
    nothing more. *)
Lemma scan_open (text t : pystr) :
  forall i depth p cands,
    (0 < depth)%Z -> (0 <= p)%Z ->
    (exists x t', t = x ++ t' /\ closes_at_end depth x = true)
    \/ json_candidates
         (scan_from text i t
            {| brace_count := depth; start_pos := p; json_candidates := cands |})
       = cands.
Proof.
  induction t as [|c t IH]; intros i depth p cands Hd Hp; [right; reflexivity |].
  cbn [scan_from]. unfold scan_char at 1. cbn [brace_count start_pos json_candidates].
  destruct (c =? 123) eqn:Hopen.
  - replace (depth =? 0)%Z with false by (symmetry; apply Z.eqb_neq; lia).
    destruct (IH (S i) (depth + 1)%Z p cands ltac:(lia) Hp) as [(x & t' & -> & Hx) | H].
    + left. exists (c :: x), t'. split; [reflexivity |].
      cbn [closes_at_end]. rewrite Hopen. exact Hx.
    + right. exact H.
  - destruct (c =? 125) eqn:Hclose.
    + destruct (Z.eqb_spec (depth - 1) 0) as [Hz | Hz].
      * left. exists [c], t. split; [reflexivity |].
        cbn [closes_at_end]. rewrite Hopen, Hclose.
        replace (depth - 1 =? 0)%Z with true by (symmetry; apply Z.eqb_eq; exact Hz).
        reflexivity.
      * cbn [andb].
        destruct (IH (S i) (depth - 1)%Z p cands ltac:(lia) Hp)
          as [(x & t' & -> & Hx) | H].
        -- left. exists (c :: x), t'. split; [reflexivity |].
           cbn [closes_at_end]. rewrite Hopen, Hclose.
           replace (depth - 1 =? 0)%Z with false by (symmetry; apply Z.eqb_neq; exact Hz).
           exact Hx.
        -- right. exact H.
    + destruct (IH (S i) depth p cands Hd Hp) as [(x & t' & -> & Hx) | H].
      * left. exists (c :: x), t'. split; [reflexivity |].
        cbn [closes_at_end]. rewrite Hopen, Hclose. exact Hx.
      * right. exact H.
Qed.

(** Where the rest of the text holds no candidate, the scan records none. *)
Lemma scan_no_later (text : pystr) (n : nat) :
  forall rest before k cands,
    (length rest <= n)%nat ->
    text = before ++ rest ->
    (k <= 0)%Z ->
    (forall pre' s' post',
        rest = pre' ++ s' ++ post' -> (k + brace_depth pre' = 0)%Z ->
        brace_span s' = true -> looks_like_response s' = false) ->
    json_candidates
      (scan_from text (length before) rest
         {| brace_count := k; start_pos := -1; json_candidates := cands |})
    = cands.
Proof.
  induction n as [|n IH]; intros rest before k cands Hlen Htext Hk Hnone.
  { destruct rest; [reflexivity | cbn in Hlen; lia]. }
  destruct rest as [|c t]; [reflexivity |].
  cbn [length] in Hlen.
  assert (Htext' : text = (before ++ [c]) ++ t) by (rewrite <- app_assoc; exact Htext).
  assert (Hnext : S (length before) = length (before ++ [c]))
    by (rewrite length_app; cbn; lia).
  cbn [scan_from]. unfold scan_char at 1. cbn [brace_count start_pos json_candidates].
  destruct (c =? 123) eqn:Hopen.
  - destruct (Z.eqb_spec k 0) as [-> | Hk0].
    + change (0 + 1)%Z with 1%Z.
      destruct (scan_open text t (S (length before)) 1 (Z.of_nat (length before)) cands
                  ltac:(lia) ltac:(lia)) as [(x & t' & -> & Hx) | H]; [| exact H].
      assert (Hspan : brace_span (c :: x) = true)
        by (cbn [brace_span]; rewrite Hopen, Hx; reflexivity).
      pose proof (scan_span text (c :: x) (length before) cands Hspan) as Hscan.
      cbn [scan_from] in Hscan. unfold scan_char at 1 in Hscan.
      cbn [brace_count start_pos json_candidates] in Hscan. rewrite Hopen in Hscan.
      cbn [Z.eqb] in Hscan. change (0 + 1)%Z with 1%Z in Hscan.
      rewrite scan_from_app, Hscan. unfold push.
      assert (Hslice : slice text (length before) (length before + length (c :: x))
                       = c :: x).
      { rewrite Htext. change (c :: x ++ t') with ((c :: x) ++ t'). apply slice_middle. }
      rewrite Hslice.
      rewrite (Hnone [] (c :: x) t' eq_refl ltac:(cbn; lia) Hspan).
      replace (S (length before) + length x)%nat with (length (before ++ c :: x))
        by (rewrite length_app; cbn; lia).
      apply IH.
      * rewrite length_app in Hlen. lia.
      * rewrite <- app_assoc. exact Htext.
      * lia.
      * intros pre' s' post' Hrest Hdepth Hs'.
        apply (Hnone ((c :: x) ++ pre') s' post').
        -- rewrite Hrest, <- app_assoc. reflexivity.
        -- rewrite brace_depth_app, (brace_span_depth _ Hspan). lia.
        -- exact Hs'.
    + rewrite Hnext. apply IH; [lia | exact Htext' | lia |].
      intros pre' s' post' Hrest Hdepth Hs'.
      apply (Hnone (c :: pre') s' post').
      * rewrite Hrest. reflexivity.
      * cbn [brace_depth]. rewrite Hopen. lia.
      * exact Hs'.
  - destruct (c =? 125) eqn:Hclose.
    + replace (k - 1 =? 0)%Z with false by (symmetry; apply Z.eqb_neq; lia).
      cbn [andb]. rewrite Hnext. apply IH; [lia | exact Htext' | lia |].
      intros pre' s' post' Hrest Hdepth Hs'.
      apply (Hnone (c :: pre') s' post').
      * rewrite Hrest. reflexivity.
      * cbn [brace_depth]. rewrite Hopen, Hclose. lia.
      * exact Hs'.
    + rewrite Hnext. apply IH; [lia | exact Htext' | exact Hk |].
      intros pre' s' post' Hrest Hdepth Hs'.
      apply (Hnone (c :: pre') s' post').
      * rewrite Hrest. reflexivity.
      * cbn [brace_depth]. rewrite Hopen, Hclose. lia.
      * exact Hs'.
Qed.

(** A candidate with no candidate after it is the last one the scan
    records. *)
Lemma last_span_scan (pre s post : pystr) :
  brace_depth pre = 0%Z -> brace_span s = true -> looks_like_response s = true ->
  (forall pre' s' post',
      post = pre' ++ s' ++ post' -> brace_depth pre' = 0%Z ->
      brace_span s' = true -> looks_like_response s' = false) ->
  exists earlier,
    scan_candidates (pre ++ s ++ post) = earlier ++ [(s, Z.of_nat (length pre))].
Proof.
  intros Hpre Hs Hlook Hnone.
  set (text := pre ++ s ++ post).
  unfold scan_candidates. fold text. unfold text at 2.
  rewrite scan_from_app.
  destruct (scan_from_state text pre 0
              {| brace_count := 0; start_pos := -1; json_candidates := [] |}
              ltac:(left; cbn; lia)) as [Hinv Hcount].
  cbv zeta in Hinv, Hcount. cbn [brace_count] in Hcount. rewrite Hpre in Hcount.
  destruct (scan_from text 0 pre _) as [count start cands].
  cbn [brace_count start_pos] in Hinv, Hcount. subst count.
  assert (start = (-1)%Z) by lia. subst start.
  rewrite scan_from_app, (scan_span text s _ _ Hs). unfold push.
  assert (Hslice : slice text (0 + length pre) (0 + length pre + length s) = s)
    by (apply slice_middle).
  rewrite Hslice, Hlook.
  replace (0 + length pre + length s)%nat with (length (pre ++ s))
    by (rewrite length_app; lia).
  rewrite (scan_no_later text (length post) post (pre ++ s) 0 _ (le_n _)).
  - exists cands. reflexivity.
  - unfold text. rewrite <- app_assoc. reflexivity.
  - lia.
  - intros pre' s' post' Hpost Hd. apply (Hnone pre' s' post' Hpost). lia.
Qed.

(** C1 (as amended).  The candidates of the trimmed primary text are the
    spans that begin where the brace counter (opening braces minus closing
    braces read so far) stands at 0, open with a brace that their last
    character is the first to close, and parse to a dict with the keys
    'content' and 'metadata'.  A candidate [s] with no candidate in the text
    after it is the text that is parsed, whatever stands before it, and its
    content, once cleaned by [clean_response_formatting], is the assistant
    message.  In particular, when the trimmed text is two balanced spans one
    after the other, with no brace before, between or after them, and the
    later one is such an object, the later one's cleaned content is the
    message. *)
Theorem last_candidate_is_answer (full_stdout : pystr) (w : World) :
  (forall pre s post d c,
     strip full_stdout = pre ++ s ++ post ->
     brace_depth pre = 0%Z -> brace_span s = true ->
     json_loads s = Done (JObj d) ->
     dict_has (lit "metadata") d = true ->
     dict_lookup (lit "content") d = Some (JStr c) ->
     (forall pre' s' post',
         post = pre' ++ s' ++ post' -> brace_depth pre' = 0%Z ->
         brace_span s' = true -> looks_like_response s' = false) ->
     choose_json (strip full_stdout) = s
     /\ handle_success full_stdout w
        = assistant_says (JStr (clean_response_formatting c)) w)
  /\ (forall pre a mid b post d c,
        strip full_stdout = pre ++ a ++ mid ++ b ++ post ->
        brace_free pre = true -> brace_free mid = true -> brace_free post = true ->
        brace_span a = true -> brace_span b = true ->
        json_loads b = Done (JObj d) ->
        dict_has (lit "metadata") d = true ->
        dict_lookup (lit "content") d = Some (JStr c) ->
        handle_success full_stdout w
        = assistant_says (JStr (clean_response_formatting c)) w).
Proof.
  split.
  - intros pre s post d c Hshape Hpre Hs Hparse Hmeta Hcontent Hnone.
    assert (Hlook : looks_like_response s = true).
    { unfold looks_like_response. rewrite Hparse, Hmeta. unfold dict_has.
      rewrite Hcontent. reflexivity. }
    destruct (last_span_scan pre s post Hpre Hs Hlook Hnone) as [earlier Hscan].
    rewrite <- Hshape in Hscan.
    destruct (last_candidate_answer full_stdout earlier s _ w Hscan)
      as (d' & Hparse' & _ & _ & Hchosen & Hsays).
    split; [exact Hchosen |].
    rewrite Hparse in Hparse'. injection Hparse' as <-. apply Hsays, Hcontent.
  - intros pre a mid b post d c. apply two_spans_answer.
Qed.

End ExtractorProperties.

(* ===================================================================== *)
(** * Properties of the formatting cleanup *)
(* ===================================================================== *)

Section Cleanup.

(** *** Replacement *)

Lemma replace_absent (h : N) (o new s : pystr) :
  ~ In h s -> replace (h :: o) new s = s.
Proof.
  unfold replace. induction s as [|c s IH]; intros Hin; cbn [replace_go]; [reflexivity |].
  cbn [starts_with].
  destruct (N.eqb_spec h c) as [-> | Hne]; [exfalso; apply Hin; left; reflexivity |].
  cbn [andb]. f_equal. apply IH. intros H. apply Hin. right. exact H.
Qed.

Lemma remove_char_in (x y : N) (s : pystr) :
  In y (replace [x] [] s) <-> In y s /\ y <> x.
Proof.
  unfold replace. induction s as [|c s IH]; cbn [replace_go]; [cbn; tauto |].
  cbn [starts_with length Nat.sub app].
  destruct (N.eqb_spec x c) as [-> | Hne]; cbn [andb].
  - rewrite IH. cbn [In]. split; [tauto |]. intros [[-> | H] Hy]; [congruence | tauto].
  - cbn [In]. rewrite IH. split.
    + intros [-> | [H Hy]]; [split; [left; reflexivity | congruence] | tauto].
    + intros [[-> | H] Hy]; [left; reflexivity | right; tauto].
Qed.

(** *** The two collapses *)

Lemma collapse_newlines_in (y : N) (s : pystr) :
  In y (collapse_newlines s) -> In y s.
Proof.
  induction s as [|c s IH]; cbn [collapse_newlines]; [tauto |].
  destruct s as [|c1 [|c2 s']].
  - cbn. tauto.
  - cbn. tauto.
  - destruct ((c =? 10) && (c1 =? 10) && (c2 =? 10)).
    + intros H. right. apply IH, H.
    + intros [-> | H]; [left; reflexivity | right; apply IH, H].
Qed.

Lemma collapse_spaces_in (y : N) (s : pystr) :
  In y (collapse_spaces s) -> In y s.
Proof.
  induction s as [|c s IH]; cbn [collapse_spaces]; [tauto |].
  destruct s as [|c1 s'].
  - cbn. tauto.
  - destruct ((c =? 32) && (c1 =? 32)).
    + intros H. right. apply IH, H.
    + intros [-> | H]; [left; reflexivity | right; apply IH, H].
Qed.

Lemma collapse_newlines_fixed (s : pystr) :
  nl_ok s = true -> collapse_newlines s = s.
Proof.
  induction s as [|c s IH]; [reflexivity |].
  cbn [nl_ok collapse_newlines]. intros H. apply andb_true_iff in H.
  destruct H as [Hhead Htail]. rewrite (IH Htail).
  destruct s as [|c1 [|c2 s']]; try reflexivity.
  apply negb_true_iff in Hhead. rewrite Hhead. reflexivity.
Qed.

Lemma collapse_spaces_fixed (s : pystr) :
  sp_ok s = true -> collapse_spaces s = s.
Proof.
  induction s as [|c s IH]; [reflexivity |].
  cbn [sp_ok collapse_spaces]. intros H. apply andb_true_iff in H.
  destruct H as [Hhead Htail]. rewrite (IH Htail).
  destruct s as [|c1 s']; try reflexivity.
  apply negb_true_iff in Hhead. rewrite Hhead. reflexivity.
Qed.

(** Collapsing never changes the first character. *)
Lemma collapse_spaces_head (s : pystr) (x : N) (r : pystr) :
  collapse_spaces s = x :: r -> exists s', s = x :: s'.
Proof.
  revert x r. induction s as [|c s IH]; intros x r; cbn [collapse_spaces]; [discriminate |].
  destruct s as [|c1 s'].
  - intros H. injection H as <- _. eexists. reflexivity.
  - destruct ((c =? 32) && (c1 =? 32)) eqn:Hdrop.
    + intros H. destruct (IH _ _ H) as [s'' Hs]. injection Hs as <- _.
      apply andb_true_iff in Hdrop. destruct Hdrop as [Hc Hc1].
      apply N.eqb_eq in Hc, Hc1. subst. eexists. reflexivity.
    + intros H. injection H as <- _. eexists. reflexivity.
Qed.

Lemma collapse_newlines_head (s : pystr) (x : N) (r : pystr) :
  collapse_newlines s = x :: r -> exists s', s = x :: s'.
Proof.
  revert x r. induction s as [|c s IH]; intros x r; cbn [collapse_newlines]; [discriminate |].
  destruct s as [|c1 [|c2 s']].
  - intros H. injection H as <- _. eexists. reflexivity.
  - intros H. injection H as <- _. eexists. reflexivity.
  - destruct ((c =? 10) && (c1 =? 10) && (c2 =? 10)) eqn:Hdrop.
    + intros H. destruct (IH _ _ H) as [s'' Hs]. injection Hs as <- _.
      apply andb_true_iff in Hdrop. destruct Hdrop as [Hc Hc2].
      apply andb_true_iff in Hc. destruct Hc as [Hc Hc1].
      apply N.eqb_eq in Hc, Hc1. subst. eexists. reflexivity.
    + intros H. injection H as <- _. eexists. reflexivity.
Qed.

Lemma collapse_spaces_sp_ok (s : pystr) : sp_ok (collapse_spaces s) = true.
Proof.
  induction s as [|c s IH]; [reflexivity |]. cbn [collapse_spaces].
  destruct s as [|c1 s']; [reflexivity |].
  destruct ((c =? 32) && (c1 =? 32)) eqn:Hdrop; [exact IH |].
  cbn [sp_ok]. rewrite IH, andb_true_r.
  destruct (collapse_spaces (c1 :: s')) as [|x r] eqn:Hcs; [reflexivity |].
  destruct (collapse_spaces_head _ _ _ Hcs) as [s'' Hs]. injection Hs as <- _.
  rewrite Hdrop. reflexivity.
Qed.

Lemma collapse_newlines_nl_ok (s : pystr) : nl_ok (collapse_newlines s) = true.
Proof.
  induction s as [|c s IH]; [reflexivity |]. cbn [collapse_newlines].
  destruct s as [|c1 [|c2 s']]; try reflexivity.
  destruct ((c =? 10) && (c1 =? 10) && (c2 =? 10)) eqn:Hdrop; [exact IH |].
  cbn [nl_ok]. fold (nl_ok (collapse_newlines (c1 :: c2 :: s'))).
  rewrite IH, andb_true_r.
  destruct (collapse_newlines (c1 :: c2 :: s')) as [|y1 [|y2 r]] eqn:Hcn; try reflexivity.
  apply negb_true_iff.
  destruct (N.eqb_spec c 10) as [-> | Hc]; [| reflexivity].
  destruct (N.eqb_spec y1 10) as [-> | Hy1]; [| reflexivity].
  destruct (N.eqb_spec y2 10) as [-> | Hy2]; [| reflexivity].
  exfalso.
  destruct (collapse_newlines_head _ _ _ Hcn) as [t Ht]. injection Ht as -> _.
  change ((c2 =? 10) = false) in Hdrop.
  assert (Hkeep : 10 :: collapse_newlines (c2 :: s') = 10 :: 10 :: r).
  { rewrite <- Hcn. cbn [collapse_newlines]. destruct s' as [|c3 s'']; [reflexivity |].
    change (10 =? 10) with true. rewrite Hdrop. reflexivity. }
  injection Hkeep as Hkeep. change (collapse_newlines (c2 :: s') = 10 :: r) in Hkeep.
  destruct (collapse_newlines_head _ _ _ Hkeep) as [t' Ht]. injection Ht as -> _.
  discriminate Hdrop.
Qed.

Lemma collapse_spaces_nl_ok (s : pystr) :
  nl_ok s = true -> nl_ok (collapse_spaces s) = true.
Proof.
  induction s as [|c s IH]; [reflexivity |]. intros Hok.
  assert (Htail : nl_ok s = true).
  { cbn [nl_ok] in Hok. apply andb_true_iff in Hok. tauto. }
  specialize (IH Htail). cbn [collapse_spaces].
  assert (Hkeep : nl_ok (c :: collapse_spaces s) = true).
  { cbn [nl_ok]. fold (nl_ok (collapse_spaces s)). rewrite IH, andb_true_r.
    destruct (collapse_spaces s) as [|y1 [|y2 r]] eqn:Hcs; try reflexivity.
    apply negb_true_iff.
    destruct (N.eqb_spec c 10) as [-> | Hc]; [| reflexivity].
    destruct (N.eqb_spec y1 10) as [-> | Hy1]; [| reflexivity].
    destruct (N.eqb_spec y2 10) as [-> | Hy2]; [| reflexivity].
    exfalso.
    destruct (collapse_spaces_head _ _ _ Hcs) as [t Ht]. subst s.
    cbn [collapse_spaces] in Hcs.
    assert (Hin : collapse_spaces t = 10 :: r).
    { destruct t as [|c3 t']; [discriminate Hcs |].
      change (10 =? 32) with false in Hcs. cbn [andb] in Hcs.
      injection Hcs as Hcs. exact Hcs. }
    destruct (collapse_spaces_head _ _ _ Hin) as [t' Ht']. subst t.
    cbn in Hok. discriminate Hok. }
  destruct s as [|c1 s']; [exact Hkeep |].
  destruct ((c =? 32) && (c1 =? 32)); [exact IH | exact Hkeep].
Qed.

Lemma nl_ok_app (a b : pystr) : nl_ok (a ++ b) = true -> nl_ok a = true /\ nl_ok b = true.
Proof.
  induction a as [|c a IH]; cbn [app]; [tauto |].
  intros H. cbn [nl_ok] in H. apply andb_true_iff in H. destruct H as [Hhead Htail].
  destruct (IH Htail) as [Ha Hb]. split; [| exact Hb].
  cbn [nl_ok]. rewrite Ha, andb_true_r.
  destruct a as [|c1 [|c2 a']]; try reflexivity. exact Hhead.
Qed.

Lemma sp_ok_app (a b : pystr) : sp_ok (a ++ b) = true -> sp_ok a = true /\ sp_ok b = true.
Proof.
  induction a as [|c a IH]; cbn [app]; [tauto |].
  intros H. cbn [sp_ok] in H. apply andb_true_iff in H. destruct H as [Hhead Htail].
  destruct (IH Htail) as [Ha Hb]. split; [| exact Hb].
  cbn [sp_ok]. rewrite Ha, andb_true_r.
  destruct a as [|c1 a']; try reflexivity. exact Hhead.
Qed.

(** *** Trimming *)

Lemma lstrip_split (s : pystr) : exists w, s = w ++ lstrip s.
Proof.
  induction s as [|c s [w Hw]]; [exists []; reflexivity |]. cbn [lstrip].
  destruct (py_isspace c).
  - exists (c :: w). cbn [app]. f_equal. exact Hw.
  - exists []. reflexivity.
Qed.

Lemma rstrip_split (s : pystr) : exists w, s = rstrip s ++ w.
Proof.
  unfold rstrip. destruct (lstrip_split (rev s)) as [w Hw].
  exists (rev w). rewrite <- rev_app_distr, <- Hw. symmetry. apply rev_involutive.
Qed.

Lemma strip_split (s : pystr) : exists w1 w2, s = w1 ++ strip s ++ w2.
Proof.
  unfold strip. destruct (lstrip_split s) as [w1 H1].
  destruct (rstrip_split (lstrip s)) as [w2 H2].
  exists w1, w2. rewrite <- H2. exact H1.
Qed.

Lemma lstrip_idem (s : pystr) : lstrip (lstrip s) = lstrip s.
Proof.
  induction s as [|c s IH]; [reflexivity |]. cbn [lstrip].
  destruct (py_isspace c) eqn:Hc; [exact IH |]. cbn [lstrip]. rewrite Hc. reflexivity.
Qed.

Lemma lstrip_head (s : pystr) (x : N) (r : pystr) :
  lstrip s = x :: r -> py_isspace x = false.
Proof.
  induction s as [|c s IH]; cbn [lstrip]; [discriminate |].
  destruct (py_isspace c) eqn:Hc; [exact IH |]. intros H. injection H as <- _. exact Hc.
Qed.

Lemma rstrip_idem (s : pystr) : rstrip (rstrip s) = rstrip s.
Proof. unfold rstrip. rewrite rev_involutive, lstrip_idem. reflexivity. Qed.

Lemma lstrip_rstrip (s : pystr) : lstrip (rstrip (lstrip s)) = rstrip (lstrip s).
Proof.
  destruct (rstrip_split (lstrip s)) as [w Hw].
  destruct (rstrip (lstrip s)) as [|x r] eqn:Hr; [reflexivity |].
  cbn [app] in Hw. apply lstrip_head in Hw. cbn [lstrip]. rewrite Hw. reflexivity.
Qed.

Lemma strip_idem (s : pystr) : strip (strip s) = strip s.
Proof. unfold strip. rewrite lstrip_rstrip. apply rstrip_idem. Qed.

Lemma strip_in (y : N) (s : pystr) : In y (strip s) -> In y s.
Proof.
  destruct (strip_split s) as (w1 & w2 & H). intros Hin. rewrite H.
  apply in_or_app. right. apply in_or_app. left. exact Hin.
Qed.

(** *** The cleanup on a text without backslash *)

Lemma clean_without_backslash (content : pystr) :
  ~ In 92 content ->
  clean_response_formatting content
  = match content with
    | [] => []
    | _ => strip (collapse_spaces (collapse_newlines
                    (replace (lit "_") [] (replace (lit "*") [] content))))
    end.
Proof.
  intros Hno. destruct content as [|c0 content']; [reflexivity |].
  set (content := c0 :: content') in *. unfold clean_response_formatting.
  fold content. change (lit "**") with (42 :: [42]). change (lit "__") with (95 :: [95]).
  change (lit "*") with [42]. change (lit "_") with [95].
  set (f := replace [95] [] (replace [42] [] content)).
  assert (H42 : ~ In 42 f).
  { unfold f. rewrite !remove_char_in. intros [[_ H] _]. congruence. }
  assert (H95 : ~ In 95 f).
  { unfold f. rewrite remove_char_in. intros [_ H]. congruence. }
  assert (H92 : ~ In 92 f).
  { unfold f. rewrite !remove_char_in. tauto. }
  rewrite (replace_absent 42 [42] [] f H42).
  rewrite (replace_absent 95 [95] [] f H95).
  assert (H92' : ~ In 92 (collapse_spaces (collapse_newlines f))).
  { intros H. apply H92. apply collapse_newlines_in, collapse_spaces_in, H. }
  rewrite (replace_absent 92 [34] [34] _ H92').
  rewrite (replace_absent 92 [110] [10] _ H92').
  reflexivity.
Qed.

(** C4 (as amended).  On a text that contains no backslash the cleanup is
    idempotent: cleaning the cleaned text gives the cleaned text.  (With a
    backslash the unescaping at the end can produce a quote escape, a line
    feed run or outer white space that only a second pass removes.) *)
Theorem cleanup_idempotent_without_backslash (content : pystr) :
  ~ In 92 content ->
  clean_response_formatting (clean_response_formatting content)
  = clean_response_formatting content.
Proof.
  intros Hno. rewrite (clean_without_backslash content Hno).
  destruct content as [|c0 content']; [reflexivity |].
  set (content := c0 :: content') in *.
  set (f := replace (lit "_") [] (replace (lit "*") [] content)).
  set (r := strip (collapse_spaces (collapse_newlines f))).
  assert (Hf : forall y, In y f -> In y content /\ y <> 42 /\ y <> 95).
  { intros y Hy. unfold f in Hy. change (lit "_") with [95] in Hy.
    change (lit "*") with [42] in Hy. rewrite !remove_char_in in Hy. tauto. }
  assert (Hr : forall y, In y r -> In y f).
  { intros y Hy. apply collapse_newlines_in, collapse_spaces_in, strip_in, Hy. }
  assert (H92 : ~ In 92 r) by (intros H; apply Hno, Hf, Hr, H).
  assert (H42 : ~ In 42 r) by (intros H; apply Hr, Hf in H; tauto).
  assert (H95 : ~ In 95 r) by (intros H; apply Hr, Hf in H; tauto).
  destruct (strip_split (collapse_spaces (collapse_newlines f))) as (w1 & w2 & Hsplit).
  fold r in Hsplit.
  assert (Hnl : nl_ok r = true).
  { pose proof (collapse_spaces_nl_ok _ (collapse_newlines_nl_ok f)) as H.
    rewrite Hsplit in H. apply nl_ok_app in H. destruct H as [_ H].
    apply nl_ok_app in H. tauto. }
  assert (Hsp : sp_ok r = true).
  { pose proof (collapse_spaces_sp_ok (collapse_newlines f)) as H.
    rewrite Hsplit in H. apply sp_ok_app in H. destruct H as [_ H].
    apply sp_ok_app in H. tauto. }
  rewrite (clean_without_backslash r H92).
  destruct r as [|r0 r'] eqn:Er; [reflexivity |]. rewrite <- Er in *.
  change (lit "*") with [42]. change (lit "_") with [95].
  rewrite (replace_absent 42 [] [] r H42), (replace_absent 95 [] [] r H95).
  rewrite (collapse_newlines_fixed r Hnl), (collapse_spaces_fixed r Hsp).
  unfold r at 1. rewrite strip_idem. reflexivity.
Qed.
End Cleanup.

(* ===================================================================== *)
(** * Line atomicity of the classifier *)
(* ===================================================================== *)

Section Lines.

(** *** Splitting and appending *)

Lemma split_on_nonnil (sep : N) (s : pystr) : split_on sep s <> [].
Proof.
  destruct s as [|c s]; cbn [split_on]; [discriminate |].
  destruct (c =? sep); [discriminate |]. destruct (split_on sep s); discriminate.
Qed.

Lemma split_on_last (sep : N) (s : pystr) :
  exists init l, split_on sep s = init ++ [l].
Proof.
  destruct (exists_last (split_on_nonnil sep s)) as (init & l & H). eauto.
Qed.

Lemma split_on_app (sep : N) (a : pystr) :
  forall b init l l' tl,
    split_on sep a = init ++ [l] ->
    split_on sep b = l' :: tl ->
    split_on sep (a ++ b) = init ++ (l ++ l') :: tl.
Proof.
  induction a as [|c a IH]; intros b init l l' tl Ha Hb.
  - cbn [split_on] in Ha. destruct init as [|i0 init'].
    + injection Ha as <-. exact Hb.
    + destruct init'; discriminate Ha.
  - cbn [app split_on] in *. destruct (c =? sep).
    + destruct init as [|i0 init'].
      * injection Ha as _ Ha. exfalso. exact (split_on_nonnil sep a Ha).
      * injection Ha as <- Ha. rewrite (IH b init' l l' tl Ha Hb). reflexivity.
    + destruct (split_on sep a) as [|h t'] eqn:Hsplit;
        [exfalso; exact (split_on_nonnil sep a Hsplit) |].
      destruct init as [|i0 init'].
      * injection Ha as <- ->. rewrite (IH b [] h l' tl eq_refl Hb). reflexivity.
      * injection Ha as <- ->.
        rewrite (IH b (h :: init') l l' tl eq_refl Hb). reflexivity.
Qed.

Lemma split_on_sep_app (sep : N) (a b : pystr) :
  split_on sep (a ++ sep :: b) = split_on sep a ++ split_on sep b.
Proof.
  destruct (split_on_last sep a) as (init & l & Ha).
  rewrite (split_on_app sep a (sep :: b) init l [] (split_on sep b) Ha).
  - rewrite Ha, app_nil_r, <- app_assoc. reflexivity.
  - cbn [split_on]. rewrite N.eqb_refl. reflexivity.
Qed.

Lemma split_on_snoc (sep x : N) (a : pystr) (init : list pystr) (l : pystr) :
  x <> sep -> split_on sep a = init ++ [l] ->
  split_on sep (a ++ [x]) = init ++ [l ++ [x]].
Proof.
  intros Hx Ha. apply (split_on_app sep a [x] init l [x] [] Ha).
  cbn [split_on]. apply N.eqb_neq in Hx. rewrite Hx. reflexivity.
Qed.

Lemma split_on_rev (sep : N) (s : pystr) :
  split_on sep (rev s) = rev (map (@rev N) (split_on sep s)).
Proof.
  induction s as [|x t IH]; [reflexivity |]. cbn [rev split_on].
  destruct (N.eqb_spec x sep) as [-> | Hx].
  - replace (rev t ++ [sep]) with (rev t ++ sep :: []) by reflexivity.
    rewrite split_on_sep_app, IH. cbn [map rev split_on]. reflexivity.
  - destruct (split_on sep t) as [|l ls] eqn:Hsplit;
      [exfalso; exact (split_on_nonnil sep t Hsplit) |].
    cbn [map rev] in *.
    rewrite (split_on_snoc sep x (rev t) _ _ Hx IH). reflexivity.
Qed.

(** *** Trimming a chunk, line by line *)

Lemma lstrip_blank (l : pystr) : lstrip l = [] <-> forallb py_isspace l = true.
Proof.
  induction l as [|c l IH]; cbn [lstrip forallb]; [tauto |].
  destruct (py_isspace c); cbn [andb]; [exact IH | split; discriminate].
Qed.

Lemma forallb_rev {A} (f : A -> bool) (l : list A) : forallb f (rev l) = forallb f l.
Proof.
  induction l as [|x l IH]; [reflexivity |]. cbn [rev forallb].
  rewrite forallb_app, IH. cbn [forallb]. rewrite andb_true_r. apply andb_comm.
Qed.

Lemma lstrip_space (l : pystr) : forallb py_isspace (lstrip l) = forallb py_isspace l.
Proof.
  induction l as [|c l IH]; [reflexivity |]. cbn [lstrip forallb].
  destruct (py_isspace c) eqn:Hc; [exact IH |]. cbn [forallb]. rewrite Hc. reflexivity.
Qed.

Lemma rstrip_space (l : pystr) : forallb py_isspace (rstrip l) = forallb py_isspace l.
Proof. unfold rstrip. rewrite forallb_rev, lstrip_space, forallb_rev. reflexivity. Qed.

Lemma rstrip_blank (l : pystr) : rstrip l = [] <-> forallb py_isspace l = true.
Proof.
  unfold rstrip. rewrite <- (forallb_rev py_isspace l), <- lstrip_blank. split.
  - intros H. apply (f_equal (@rev N)) in H. rewrite rev_involutive in H. exact H.
  - intros H. rewrite H. reflexivity.
Qed.

(** A line is passed over exactly when it is white space only. *)
Lemma nonblank_space (l : pystr) : nonblank l = negb (forallb py_isspace l).
Proof.
  unfold nonblank, strip. rewrite <- (lstrip_space l).
  destruct (rstrip (lstrip l)) as [|x r] eqn:E.
  - apply rstrip_blank in E. rewrite E. reflexivity.
  - destruct (forallb py_isspace (lstrip l)) eqn:F; [| reflexivity].
    apply rstrip_blank in F. congruence.
Qed.

Lemma nonblank_lstrip (l : pystr) : nonblank (lstrip l) = nonblank l.
Proof. rewrite !nonblank_space, lstrip_space. reflexivity. Qed.

Lemma nonblank_rstrip (l : pystr) : nonblank (rstrip l) = nonblank l.
Proof. rewrite !nonblank_space, rstrip_space. reflexivity. Qed.

Lemma nonblank_rev (l : pystr) : nonblank (rev l) = nonblank l.
Proof. rewrite !nonblank_space, forallb_rev. reflexivity. Qed.

(** Trimming a chunk on the left drops its leading blank lines and trims
    the first line that is left. *)
Lemma lstrip_lines (c : pystr) :
  exists pre l rest,
    split_on 10 c = pre ++ l :: rest
    /\ Forall (fun x => nonblank x = false) pre
    /\ split_on 10 (lstrip c) = lstrip l :: rest.
Proof.
  induction c as [|x t IH].
  - exists [], [], []. repeat split. constructor.
  - destruct IH as (pre & l & rest & Hsplit & Hpre & Hl).
    cbn [split_on lstrip]. destruct (N.eqb_spec x 10) as [-> | Hx].
    + change (py_isspace 10) with true. cbv iota.
      exists ([] :: pre), l, rest. split; [cbn [app]; f_equal; exact Hsplit |].
      split; [constructor; [reflexivity | exact Hpre] | exact Hl].
    + destruct (py_isspace x) eqn:Hspace.
      * rewrite Hsplit. destruct pre as [|p pre']; cbn [app].
        -- exists [], (x :: l), rest. split; [reflexivity |].
           split; [constructor |]. cbn [lstrip]. rewrite Hspace. exact Hl.
        -- exists ((x :: p) :: pre'), l, rest. split; [reflexivity |].
           split; [| exact Hl].
           inversion Hpre as [|? ? Hp Hpre']; subst. constructor; [| exact Hpre'].
           rewrite nonblank_space in *. cbn [forallb]. rewrite Hspace. exact Hp.
      * destruct (split_on 10 t) as [|h tl] eqn:Ht;
          [exfalso; exact (split_on_nonnil 10 t Ht) |].
        exists [], (x :: h), tl. split; [reflexivity |]. split; [constructor |].
        cbn [lstrip split_on]. rewrite Hspace. apply N.eqb_neq in Hx. rewrite Hx, Ht.
        reflexivity.
Qed.

(** Trimming a chunk on the right drops its trailing blank lines and trims
    the last line that is left. *)
Lemma rstrip_lines (y : pystr) :
  exists init l post,
    split_on 10 y = init ++ l :: post
    /\ Forall (fun x => nonblank x = false) post
    /\ split_on 10 (rstrip y) = init ++ [rstrip l].
Proof.
  destruct (lstrip_lines (rev y)) as (pre & l & rest & Hsplit & Hpre & Hl).
  exists (rev (map (@rev N) rest)), (rev l), (rev (map (@rev N) pre)).
  split; [| split].
  - rewrite <- (rev_involutive y) at 1. rewrite split_on_rev.
    unfold pystr in *. rewrite Hsplit, map_app, rev_app_distr. cbn [map rev].
    rewrite <- app_assoc. reflexivity.
  - apply Forall_rev, Forall_map. eapply Forall_impl; [| exact Hpre].
    cbn beta. intros p Hp. rewrite nonblank_rev. exact Hp.
  - unfold rstrip at 1. rewrite split_on_rev. unfold pystr in *. rewrite Hl.
    cbn [map rev]. unfold rstrip. rewrite rev_involutive. reflexivity.
Qed.
End Lines.

Section LineAtomicity.

Context {RT : PyRuntime} {TE : Terminal}.

Lemma process_line_blank (line : pystr) (w : World) :
  nonblank line = false -> process_line line w = (Done tt, w).
Proof.
  intros H. unfold process_line. unfold nonblank in H. rewrite H. reflexivity.
Qed.

(** What a line does depends on whether it is blank and on how the decoder
    reads it. *)
Lemma process_line_same (l l' : pystr) (w : World) :
  nonblank l' = nonblank l -> json_loads l' = json_loads l ->
  process_line l' w = process_line l w.
Proof.
  unfold nonblank, process_line. intros -> ->. reflexivity.
Qed.

Lemma for_each_blank (lines : list pystr) :
  Forall (fun x => nonblank x = false) lines ->
  forall w, for_each lines process_line w = (Done tt, w).
Proof.
  induction 1 as [|l lines Hl _ IH]; intros w; [reflexivity |].
  cbn [for_each]. unfold bind. rewrite (process_line_blank l w Hl). apply IH.
Qed.

Lemma for_each_app {A} (a b : list A) (body : A -> M unit) :
  forall w, for_each (a ++ b) body w = (for_each a body ;; for_each b body) w.
Proof.
  induction a as [|x a IH]; intros w; [reflexivity |].
  cbn [app for_each]. unfold bind. destruct (body x w) as [[u | e] w'].
  - rewrite IH. reflexivity.
  - reflexivity.
Qed.

Lemma bind_ext {A B} (m m' : M A) (k k' : A -> M B) (w : World) :
  m w = m' w -> (forall a w', k a w' = k' a w') -> bind m k w = bind m' k' w.
Proof.
  intros Hm Hk. unfold bind. rewrite Hm. destruct (m' w) as [[a | e] w'];
    [apply Hk | reflexivity].
Qed.

Lemma for_each_after_blank (pre lines : list pystr) (w : World) :
  Forall (fun x => nonblank x = false) pre ->
  for_each (pre ++ lines) process_line w = for_each lines process_line w.
Proof.
  intros Hpre. rewrite for_each_app. unfold bind. rewrite (for_each_blank pre Hpre).
  reflexivity.
Qed.

Lemma for_each_before_blank (lines post : list pystr) (w : World) :
  Forall (fun x => nonblank x = false) post ->
  for_each (lines ++ post) process_line w = for_each lines process_line w.
Proof.
  intros Hpost. rewrite for_each_app. unfold bind.
  destruct (for_each lines process_line w) as [[[] | e] w1]; [| reflexivity].
  apply (for_each_blank post Hpost).
Qed.

(** The loop over a trimmed chunk does what the loop over the lines of the
    chunk as it is would do, when the decoder reads each line the same with
    and without the white space at its ends. *)
Lemma classify_lines_all (chunk : pystr) (w : World) :
  Forall trims_alike (split_on 10 chunk) ->
  classify_lines chunk w = for_each (split_on 10 chunk) process_line w.
Proof.
  intros Hall. unfold classify_lines, strip.
  destruct (lstrip_lines chunk) as (pre & l & rest & Hc & Hpre & Hl).
  destruct (rstrip_lines (lstrip chunk)) as (init & m & post & Hlc & Hpost & Hr).
  rewrite Hr, Hc, (for_each_after_blank pre _ w Hpre).
  rewrite Hc in Hall. apply Forall_app in Hall. destruct Hall as [_ Hall].
  inversion Hall as [|? ? (Hleft & Hright & Hboth) Hrest]; subst.
  rewrite Hl in Hlc.
  assert (Hm : json_loads (rstrip m) = json_loads m).
  { destruct init as [|i0 init']; cbn [app] in Hlc.
    - injection Hlc as <- _. fold (strip l). rewrite Hboth, Hleft. reflexivity.
    - injection Hlc as _ ->. apply Forall_app in Hrest. destruct Hrest as [_ Hrest].
      inversion Hrest as [|? ? (_ & H & _) _]; subst. exact H. }
  transitivity (for_each (lstrip l :: rest) process_line w).
  - rewrite Hlc.
    replace (init ++ m :: post) with ((init ++ [m]) ++ post)
      by (rewrite <- app_assoc; reflexivity).
    rewrite (for_each_before_blank (init ++ [m]) post w Hpost).
    rewrite !for_each_app. apply bind_ext; [reflexivity |].
    intros _ w1. cbn [for_each]. apply bind_ext; [| reflexivity].
    apply process_line_same; [apply nonblank_rstrip | exact Hm].
  - cbn [for_each]. apply bind_ext; [| reflexivity].
    apply process_line_same; [apply nonblank_lstrip | exact Hleft].
Qed.

Lemma process_system_messages_done (chunk : pystr) (w : World) :
  fst (process_system_messages chunk w) = Done tt.
Proof.
  unfold process_system_messages, try_except.
  destruct (classify_lines chunk w) as [[[] | e] w']; reflexivity.
Qed.

Lemma process_system_messages_quiet (chunk : pystr) (w : World) :
  fst (classify_lines chunk w) = Done tt ->
  process_system_messages chunk w = classify_lines chunk w.
Proof.
  unfold process_system_messages, try_except.
  destruct (classify_lines chunk w) as [[[] | e] w']; [reflexivity | discriminate].
Qed.

Lemma boundary_lines (chunk : pystr) :
  at_line_boundary chunk = true ->
  exists head,
    split_on 10 chunk = head ++ [[]]
    /\ forall rest, split_on 10 (chunk ++ rest) = head ++ split_on 10 rest.
Proof.
  unfold at_line_boundary. destruct (rev chunk) as [|x r] eqn:Hrev; intros Hb.
  - apply (f_equal (@rev N)) in Hrev. rewrite rev_involutive in Hrev. subst chunk.
    exists []. split; reflexivity.
  - apply N.eqb_eq in Hb. subst x.
    apply (f_equal (@rev N)) in Hrev. rewrite rev_involutive in Hrev. subst chunk.
    cbn [rev]. exists (split_on 10 (rev r)). split.
    + replace (rev r ++ [10]) with (rev r ++ 10 :: []) by reflexivity.
      rewrite split_on_sep_app. reflexivity.
    + intros rest. rewrite <- app_assoc. cbn [app]. apply split_on_sep_app.
Qed.

(** C7 (as amended).  Take a chunk cut into sub-chunks at line boundaries
    (every sub-chunk but the last is empty or ends with a line feed).  If
    the JSON decoder reads each line of the chunk the same with and without
    the white space at its ends (the trimming of a chunk reaches the first
    and the last line of it that are not blank), and if classifying the
    whole chunk meets no exception other than the JSONDecodeError of a line
    that is not JSON (no handler is stopped by an ill-typed field and no
    draw raises), then running [process_system_messages] on the sub-chunks
    in order ends in the same world as running it on the whole chunk. *)
Theorem classifier_line_atomic (chunks : list pystr) :
  forall w : World,
    Forall (fun c => at_line_boundary c = true) (removelast chunks) ->
    Forall trims_alike (split_on 10 (concat chunks)) ->
    fst (classify_lines (concat chunks) w) = Done tt ->
    for_each chunks process_system_messages w
    = process_system_messages (concat chunks) w.
Proof.
  induction chunks as [|c rest IH]; intros w Hcuts Hlines Hquiet; [reflexivity |].
  destruct rest as [|c2 rest'].
  - cbn [concat for_each] in *. rewrite app_nil_r in *. unfold bind.
    pose proof (process_system_messages_done c w) as Hd.
    destruct (process_system_messages c w) as [[[] | e] w']; [reflexivity | discriminate].
  - set (rest := c2 :: rest') in *.
    change (removelast (c :: rest)) with (c :: removelast rest) in Hcuts.
    inversion Hcuts as [|? ? Hc Hcuts']; subst.
    change (concat (c :: rest)) with (c ++ concat rest) in *.
    destruct (boundary_lines c Hc) as (head & Hsplit & Hjoin).
    assert (Hwhole_lines := Hlines).
    rewrite Hjoin in Hlines. apply Forall_app in Hlines. destruct Hlines as [Hhead Hrest].
    assert (Hc_lines : Forall trims_alike (split_on 10 c)).
    { rewrite Hsplit. apply Forall_app. split; [exact Hhead |].
      constructor; [repeat split | constructor]. }
    assert (Hwhole : classify_lines (c ++ concat rest) w
                     = (classify_lines c ;; classify_lines (concat rest)) w).
    { rewrite (classify_lines_all _ w Hwhole_lines), Hjoin, for_each_app.
      apply bind_ext.
      - rewrite (classify_lines_all c w Hc_lines), Hsplit.
        symmetry. apply for_each_before_blank. constructor; [reflexivity | constructor].
      - intros _ w1. symmetry. apply classify_lines_all, Hrest. }
    rewrite Hwhole in Hquiet. unfold bind in Hquiet.
    rewrite (process_system_messages_quiet (c ++ concat rest) w)
      by (rewrite Hwhole; exact Hquiet).
    rewrite Hwhole. cbn [for_each]. unfold bind.
    destruct (classify_lines c w) as [[[] | e] w1] eqn:Hfirst; [| discriminate Hquiet].
    rewrite (process_system_messages_quiet c w) by (rewrite Hfirst; reflexivity).
    rewrite Hfirst.
    rewrite (IH w1 Hcuts' Hrest Hquiet).
    apply process_system_messages_quiet, Hquiet.
Qed.

End LineAtomicity.

(* ===================================================================== *)
(** * The polling loop of the send path *)
(* ===================================================================== *)

Section SendLoop.
Context {RT : PyRuntime} {TE : Terminal}.

(** A chunk of the diagnostic stream is classified and the screen drawn:
    the state is that of the classification, the outcome that of the draw. *)
Lemma classified_then_redrawn (data : pystr) (w : World) :
  let w' := snd (process_system_messages data w) in
  (process_system_messages data ;; redraw) w = (fst (redraw w'), w').
Proof.
  cbv zeta. apply then_redraw.
  pose proof (process_system_messages_done data w) as Hd.
  destruct (process_system_messages data w) as [o w']. cbn [fst snd] in *. subst o.
  reflexivity.
Qed.

(** While the child does not exit and prints no diagnostics, the loop takes
    another turn, whatever the number of turns already taken. *)
Lemma pump_never_exits (child : Child) :
  (forall turn, poll child turn = None) ->
  (forall turn, stderr_at child turn = []) ->
  forall fuel turn stdout_lines stderr_lines w,
    pump fuel turn child stdout_lines stderr_lines w = None.
Proof.
  intros Hrunning Hsilent.
  induction fuel as [|fuel IH]; intros turn outs errs w; [reflexivity |].
  cbn [pump]. rewrite Hrunning, Hsilent. cbn [nonempty]. apply IH.
Qed.

(** While the child does not exit, the loop is left only by the exception
    of a draw. *)
Lemma pump_left_by_draw (child : Child) :
  (forall turn, poll child turn = None) ->
  forall fuel turn stdout_lines stderr_lines w o w',
    pump fuel turn child stdout_lines stderr_lines w = Some (o, w') ->
    exists e, o = Raised e /\ draw (self w') = Raised e.
Proof.
  intros Hrunning.
  induction fuel as [|fuel IH]; intros turn outs errs w o w' Hrun; [discriminate |].
  cbn [pump] in Hrun. rewrite Hrunning in Hrun.
  destruct (nonempty (stderr_at child turn)); [| exact (IH _ _ _ _ _ _ Hrun)].
  rewrite classified_then_redrawn in Hrun.
  set (w1 := snd (process_system_messages (stderr_at child turn) w)) in *.
  destruct (fst (redraw w1)) as [[] | e] eqn:Hdraw; [exact (IH _ _ _ _ _ _ Hrun) |].
  destruct (exn_eqb e OSError); [exact (IH _ _ _ _ _ _ Hrun) |].
  injection Hrun as <- <-. exists e. split; [reflexivity |].
  rewrite redraw_outcome in Hdraw. destruct (copy_mode (self w1)); [discriminate |].
  exact Hdraw.
Qed.

(** [send_message] up to the [try], in closed form: the draw at its end is
    the one statement that can raise, and it stands outside the [try]. *)
Lemma send_prologue_cases (message : pystr) (w : World) :
  exists s n,
    (reads w <= n)%nat
    /\ let w1 := {| self := set_status s (set_thinking true (self w)); reads := n |} in
       send_prologue message w
       = match draw (self w1) with
         | Raised e => (Raised e, w1)
         | Done _ =>
             (Done tt,
              {| self := set_messages
                           (messages (self w)
                            ++ [{| msg_role := User; msg_content := JStr message;
                                   msg_timestamp := clock n; msg_immediate := false;
                                   msg_source := None; msg_tool := None |}])
                           (self w1);
                 reads := S n |})
         end.
Proof.
  unfold send_prologue. unfold bind at 1. unfold modify at 1.
  destruct (update_status_frame {| self := set_thinking true (self w); reads := reads w |})
    as (s & n & Hup & Hn & _).
  unfold bind at 1. rewrite Hup. exists s, n. split; [exact Hn |]. cbv zeta.
  unfold bind at 1. unfold draw_screen at 1. cbn [self].
  destruct (draw _) as [[] | e]; reflexivity.
Qed.

(** [send_message] in the chat view, in closed form. *)
Lemma send_message_chat (fuel : nat) (message : pystr) (child : Child) (w : World) :
  str_eqb (view_mode (self w)) (lit "claude_raw") = false ->
  exists s n,
    (S (reads w) <= n)%nat
    /\ let start_time := clock (reads w) in
       let w1 := {| self := set_status s (set_thinking true (self w)); reads := n |} in
       let w2 :=
         {| self := set_messages
                      (messages (self w)
                       ++ [{| msg_role := User; msg_content := JStr message;
                              msg_timestamp := clock n; msg_immediate := false;
                              msg_source := None; msg_tool := None |}])
                      (self w1);
            reads := S n |} in
       send_prologue message {| self := self w; reads := S (reads w) |}
       = match draw (self w1) with
         | Raised e => (Raised e, w1)
         | Done _ => (Done tt, w2)
         end
       /\ send_message fuel message child w
          = match draw (self w1) with
            | Raised e => Some (Raised e, w1)
            | Done _ =>
                match spawn_error child with
                | Some e => Some ((report_exception e ;; finish_send start_time) w2)
                | None =>
                    match pump fuel 0 child [] [] w2 with
                    | None => None
                    | Some (Raised e, w3) =>
                        Some ((report_exception e ;; finish_send start_time) w3)
                    | Some (Done (stdout_lines, stderr_lines, return_code), w3) =>
                        Some (complete_send start_time return_code
                                (concat stdout_lines) (concat stderr_lines) w3)
                    end
                end
            end.
Proof.
  intros Hview.
  destruct (send_prologue_cases message {| self := self w; reads := S (reads w) |})
    as (s & n & Hn & Hpro).
  exists s, n. split; [exact Hn |]. cbv zeta in *. cbn [self reads] in Hpro.
  split; [exact Hpro |].
  unfold send_message.
  unfold bind at 1. unfold now at 1. unfold log_debug at 1. unfold bind at 1.
  cbn [ret self reads]. rewrite Hview, Hpro.
  destruct (draw _) as [[] | e]; reflexivity.
Qed.

(** Reporting an exception and finishing: one assistant message with the
    text of the exception is the last one. *)
Lemma reported_then_finished (e : exn) (start_time : Q) (w : World) :
  exists w',
    (report_exception e ;; finish_send start_time) w = (Done tt, w')
    /\ messages (self w')
       = messages (self w)
         ++ [{| msg_role := Assistant;
                msg_content := JStr (lit "Error: " ++ exn_text e);
                msg_timestamp := clock (reads w); msg_immediate := false;
                msg_source := None; msg_tool := None |}].
Proof.
  unfold bind at 1. unfold report_exception.
  unfold bind at 1. unfold log_debug at 1. cbn [ret].
  rewrite assistant_says_done.
  match goal with |- context [finish_send _ ?w3] =>
    destruct (finish_send_done start_time w3) as (w4 & Hfin & Hmsgs) end.
  exists w4. split; [exact Hfin |]. rewrite Hmsgs. reflexivity.
Qed.

End SendLoop.

(* ===================================================================== *)
(** * The reference decoder always answers *)
(* ===================================================================== *)

Section Fuel.

Import Ref.

Lemma skip_ws_length (s : pystr) : (length (skip_ws s) <= length s)%nat.
Proof.
  induction s as [|c s IH]; cbn [skip_ws]; [lia |].
  destruct (is_json_ws c); cbn [length]; lia.
Qed.

Lemma scanstring_length (n : nat) :
  forall s acc str rest,
    (length s <= n)%nat -> scanstring acc s = Some (str, rest) ->
    (length rest < length s)%nat.
Proof.
  induction n as [|n IH]; intros s acc str rest Hn H.
  - destruct s; [discriminate H | cbn in Hn; lia].
  - destruct s as [|c t]; [discriminate H |]. cbn [scanstring] in H. cbn [length] in *.
    repeat match type of H with
           | Some _ = Some _ => injection H as <- <-; lia
           | None = Some _ => discriminate H
           | scanstring _ ?u = Some _ =>
               apply IH in H; [cbn [length] in *; lia | cbn [length] in *; lia]
           | context [match ?x with _ => _ end] => destruct x; cbn [length] in *
           | context [if ?b then _ else _] => destruct b
           end.
Qed.

Lemma take_digits_length (s : pystr) :
  (length (snd (take_digits s)) <= length s)%nat.
Proof.
  induction s as [|c s IH]; cbn [take_digits]; [cbn; lia |].
  destruct (is_digit c); [| cbn; lia].
  destruct (take_digits s) as [ds r]. cbn [snd length] in *. lia.
Qed.

Lemma after_length (p s rest : pystr) :
  after p s = Some rest -> length s = (length p + length rest)%nat.
Proof.
  revert s. induction p as [|a p IH]; intros s H; cbn [after] in H.
  - injection H as <-. reflexivity.
  - destruct s as [|b s]; [discriminate H |].
    destruct (a =? b); [| discriminate H]. cbn [length]. rewrite (IH s H). reflexivity.
Qed.

Lemma take_sign_length (s : pystr) : (length (snd (take_sign s)) <= length s)%nat.
Proof.
  unfold take_sign. destruct (after [45] s) as [t|] eqn:H; cbn [snd]; [| lia].
  apply after_length in H. cbn [length] in H. lia.
Qed.

Lemma take_integer_length (s ip r : pystr) :
  take_integer s = Some (ip, r) -> (length r < length s)%nat.
Proof.
  unfold take_integer. destruct s as [|c t]; [discriminate |].
  destruct ((49 <=? c) && (c <=? 57)).
  - pose proof (take_digits_length t) as Hd. destruct (take_digits t) as [ds r'].
    intros H. injection H as _ <-. cbn [snd length] in *. lia.
  - destruct (c =? 48); [| discriminate]. intros H. injection H as _ <-. cbn. lia.
Qed.

Lemma take_fraction_length (s : pystr) : (length (snd (take_fraction s)) <= length s)%nat.
Proof.
  unfold take_fraction. destruct s as [|p [|d r]]; try (cbn; lia).
  destruct ((p =? 46) && is_digit d); [| cbn; lia].
  pose proof (take_digits_length r) as Hd. destruct (take_digits r) as [ds r'].
  cbn [snd length] in *. lia.
Qed.

Lemma take_exponent_length (s : pystr) : (length (snd (take_exponent s)) <= length s)%nat.
Proof.
  unfold take_exponent. destruct s as [|e r]; [cbn; lia |].
  destruct ((e =? 101) || (e =? 69)); [| cbn; lia].
  destruct r as [|x y].
  - cbn. lia.
  - destruct ((x =? 43) || (x =? 45)).
    + pose proof (take_digits_length y) as Hd. destruct (take_digits y) as [ds r''].
      destruct ds; cbn [snd length] in *; lia.
    + pose proof (take_digits_length (x :: y)) as Hd.
      destruct (take_digits (x :: y)) as [ds r''].
      destruct ds; cbn [snd length] in *; lia.
Qed.

Lemma match_number_length (s : pystr) (v : json) (rest : pystr) :
  match_number s = Some (v, rest) -> (length rest < length s)%nat.
Proof.
  unfold match_number. pose proof (take_sign_length s) as Hsign.
  destruct (take_sign s) as [sign s1]. cbn [snd] in Hsign.
  destruct (take_integer s1) as [[ip r]|] eqn:Hint; [| discriminate].
  apply take_integer_length in Hint.
  pose proof (take_fraction_length r) as Hfrac. destruct (take_fraction r) as [frac r1].
  pose proof (take_exponent_length r1) as Hexp. destruct (take_exponent r1) as [expo r2].
  cbn [snd] in *. intros H. destruct frac, expo; injection H as _ <-; lia.
Qed.

Lemma scan_atom_length (s : pystr) (v : json) (rest : pystr) :
  scan_atom s = Parsed v rest -> (length rest < length s)%nat.
Proof.
  unfold scan_atom.
  repeat match goal with
         | |- context [after ?p s] =>
             let H := fresh "H" in
             destruct (after p s) eqn:H;
             [apply after_length in H; cbn [length lit] in H;
              intros E; injection E as _ <-; lia |]
         end.
  destruct (match_number s) as [[v' r]|] eqn:Hn; [| discriminate].
  intros E. injection E as _ <-. eapply match_number_length, Hn.
Qed.

(** With 2n+1 units of fuel for n characters the scanner never runs out, and
    what it leaves is shorter than what it was given. *)
Lemma scan_fuel (fuel : nat) :
  (forall s, (2 * length s < fuel)%nat ->
             scan_once fuel s <> Exhausted
             /\ forall v r, scan_once fuel s = Parsed v r -> (length r < length s)%nat)
  /\ (forall acc s, (2 * length s < fuel)%nat ->
                    parse_members fuel acc s <> Exhausted
                    /\ forall v r, parse_members fuel acc s = Parsed v r ->
                                   (length r < length s)%nat)
  /\ (forall acc s, (2 * length s + 1 < fuel)%nat ->
                    parse_items fuel acc s <> Exhausted
                    /\ forall v r, parse_items fuel acc s = Parsed v r ->
                                   (length r < length s)%nat).
Proof.
  induction fuel as [|fuel (IHscan & IHmembers & IHitems)].
  - repeat split; intros; lia.
  - split; [| split].
    + intros s Hfuel. cbn [scan_once]. destruct s as [|c t].
      { split; [discriminate | discriminate]. }
      cbn [length] in Hfuel. pose proof (skip_ws_length t) as Hws.
      destruct (c =? 34).
      { destruct (scanstring [] t) as [[str rest]|] eqn:Hstr.
        - apply (scanstring_length (length t)) in Hstr; [| lia].
          split; [discriminate |]. intros v r E. injection E as _ <-. cbn. lia.
        - split; discriminate. }
      destruct (c =? 123).
      { destruct (after [125] (skip_ws t)) as [rest|] eqn:Hclose.
        - apply after_length in Hclose. cbn [length] in Hclose.
          split; [discriminate |]. intros v r E. injection E as _ <-. cbn [length]. lia.
        - destruct (IHmembers [] (skip_ws t)) as [Hne Hlen]; [lia |].
          split; [exact Hne |]. intros v r E. apply Hlen in E. cbn [length]. lia. }
      destruct (c =? 91).
      { destruct (after [93] (skip_ws t)) as [rest|] eqn:Hclose.
        - apply after_length in Hclose. cbn [length] in Hclose.
          split; [discriminate |]. intros v r E. injection E as _ <-. cbn [length]. lia.
        - destruct (IHitems [] (skip_ws t)) as [Hne Hlen]; [lia |].
          split; [exact Hne |]. intros v r E. apply Hlen in E. cbn [length]. lia. }
      split.
      * unfold scan_atom.
        repeat match goal with
               | |- context [match ?x with _ => _ end] => destruct x
               end; discriminate.
      * intros v r E. apply scan_atom_length in E. exact E.
    + intros acc s Hfuel. cbn [parse_members].
      destruct (after [34] s) as [t|] eqn:Hq; [| split; discriminate].
      apply after_length in Hq. cbn [length] in Hq.
      destruct (scanstring [] t) as [[key r1]|] eqn:Hstr; [| split; discriminate].
      apply (scanstring_length (length t)) in Hstr; [| lia].
      pose proof (skip_ws_length r1) as Hws1.
      destruct (after [58] (skip_ws r1)) as [r2|] eqn:Hcolon; [| split; discriminate].
      apply after_length in Hcolon. cbn [length] in Hcolon.
      pose proof (skip_ws_length r2) as Hws2.
      destruct (IHscan (skip_ws r2)) as [Hne Hlen]; [lia |].
      destruct (scan_once fuel (skip_ws r2)) as [value r3 | |] eqn:Hval;
        [| split; discriminate | exfalso; apply Hne; reflexivity].
      specialize (Hlen value r3 eq_refl). pose proof (skip_ws_length r3) as Hws3.
      destruct (after [125] (skip_ws r3)) as [r4|] eqn:Hclose.
      { apply after_length in Hclose. cbn [length] in Hclose.
        split; [discriminate |]. intros v r E. injection E as _ <-. lia. }
      destruct (after [44] (skip_ws r3)) as [r4|] eqn:Hcomma; [| split; discriminate].
      apply after_length in Hcomma. cbn [length] in Hcomma.
      pose proof (skip_ws_length r4) as Hws4.
      destruct (IHmembers (dict_set key value acc) (skip_ws r4)) as [Hne' Hlen']; [lia |].
      split; [exact Hne' |]. intros v r E. apply Hlen' in E. lia.
    + intros acc s Hfuel. cbn [parse_items].
      destruct (IHscan s) as [Hne Hlen]; [lia |].
      destruct (scan_once fuel s) as [value r1 | |] eqn:Hval;
        [| split; discriminate | exfalso; apply Hne; reflexivity].
      specialize (Hlen value r1 eq_refl). pose proof (skip_ws_length r1) as Hws1.
      destruct (after [93] (skip_ws r1)) as [r2|] eqn:Hclose.
      { apply after_length in Hclose. cbn [length] in Hclose.
        split; [discriminate |]. intros v r E. injection E as _ <-. lia. }
      destruct (after [44] (skip_ws r1)) as [r2|] eqn:Hcomma; [| split; discriminate].
      apply after_length in Hcomma. cbn [length] in Hcomma.
      pose proof (skip_ws_length r2) as Hws2.
      destruct (IHitems (acc ++ [value]) (skip_ws r2)) as [Hne' Hlen']; [lia |].
      split; [exact Hne' |]. intros v r E. apply Hlen' in E. lia.
Qed.

(** The reference decoder never gives up for lack of fuel. *)
Lemma loads_fuel_suffices (s : pystr) : loads s <> Raised RecursionError.
Proof.
  unfold loads. destruct (after [65279] s); [discriminate |].
  pose proof (skip_ws_length s) as Hws.
  destruct (proj1 (scan_fuel (S (2 * length s))) (skip_ws s)) as [Hne _]; [lia |].
  destruct (scan_once (S (2 * length s)) (skip_ws s)) as [v rest | |];
    [destruct (skip_ws rest); discriminate | discriminate | exfalso; apply Hne; reflexivity].
Qed.
End Fuel.

(* ===================================================================== *)
(** * Worked examples on the reference runtime *)
(* ===================================================================== *)

Section Examples.

Import Ref.

(** The end-to-end properties of the specification. *)
Example pong_is_extracted :
  exists w,
    send_message 3 (lit "ping")
      (finished_child 0 (jlit "noise{'content':'pong','metadata':{}}moretext") []) boot
    = Some (Done tt, w)
    /\ map msg_content (messages (self w)) = [JStr (lit "ping"); JStr (lit "pong")].
Proof. eexists. split; vm_compute; reflexivity. Qed.

Example failure_is_reported :
  exists w,
    send_message 3 (lit "ping") (finished_child 1 [] (lit "boom")) boot = Some (Done tt, w)
    /\ map msg_content (messages (self w)) = [JStr (lit "ping"); JStr (lit "Error: boom")].
Proof. eexists. split; vm_compute; reflexivity. Qed.

Example activity_set_then_cleared :
  let w := snd (for_each [reading_line ++ [10]; cleared_line] process_system_messages boot) in
  current_tool_activity (self w) = []
  /\ tool_start_time (self w) = None
  /\ contains (lit "reading file") (status (self w)) = false.
Proof. repeat split; vm_compute; reflexivity. Qed.


(** Why line atomicity needs lines the decoder reads the same trimmed or
    not: [strip] removes a form feed at the head of a chunk, the JSON decoder
    does not accept one at the head of a line. *)
Example form_feed_line_is_seen_only_alone :
  let chunks := [hello_line ++ [10]; [12] ++ hello_line] in
  length (messages (self (snd (process_system_messages (concat chunks) boot)))) = 1%nat
  /\ length (messages (self (snd (for_each chunks process_system_messages boot)))) = 2%nat.
Proof. split; vm_compute; reflexivity. Qed.

(** Only spans closed at depth 0 are tried: an object with both keys nested
    in another object is not a candidate. *)
Example nested_object_is_no_candidate :
  scan_candidates (jlit "{'reply':{'content':'b','metadata':{}}}") = []
  /\ handle_success (jlit "{'reply':{'content':'b','metadata':{}}}") boot
     = assistant_says (JStr (lit "No response")) boot.
Proof. split; vm_compute; reflexivity. Qed.

(** The content of the chosen object goes through the cleanup. *)
Example content_is_cleaned :
  handle_success (jlit "{'content':'**b**  c','metadata':{}}") boot
  = assistant_says (JStr (lit "b c")) boot.
Proof. vm_compute. reflexivity. Qed.

(** A primary output that is JSON but not an object has no [get]: the
    AttributeError is reported as an error message. *)
Example scalar_output_is_reported_as_error :
  handle_success (lit "42") boot = (Raised AttributeError, boot)
  /\ exists w, complete_send 0 0 (lit "42") [] boot = (Done tt, w)
               /\ map msg_content (messages (self w)) = [JStr (lit "Error: AttributeError")].
Proof. split; [vm_compute; reflexivity |]. eexists. split; vm_compute; reflexivity. Qed.

(** C1, witness: two objects and then a span that is no candidate: the
    content of the second object is the message; and the two objects alone. *)
Lemma last_candidate_is_answer_witness :
  (choose_json (strip three_spans) = object_b
   /\ handle_success three_spans boot = assistant_says (JStr (lit "b")) boot)
  /\ handle_success two_objects boot = assistant_says (JStr (lit "b")) boot.
Proof.
  split.
  - apply (proj1 (last_candidate_is_answer three_spans boot)
             (object_a ++ lit " ") object_b (lit " {}")
             [(lit "content", JStr (lit "b")); (lit "metadata", JObj [])] (lit "b"));
      try reflexivity.
    intros pre' s' post' Hpost _ Hs.
    destruct pre' as [|p1 [|p2 [|p3 [|p4 pre']]]];
      destruct s' as [|s1 [|s2 [|s3 [|s4 s']]]];
      try discriminate Hs; inversion Hpost; subst;
      try (vm_compute in Hs; discriminate Hs);
      vm_compute; reflexivity.
  - exact (proj2 (last_candidate_is_answer two_objects boot)
             [] object_a (lit " ") object_b []
             [(lit "content", JStr (lit "b")); (lit "metadata", JObj [])] (lit "b")
             eq_refl eq_refl eq_refl eq_refl eq_refl eq_refl eq_refl eq_refl eq_refl).
Defined.

(** C1 as the claim words it fails: behind a stray closing brace the depth
    counter closes no span at depth 0 around either object, the scan finds no
    candidate, and the fall-back returns the content of the first object. *)
Lemma stray_brace_returns_first_object :
  json_loads object_a = Done (JObj [(lit "content", JStr (lit "a")); (lit "metadata", JObj [])])
  /\ json_loads object_b = Done (JObj [(lit "content", JStr (lit "b")); (lit "metadata", JObj [])])
  /\ strip two_objects_after_brace = lit "}" ++ object_a ++ object_b
  /\ handle_success two_objects_after_brace boot = assistant_says (JStr (lit "a")) boot
  /\ handle_success two_objects_after_brace boot <> assistant_says (JStr (lit "b")) boot.
Proof.
  repeat split; try (vm_compute; reflexivity).
  vm_compute. discriminate.
Qed.


(** C4, witness. *)
Lemma cleanup_idempotent_without_backslash_witness :
  clean_response_formatting (clean_response_formatting (lit "  **Hi**   there_  "))
  = clean_response_formatting (lit "  **Hi**   there_  ").
Proof.
  apply cleanup_idempotent_without_backslash. vm_compute.
  intros H. repeat (destruct H as [H | H]; [discriminate H |]). exact H.
Defined.

(** C4 as the claim words it fails: backslash, backslash, quote is cleaned to
    backslash, quote, and that to a quote. *)
Lemma cleanup_not_idempotent :
  clean_response_formatting [92; 92; 34] = [92; 34]
  /\ clean_response_formatting (clean_response_formatting [92; 92; 34]) = [34]
  /\ clean_response_formatting (clean_response_formatting [92; 92; 34])
     <> clean_response_formatting [92; 92; 34].
Proof. repeat split; try (vm_compute; reflexivity). vm_compute. discriminate. Qed.

(** C5, witness. *)
Lemma error_filter_drops_marked_witness :
  should_ignore_message (JStr (lit "boom")) (JStr (lit "error")) = Done false
  /\ snd (handle_event marked_error_event boot) = boot
  /\ should_ignore_message (JStr (lit "anything")) (JStr (lit "tool_blurb")) = Done false.
Proof.
  exact (error_filter_drops_marked (lit "boom") (JStr (lit "anything"))
           (JStr (lit "tool_blurb")) marked_error_event boot eq_refl eq_refl eq_refl).
Defined.

(** C5 as the claim words it fails: the error event with a marker is the one
    that is dropped, the error event without one passes the filter. *)
Lemma marked_error_is_dropped_and_plain_error_passes :
  contains (lit "all_json_blocks_failed") (lit "all_json_blocks_failed") = true
  /\ should_ignore_message (JStr (lit "all_json_blocks_failed")) (JStr (lit "error"))
     = Done true
  /\ (contains (lit "all_json_blocks_failed") (lit "boom")
      || contains (lit "deepseek_json_debug") (lit "boom")) = false
  /\ should_ignore_message (JStr (lit "boom")) (JStr (lit "error")) = Done false.
Proof. repeat split; vm_compute; reflexivity. Qed.

(** C8, witness. *)
Lemma malformed_response_falls_back_witness :
  handle_success (lit " plain words ") boot
  = assistant_says (JStr (lit "plain words")) boot.
Proof.
  exact (proj1 (malformed_response_falls_back 0 0 (lit " plain words ") [] boot) eq_refl).
Defined.

(** C8 as the claim words it fails: on an empty trimmed output the message is
    'No response', not the (empty) trimmed text. *)
Lemma empty_output_is_not_returned_verbatim :
  strip (lit "  ") = []
  /\ json_loads (choose_json (strip (lit "  "))) = Raised JSONDecodeError
  /\ handle_success (lit "  ") boot = assistant_says (JStr (lit "No response")) boot
  /\ handle_success (lit "  ") boot <> assistant_says (JStr (strip (lit "  "))) boot.
Proof. repeat split; try (vm_compute; reflexivity). vm_compute. discriminate. Qed.

(** C9, witness. *)
Lemma tool_activity_sets_or_clears_witness :
  strip (lit "reading file") <> []
  /\ current_tool_activity (self (snd (handle_event reading_event boot)))
     = lit "reading file".
Proof.
  assert (H : strip (lit "reading file") <> []) by (vm_compute; discriminate).
  split; [exact H |].
  exact (proj1 (proj1 (proj2 (proj2
           (tool_activity_sets_or_clears reading_event (lit "reading file") boot
              eq_refl eq_refl))) H)).
Defined.

(** C9 as the claim words it fails: an activity of one space is not empty,
    and it clears the label that was set.  And a stream that sets and then
    clears an activity in one chunk leaves it set when the draw after the
    setting event raises, as it does once the log holds a message that is
    no text. *)
Lemma white_space_activity_clears :
  lit " " <> []
  /\ current_tool_activity (self (snd (handle_event reading_event boot)))
     = lit "reading file"
  /\ current_tool_activity
       (self (snd (handle_event space_event (snd (handle_event reading_event boot)))))
     = []
  /\ tool_start_time
       (self (snd (handle_event space_event (snd (handle_event reading_event boot)))))
     = None
  /\ fst (handle_event reading_event numbered_world) = Raised AttributeError
  /\ current_tool_activity
       (self (snd (process_system_messages (reading_line ++ [10] ++ cleared_line)
                                           numbered_world)))
     = lit "reading file".
Proof. repeat split; try (vm_compute; reflexivity). discriminate. Qed.

(** C10, witness. *)
Lemma blank_assistant_message_ignored_witness :
  snd (handle_event blank_assistant_event boot) = boot.
Proof.
  exact (proj1 (blank_assistant_message_ignored blank_assistant_event boot eq_refl)
           (lit "   ") eq_refl eq_refl).
Defined.

(** C7, witness: three lines with white space around them, one per
    sub-chunk. *)
Lemma classifier_line_atomic_witness :
  for_each padded_chunks process_system_messages boot
  = process_system_messages (concat padded_chunks) boot.
Proof.
  apply classifier_line_atomic.
  - repeat constructor.
  - assert (Hlines : split_on 10 (concat padded_chunks) = padded_lines)
      by (vm_compute; reflexivity).
    rewrite Hlines. unfold padded_lines.
    repeat (apply Forall_cons; [unfold trims_alike; repeat split; vm_compute; reflexivity |]).
    apply Forall_nil.
  - vm_compute. reflexivity.
Defined.

(** C7 as the claim words it fails.  The first line has a number for
    content, its handling raises, and the [except Exception] around the loop
    drops the rest of the chunk; fed as a chunk of its own the second line
    is processed.  A line with a form feed before its JSON is refused by
    the decoder inside a chunk, but read when it opens a sub-chunk, where
    the trimming of the chunk takes the form feed away.  And once a ready
    event has put a number in the log, the draw after the next message
    raises: of two messages behind it in one chunk only the first is
    appended, cut into lines both are. *)
Lemma ill_typed_line_breaks_line_atomicity :
  at_line_boundary (ill_typed_line ++ [10]) = true
  /\ messages (self (snd (process_system_messages
                            (concat [ill_typed_line ++ [10]; hello_line]) boot))) = []
  /\ length (messages (self (snd (for_each [ill_typed_line ++ [10]; hello_line]
                                           process_system_messages boot)))) = 1%nat
  /\ snd (for_each [ill_typed_line ++ [10]; hello_line] process_system_messages boot)
     <> snd (process_system_messages (concat [ill_typed_line ++ [10]; hello_line]) boot)
  /\ json_loads ([12] ++ hello_line) = Raised JSONDecodeError
  /\ fst (classify_lines (concat [hello_line ++ [10]; [12] ++ hello_line]) boot) = Done tt
  /\ length (messages (self (snd (process_system_messages
                                    (concat [hello_line ++ [10]; [12] ++ hello_line])
                                    boot)))) = 1%nat
  /\ length (messages (self (snd (for_each [hello_line ++ [10]; [12] ++ hello_line]
                                           process_system_messages boot)))) = 2%nat
  /\ fst (classify_lines
            (concat [ready_number_line ++ [10]; hello_line ++ [10]; hello_line]) boot)
     = Raised AttributeError
  /\ length (messages (self (snd (process_system_messages
                                    (concat [ready_number_line ++ [10];
                                             hello_line ++ [10]; hello_line])
                                    boot)))) = 2%nat
  /\ length (messages (self (snd (for_each [ready_number_line ++ [10];
                                            hello_line ++ [10]; hello_line]
                                           process_system_messages boot)))) = 3%nat.
Proof.
  repeat split; try (vm_compute; reflexivity).
  intros H. apply (f_equal (fun w => length (messages (self w)))) in H.
  vm_compute in H. discriminate H.
Qed.

End Examples.

(* ===================================================================== *)
(** * Properties of the text wrapping *)
(* ===================================================================== *)

Section Wrapping.

(** A word: not empty and free of white space. *)
Lemma words_head (c : N) (t : pystr) : py_isspace c = false -> words (c :: t) <> [].
Proof.
  intros Hc. cbn [words]. rewrite Hc.
  destruct t as [| c' t']; [discriminate |].
  destruct (py_isspace c'); [discriminate |].
  destruct (words (c' :: t')); discriminate.
Qed.

Lemma words_single (w : pystr) :
  w <> [] -> forallb (fun c => negb (py_isspace c)) w = true -> words w = [w].
Proof.
  induction w as [| c t IH]; [congruence |].
  intros _ Hall. cbn [forallb] in Hall. apply andb_true_iff in Hall as [Hc Ht].
  apply negb_true_iff in Hc. cbn [words]. rewrite Hc.
  destruct t as [| c' t']; [reflexivity |].
  assert (Hc' : py_isspace c' = false).
  { cbn [forallb] in Ht. apply andb_true_iff in Ht as [Hc' _].
    apply negb_true_iff in Hc'. exact Hc'. }
  rewrite Hc', IH by (congruence || exact Ht). reflexivity.
Qed.

Lemma words_cons2 (c c' : N) (t : pystr) :
  py_isspace c = false ->
  words (c :: c' :: t)
  = if py_isspace c' then [c] :: words (c' :: t)
    else match words (c' :: t) with
         | w :: ws => (c :: w) :: ws
         | [] => [[c]]
         end.
Proof. intros Hc. cbn [words]. rewrite Hc. reflexivity. Qed.

Lemma words_app_space (a : pystr) (c : N) (b : pystr) :
  py_isspace c = true -> words (a ++ c :: b) = words a ++ words b.
Proof.
  intros Hc. induction a as [| x a' IH].
  - cbn [app words]. rewrite Hc. reflexivity.
  - destruct (py_isspace x) eqn:Hx.
    { cbn [app words]. rewrite Hx. exact IH. }
    destruct a' as [| y a''].
    + cbn [app]. rewrite (words_cons2 x c b Hx), Hc. cbn [words]. rewrite Hx, Hc. reflexivity.
    + change ((x :: y :: a'') ++ c :: b) with (x :: y :: (a'' ++ c :: b)).
      change ((y :: a'') ++ c :: b) with (y :: (a'' ++ c :: b)) in IH.
      rewrite (words_cons2 x y _ Hx), (words_cons2 x y _ Hx), IH.
      destruct (py_isspace y) eqn:Hy; [reflexivity |].
      pose proof (words_head y a'' Hy) as Hne.
      destruct (words (y :: a'')) as [| w ws]; [congruence |]. reflexivity.
Qed.

Lemma words_are_words (s : pystr) :
  Forall (fun w => w <> [] /\ forallb (fun c => negb (py_isspace c)) w = true) (words s).
Proof.
  induction s as [| c t IH]; [constructor |].
  cbn [words]. destruct (py_isspace c) eqn:Hc; [exact IH |].
  destruct t as [| c' t'].
  - constructor; [| constructor]. split; [discriminate |]. cbn. rewrite Hc. reflexivity.
  - destruct (py_isspace c') eqn:Hc'.
    + constructor; [| exact IH]. split; [discriminate |]. cbn. rewrite Hc. reflexivity.
    + destruct (words (c' :: t')) as [| w ws].
      * constructor; [| constructor]. split; [discriminate |]. cbn. rewrite Hc. reflexivity.
      * inversion IH as [| ? ? [Hw1 Hw2] Hws]; subst.
        constructor; [| exact Hws]. split; [discriminate |].
        cbn [forallb]. rewrite Hc, Hw2. reflexivity.
Qed.

(** The words of the line under construction after one more word. *)
Lemma words_extend (current_line word : pystr) :
  word <> [] -> forallb (fun c => negb (py_isspace c)) word = true ->
  words (if nonempty current_line then current_line ++ lit " " ++ word else word)
  = words current_line ++ [word].
Proof.
  intros Hne Hall. destruct current_line as [| c t].
  - cbn [nonempty]. rewrite (words_single word Hne Hall). reflexivity.
  - cbn [nonempty]. change (lit " " ++ word) with (32 :: word).
    rewrite words_app_space by reflexivity.
    rewrite (words_single word Hne Hall). reflexivity.
Qed.

(** What the loop of [wrap_text] keeps: the words of the finished lines and
    of the line under construction are the words read so far. *)
Lemma wrap_fold_words (max_width : Z) (ws : list pystr) :
  Forall (fun w => w <> [] /\ forallb (fun c => negb (py_isspace c)) w = true) ws ->
  forall lines current_line,
    let (lines', current_line') := fold_left (wrap_step max_width) ws (lines, current_line) in
    concat (map words lines') ++ words current_line'
    = concat (map words lines) ++ words current_line ++ ws.
Proof.
  induction 1 as [| word ws [Hne Hall] _ IH]; intros lines current_line.
  - cbn [fold_left]. rewrite app_nil_r. reflexivity.
  - cbn [fold_left]. unfold wrap_step at 2.
    destruct (Z.of_nat (length (current_line ++ lit " " ++ word)) <=? max_width)%Z.
    + specialize (IH lines (if nonempty current_line
                            then current_line ++ lit " " ++ word else word)).
      destruct (fold_left _ ws _) as [lines' current_line'].
      rewrite IH, words_extend by assumption. rewrite <- !app_assoc. reflexivity.
    + specialize (IH (if nonempty current_line then lines ++ [current_line] else lines)
                     word).
      destruct (fold_left _ ws _) as [lines' current_line'].
      rewrite IH, (words_single word Hne Hall).
      destruct current_line as [| c t]; cbn [nonempty].
      * reflexivity.
      * rewrite map_app, concat_app. cbn [map concat]. rewrite app_nil_r, <- !app_assoc.
        reflexivity.
Qed.

(** X1.  Wrapping loses no word, adds none and keeps their order: the words
    of the lines [wrap_text] returns, read line after line, are the words of
    the text, whatever the width (also 0 or negative). *)
Theorem wrap_text_keeps_words (text : pystr) (max_width : Z) :
  concat (map words (wrap_text text max_width)) = words text.
Proof.
  unfold wrap_text. destruct (nonempty text) eqn:Htext.
  - pose proof (wrap_fold_words max_width (words text) (words_are_words text) [] []) as H.
    destruct (fold_left _ _ _) as [lines current_line].
    cbn [map concat words app] in H. rewrite <- H.
    destruct current_line as [| c t]; cbn [nonempty].
    + rewrite app_nil_r. destruct lines; reflexivity.
    + unfold pystr in *.
      assert (Hl : nonempty (lines ++ [c :: t]) = true) by (destruct lines; reflexivity).
      rewrite Hl, map_app, concat_app. cbn [map concat]. rewrite app_nil_r. reflexivity.
  - destruct text; [reflexivity | discriminate].
Qed.

(** What the loop keeps about widths: a line is within the width or is one
    word. *)
Lemma wrap_fold_width (max_width : Z) (all : list pystr) (ws : list pystr) :
  let fits := fun l : pystr => (Z.of_nat (length l) <= max_width)%Z \/ In l all in
  forall lines current_line,
    incl ws all -> Forall fits lines -> (current_line = [] \/ fits current_line) ->
    let (lines', current_line') := fold_left (wrap_step max_width) ws (lines, current_line) in
    Forall fits lines' /\ (current_line' = [] \/ fits current_line').
Proof.
  intros fits. induction ws as [| word ws IH]; intros lines current_line Hin Hl Hc.
  - cbn [fold_left]. split; assumption.
  - cbn [fold_left]. unfold wrap_step at 2.
    assert (Hword : In word all) by (apply Hin; left; reflexivity).
    assert (Hin' : incl ws all) by (intros x Hx; apply Hin; right; exact Hx).
    destruct (Z.of_nat (length (current_line ++ lit " " ++ word)) <=? max_width)%Z eqn:Hfit.
    + apply IH; [exact Hin' | exact Hl |]. right.
      destruct current_line as [| c t]; cbn [nonempty].
      * right. exact Hword.
      * left. apply Z.leb_le in Hfit. exact Hfit.
    + apply IH; [exact Hin' | | right; right; exact Hword].
      destruct current_line as [| c t]; cbn [nonempty]; [exact Hl |].
      apply Forall_app. split; [exact Hl |]. constructor; [| constructor].
      destruct Hc as [Hc | Hc]; [discriminate | exact Hc].
Qed.

(** X2.  A line [wrap_text] returns is at most [max_width] characters long,
    unless it is a single word of the text (a word longer than the width is
    never broken) or the empty line returned for a text without words. *)
Theorem wrap_text_width (text : pystr) (max_width : Z) (line : pystr) :
  In line (wrap_text text max_width) ->
  (Z.of_nat (length line) <= max_width)%Z \/ In line (words text) \/ line = [].
Proof.
  unfold wrap_text. destruct (nonempty text).
  - pose proof (wrap_fold_width max_width (words text) (words text) [] []
                  (incl_refl _) (Forall_nil _) (or_introl eq_refl)) as H.
    destruct (fold_left _ _ _) as [lines current_line]. destruct H as [Hl Hc].
    intros Hin.
    assert (Hall : Forall (fun l : pystr =>
                             (Z.of_nat (length l) <= max_width)%Z \/ In l (words text))
                          (if nonempty current_line then lines ++ [current_line] else lines)).
    { destruct current_line as [| c t]; cbn [nonempty]; [exact Hl |].
      apply Forall_app. split; [exact Hl |]. constructor; [| constructor].
      destruct Hc as [Hc | Hc]; [discriminate | exact Hc]. }
    destruct (nonempty (if nonempty current_line then lines ++ [current_line] else lines)).
    + rewrite Forall_forall in Hall. destruct (Hall line Hin) as [H | H]; auto.
    + destruct Hin as [<- | []]. right. right. reflexivity.
  - intros [<- | []]. right. right. reflexivity.
Qed.

(** What the loop keeps about empty lines: there is none. *)
Lemma wrap_fold_nonempty (max_width : Z) (ws : list pystr) :
  Forall (fun w : pystr => w <> []) ws ->
  forall lines current_line,
    Forall (fun l : pystr => l <> []) lines ->
    let (lines', current_line') := fold_left (wrap_step max_width) ws (lines, current_line) in
    Forall (fun l : pystr => l <> []) lines' /\ (ws <> [] -> current_line' <> []).
Proof.
  induction 1 as [| word ws Hne _ IH]; intros lines current_line Hl.
  - cbn [fold_left]. split; [exact Hl | congruence].
  - cbn [fold_left]. unfold wrap_step at 2.
    destruct (Z.of_nat (length (current_line ++ lit " " ++ word)) <=? max_width)%Z.
    + specialize (IH lines (if nonempty current_line
                            then current_line ++ lit " " ++ word else word) Hl).
      destruct (fold_left _ ws _) as [lines' current_line'] eqn:Hfold.
      destruct IH as [IH1 IH2]. split; [exact IH1 |]. intros _.
      destruct ws as [| w2 ws2]; [| apply IH2; discriminate].
      cbn [fold_left] in Hfold. injection Hfold as <- <-.
      destruct current_line; cbn [nonempty]; [exact Hne | discriminate].
    + assert (Hl' : Forall (fun l : pystr => l <> [])
                           (if nonempty current_line then lines ++ [current_line] else lines)).
      { destruct current_line as [| c t]; cbn [nonempty]; [exact Hl |].
        apply Forall_app. split; [exact Hl |]. constructor; [discriminate | constructor]. }
      specialize (IH _ word Hl').
      destruct (fold_left _ ws _) as [lines' current_line'] eqn:Hfold.
      destruct IH as [IH1 IH2]. split; [exact IH1 |]. intros _.
      destruct ws as [| w2 ws2]; [| apply IH2; discriminate].
      cbn [fold_left] in Hfold. injection Hfold as <- <-. exact Hne.
Qed.

(** X3.  [wrap_text] never returns an empty list, so a message always takes
    at least one row; the result is the single empty line exactly for a text
    without words (empty or white space only), and holds no empty line
    otherwise. *)
Theorem wrap_text_lines (text : pystr) (max_width : Z) :
  wrap_text text max_width <> []
  /\ (words text = [] -> wrap_text text max_width = [[]])
  /\ (words text <> [] -> Forall (fun l : pystr => l <> []) (wrap_text text max_width)).
Proof.
  unfold wrap_text. destruct (nonempty text) eqn:Htext.
  - assert (Hws : Forall (fun w : pystr => w <> []) (words text)).
    { eapply Forall_impl; [| apply words_are_words]. intros w [H _]. exact H. }
    pose proof (wrap_fold_nonempty max_width (words text) Hws [] [] (Forall_nil _)) as H.
    destruct (words text) as [| w ws] eqn:Hwords.
    + cbn [fold_left nonempty]. repeat split; congruence.
    + destruct (fold_left _ _ _) as [lines current_line]. destruct H as [Hl Hc].
      specialize (Hc ltac:(discriminate)).
      destruct current_line as [| c t]; [congruence |]. cbn [nonempty].
      unfold pystr in *.
      assert (Hn : nonempty (lines ++ [c :: t]) = true) by (destruct lines; reflexivity).
      rewrite Hn. repeat split.
      * destruct lines; discriminate.
      * discriminate.
      * intros _. apply Forall_app. split; [exact Hl |].
        constructor; [discriminate | constructor].
  - destruct text; [| discriminate]. repeat split; [discriminate |].
    intros H. exfalso. apply H. reflexivity.
Qed.

End Wrapping.

(* ===================================================================== *)
(** * Properties of the message window *)
(* ===================================================================== *)

Section Window.

Context {RT : PyRuntime} {TE : Terminal}.

(** What the walk over the messages keeps: the window grows at its front by
    the messages visited, newest last, while the rows in use stay within the
    height; and the walk stops before the first message that does not fit. *)
Lemma window_go_spec (width messages_height : Z) (newest_first : list message) :
  forall visible total_lines_used v,
    window_go width messages_height newest_first visible total_lines_used = Done v ->
    exists k new,
      v = new ++ visible
      /\ map fst new = rev (firstn k newest_first)
      /\ Forall (fun p : message * Z => (1 <= snd p)%Z) new
      /\ (total_lines_used + fold_right Z.add 0 (map snd new)
          <= Z.max total_lines_used messages_height)%Z
      /\ (forall msg content_lines,
            nth_error newest_first k = Some msg ->
            wrap_value (msg_content msg) (width - 20) = Done content_lines ->
            (messages_height
             < total_lines_used + fold_right Z.add 0 (map snd new)
               + Z.max 1 (Z.of_nat (length content_lines)))%Z).
Proof.
  induction newest_first as [| msg older IH]; intros visible total v Hrun.
  - cbn [window_go] in Hrun. injection Hrun as <-.
    exists 0%nat, []. cbn. repeat split; try constructor; try lia.
    intros ? ? H. discriminate.
  - cbn [window_go] in Hrun.
    destruct (wrap_value (msg_content msg) (width - 20)) as [content_lines | e] eqn:Hwrap;
      [| discriminate].
    set (message_lines := Z.max 1 (Z.of_nat (length content_lines))) in *.
    destruct (total + message_lines <=? messages_height)%Z eqn:Hfit.
    + apply Z.leb_le in Hfit.
      destruct (IH _ _ _ Hrun) as (k & new & Hv & Hmap & Hpos & Hsum & Hstop).
      exists (S k), (new ++ [(msg, message_lines)]).
      rewrite <- app_assoc. split; [exact Hv |].
      split; [rewrite map_app, Hmap; reflexivity |].
      split; [apply Forall_app; split; [exact Hpos |];
              constructor; [cbn [snd]; unfold message_lines; lia | constructor] |].
      assert (Hadd : fold_right Z.add 0%Z (map snd (new ++ [(msg, message_lines)]))
                     = (fold_right Z.add 0 (map snd new) + message_lines)%Z).
      { clear. induction new as [| p new IHn]; cbn [app map fold_right snd]; lia. }
      rewrite Hadd. split; [lia |].
      intros m ls Hnth Hw. cbn [nth_error] in Hnth. specialize (Hstop m ls Hnth Hw). lia.
    + apply Z.leb_gt in Hfit. injection Hrun as <-.
      exists 0%nat, []. cbn [app map firstn rev fold_right].
      repeat split; try constructor; try lia.
      intros m ls Hnth Hw. cbn [nth_error] in Hnth. injection Hnth as <-.
      rewrite Hwrap in Hw. injection Hw as <-. fold message_lines. lia.
Qed.

(** X4.  The messages [draw_screen] chooses for the window are the newest
    ones, in their order (the log is some older messages followed by exactly
    the visible ones); each is given at least one row; the rows given add up
    to at most [height - 8] (to none when that is negative); and the window
    is as long as it can be: the newest message left out, if there is one,
    would not fit any more. *)
Theorem window_shows_newest_that_fit (height width : Z) (t : TUI)
    (visible : list (message * Z)) :
  visible_messages height width t = Done visible ->
  exists older,
    messages t = older ++ map fst visible
    /\ Forall (fun p : message * Z => (1 <= snd p)%Z) visible
    /\ (fold_right Z.add 0 (map snd visible) <= Z.max 0 (height - 8))%Z
    /\ (forall older' msg content_lines,
          older = older' ++ [msg] ->
          wrap_value (msg_content msg) (width - 20) = Done content_lines ->
          (height - 8 < fold_right Z.add 0 (map snd visible)
                        + Z.max 1 (Z.of_nat (length content_lines)))%Z).
Proof.
  unfold visible_messages. intros Hrun.
  destruct (window_go_spec _ _ _ _ _ _ Hrun) as (k & new & Hv & Hmap & Hpos & Hsum & Hstop).
  rewrite app_nil_r in Hv. subst new.
  exists (rev (skipn k (rev (messages t)))).
  split; [| split; [exact Hpos | split; [exact Hsum |]]].
  - rewrite Hmap, <- rev_app_distr, firstn_skipn, rev_involutive. reflexivity.
  - intros older' msg ls Holder Hw. apply (Hstop msg ls); [| exact Hw].
    apply (f_equal (@rev message)) in Holder.
    rewrite rev_involutive, rev_app_distr in Holder. cbn [rev app] in Holder.
    rewrite <- (firstn_skipn k (rev (messages t))).
    assert (Hlen : length (firstn k (rev (messages t))) = k).
    { apply firstn_length_le.
      destruct (Nat.le_gt_cases k (length (rev (messages t)))) as [H | H]; [exact H |].
      rewrite skipn_all2 in Holder by lia. discriminate. }
    rewrite nth_error_app2 by lia. rewrite Hlen, Nat.sub_diag, Holder. reflexivity.
Qed.

End Window.

(* ===================================================================== *)
(** * Properties of the keyboard shortcuts *)
(* ===================================================================== *)

Section Shortcuts.

Context {RT : PyRuntime} {TE : Terminal}.

(** A setter followed by [update_status]. *)
Lemma set_then_status (f : TUI -> TUI) (w : World) :
  exists s n,
    (modify f ;; update_status ;; ret Handled) w
    = (Done Handled, {| self := set_status s (f (self w)); reads := n |}).
Proof.
  unfold bind at 1. unfold modify at 1.
  destruct (update_status_frame {| self := f (self w); reads := reads w |})
    as (s & n & Hup & _).
  unfold bind. rewrite Hup. exists s, n. reflexivity.
Qed.

(** The world after the key [ch] when it is one of the seven shortcuts that
    change a setting. *)
Lemma press_provider (w : World) :
  exists s n,
    handle_shortcuts 20 w
    = (Done Handled,
       {| self := set_status s (set_provider (next_option providers (provider (self w)))
                                             (self w));
          reads := n |}).
Proof.
  change (handle_shortcuts 20 w)
    with ((modify (set_provider (next_option providers (provider (self w)))) ;;
           update_status ;; ret Handled) w).
  apply set_then_status.
Qed.

Lemma press_personality (w : World) :
  exists s n,
    handle_shortcuts 16 w
    = (Done Handled,
       {| self := set_status s (set_personality
                                  (next_option personalities (personality (self w)))
                                  (self w));
          reads := n |}).
Proof.
  change (handle_shortcuts 16 w)
    with ((modify (fun t => set_personality
                              (next_option personalities (personality t)) t) ;;
           update_status ;; ret Handled) w).
  apply (set_then_status (fun t => set_personality
                                     (next_option personalities (personality t)) t)).
Qed.

Lemma press_view (w : World) :
  exists s n,
    handle_shortcuts 22 w
    = (Done Handled,
       {| self := set_status s
                    (if str_eqb (view_mode (self w)) (lit "personality")
                     then set_view_mode (lit "claude_raw") (self w)
                     else set_view_mode (lit "personality") (self w));
          reads := n |}).
Proof.
  change (handle_shortcuts 22 w)
    with ((modify (fun t => if str_eqb (view_mode t) (lit "personality")
                            then set_view_mode (lit "claude_raw") t
                            else set_view_mode (lit "personality") t) ;;
           update_status ;; ret Handled) w).
  apply (set_then_status (fun t => if str_eqb (view_mode t) (lit "personality")
                                   then set_view_mode (lit "claude_raw") t
                                   else set_view_mode (lit "personality") t)).
Qed.


Lemma str_eqb_eq (a b : pystr) : str_eqb a b = true <-> a = b.
Proof. unfold str_eqb. destruct (list_eq_dec N.eq_dec a b); split; congruence. Qed.

Lemma str_eqb_neq (a b : pystr) : str_eqb a b = false <-> a <> b.
Proof. unfold str_eqb. destruct (list_eq_dec N.eq_dec a b); split; congruence. Qed.

(** [next_option] over three options: the cycle, and the second option for
    a value that is none of them. *)
Lemma next_option_three (a b c x : pystr) :
  a <> b -> a <> c -> b <> c ->
  next_option [a; b; c] x
  = if str_eqb a x then b else if str_eqb b x then c else if str_eqb c x then a else b.
Proof.
  intros Hab Hac Hbc. unfold next_option. cbn [index_of].
  destruct (str_eqb a x) eqn:Ha; [reflexivity |].
  destruct (str_eqb b x) eqn:Hb; [reflexivity |].
  destruct (str_eqb c x) eqn:Hc; reflexivity.
Qed.

Lemma next_provider (x : pystr) :
  next_option providers x
  = if str_eqb (lit "claude") x then lit "gemini"
    else if str_eqb (lit "gemini") x then lit "local"
    else if str_eqb (lit "local") x then lit "claude" else lit "gemini".
Proof. apply next_option_three; discriminate. Qed.

Lemma next_personality (x : pystr) :
  next_option personalities x
  = if str_eqb (lit "ani") x then lit "professional"
    else if str_eqb (lit "professional") x then lit "casual"
    else if str_eqb (lit "casual") x then lit "ani" else lit "professional".
Proof. apply next_option_three; discriminate. Qed.

Lemma press_provider_self (w : World) :
  exists s, self (press 20 w)
            = set_status s (set_provider (next_option providers (provider (self w)))
                                         (self w)).
Proof.
  unfold press. destruct (press_provider w) as (s & n & H). rewrite H. exists s. reflexivity.
Qed.

Lemma press_personality_self (w : World) :
  exists s, self (press 16 w)
            = set_status s (set_personality
                              (next_option personalities (personality (self w)))
                              (self w)).
Proof.
  unfold press. destruct (press_personality w) as (s & n & H). rewrite H. exists s.
  reflexivity.
Qed.

Lemma press_view_self (w : World) :
  exists s, self (press 22 w)
            = set_status s
                (if str_eqb (view_mode (self w)) (lit "personality")
                 then set_view_mode (lit "claude_raw") (self w)
                 else set_view_mode (lit "personality") (self w)).
Proof.
  unfold press. destruct (press_view w) as (s & n & H). rewrite H. exists s. reflexivity.
Qed.

(** X5.  Ctrl+T always leaves one of the three known providers selected: it
    steps claude, gemini, local and round again, so that three presses from
    a known provider change nothing but the status line; and from a provider
    that is none of the three it selects gemini, the entry after the first
    one, not the first. *)
Theorem provider_cycle (w : World) :
  In (provider (self (press 20 w))) providers
  /\ (~ In (provider (self w)) providers -> provider (self (press 20 w)) = lit "gemini")
  /\ (In (provider (self w)) providers ->
      provider (self (press 20 w)) <> provider (self w)
      /\ same_but_status (self (press 20 (press 20 (press 20 w)))) (self w)).
Proof.
  destruct (press_provider_self w) as [s1 H1].
  destruct (press_provider_self (press 20 w)) as [s2 H2].
  destruct (press_provider_self (press 20 (press 20 w))) as [s3 H3].
  split; [| split].
  - rewrite H1. cbn [provider set_status set_provider]. rewrite next_provider.
    destruct (str_eqb _ _); [cbn; tauto |].
    destruct (str_eqb _ _); [cbn; tauto |].
    destruct (str_eqb _ _); cbn; tauto.
  - intros Hout. rewrite H1. cbn [provider set_status set_provider]. rewrite next_provider.
    destruct (str_eqb (lit "claude") _) eqn:E1;
      [apply str_eqb_eq in E1; exfalso; apply Hout; rewrite <- E1; cbn; tauto |].
    destruct (str_eqb (lit "gemini") _) eqn:E2;
      [apply str_eqb_eq in E2; exfalso; apply Hout; rewrite <- E2; cbn; tauto |].
    destruct (str_eqb (lit "local") _) eqn:E3;
      [apply str_eqb_eq in E3; exfalso; apply Hout; rewrite <- E3; cbn; tauto |].
    reflexivity.
  - intros Hin. rewrite H3, H2, H1. unfold same_but_status.
    destruct (self w) as [ms st pr]. cbn [provider set_status set_provider] in *.
    destruct Hin as [<- | [<- | [<- | []]]]; split; (discriminate || reflexivity).
Qed.

(** X6.  Ctrl+P does the same over ani, professional, casual: the
    personality after it is always one of the three, three presses from one
    of them come back to it with nothing but the status line changed, and an
    unknown personality becomes professional. *)
Theorem personality_cycle (w : World) :
  In (personality (self (press 16 w))) personalities
  /\ (~ In (personality (self w)) personalities ->
      personality (self (press 16 w)) = lit "professional")
  /\ (In (personality (self w)) personalities ->
      personality (self (press 16 w)) <> personality (self w)
      /\ same_but_status (self (press 16 (press 16 (press 16 w)))) (self w)).
Proof.
  destruct (press_personality_self w) as [s1 H1].
  destruct (press_personality_self (press 16 w)) as [s2 H2].
  destruct (press_personality_self (press 16 (press 16 w))) as [s3 H3].
  split; [| split].
  - rewrite H1. cbn [personality set_status set_personality]. rewrite next_personality.
    destruct (str_eqb _ _); [cbn; tauto |].
    destruct (str_eqb _ _); [cbn; tauto |].
    destruct (str_eqb _ _); cbn; tauto.
  - intros Hout. rewrite H1. cbn [personality set_status set_personality].
    rewrite next_personality.
    destruct (str_eqb (lit "ani") _) eqn:E1;
      [apply str_eqb_eq in E1; exfalso; apply Hout; rewrite <- E1; cbn; tauto |].
    destruct (str_eqb (lit "professional") _) eqn:E2;
      [apply str_eqb_eq in E2; exfalso; apply Hout; rewrite <- E2; cbn; tauto |].
    destruct (str_eqb (lit "casual") _) eqn:E3;
      [apply str_eqb_eq in E3; exfalso; apply Hout; rewrite <- E3; cbn; tauto |].
    reflexivity.
  - intros Hin. rewrite H3, H2, H1. unfold same_but_status.
    destruct (self w) as [ms st pr pe]. cbn [personality set_status set_personality] in *.
    destruct Hin as [<- | [<- | [<- | []]]]; split; (discriminate || reflexivity).
Qed.

(** X7.  Ctrl+V switches between the chat view and the raw view: from
    'personality' it goes to 'claude_raw', from anything else (also a view
    name that is neither) to 'personality'; so the view after it is always
    one of the two, and two presses from one of the two change nothing but
    the status line. *)
Theorem view_toggle (w : World) :
  (view_mode (self (press 22 w))
   = if str_eqb (view_mode (self w)) (lit "personality")
     then lit "claude_raw" else lit "personality")
  /\ (In (view_mode (self w)) [lit "personality"; lit "claude_raw"] ->
      same_but_status (self (press 22 (press 22 w))) (self w)).
Proof.
  destruct (press_view_self w) as [s1 H1].
  destruct (press_view_self (press 22 w)) as [s2 H2].
  split.
  - rewrite H1. destruct (str_eqb _ _); reflexivity.
  - intros Hin. rewrite H2, H1. unfold same_but_status.
    destruct (self w) as [ms st pr pe sm th cm cc te vm].
    cbn [view_mode set_status set_view_mode] in *.
    destruct Hin as [<- | [<- | []]]; reflexivity.
Qed.


Lemma press_context (w : World) :
  exists s n,
    handle_shortcuts 12 w
    = (Done Handled,
       {| self := set_status s (set_conversation_context
                                  (negb (conversation_context (self w))) (self w));
          reads := n |}).
Proof.
  apply (set_then_status
           (fun t => set_conversation_context (negb (conversation_context t)) t)).
Qed.

Lemma press_streaming (w : World) :
  exists s n,
    handle_shortcuts 19 w
    = (Done Handled,
       {| self := set_status s (set_streaming (negb (streaming (self w))) (self w));
          reads := n |}).
Proof. apply (set_then_status (fun t => set_streaming (negb (streaming t)) t)). Qed.

Lemma press_copy_mode (w : World) :
  exists s n,
    handle_shortcuts 18 w
    = (Done Handled,
       {| self := set_status s (set_copy_mode (negb (copy_mode (self w))) (self w));
          reads := n |}).
Proof. apply (set_then_status (fun t => set_copy_mode (negb (copy_mode t)) t)). Qed.

Lemma press_tools (w : World) :
  handle_shortcuts 15 w
  = if str_eqb (provider (self w)) (lit "local")
    then (modify (fun t => set_tools_enabled (negb (tools_enabled t)) t) ;;
          update_status ;; ret Handled) w
    else (Done Handled, w).
Proof.
  unfold handle_shortcuts. cbn [Z.eqb Pos.eqb]. unfold bind at 1. unfold get at 1.
  destruct (str_eqb (provider (self w)) (lit "local")).
  - unfold log_debug, bind, ret, modify.
    destruct (update_status _) as [[[] | e] w1]; reflexivity.
  - reflexivity.
Qed.

(** X8.  Ctrl+L, Ctrl+S and Ctrl+R each flip one flag (conversation
    context, streaming, copy mode), and pressing the same key twice changes
    nothing but the status line. *)
Theorem toggles_flip_and_restore (w : World) :
  (conversation_context (self (press 12 w)) = negb (conversation_context (self w))
   /\ same_but_status (self (press 12 (press 12 w))) (self w))
  /\ (streaming (self (press 19 w)) = negb (streaming (self w))
      /\ same_but_status (self (press 19 (press 19 w))) (self w))
  /\ (copy_mode (self (press 18 w)) = negb (copy_mode (self w))
      /\ same_but_status (self (press 18 (press 18 w))) (self w)).
Proof.
  unfold press, same_but_status.
  split; [| split].
  - destruct (press_context w) as (s1 & n1 & H1). rewrite H1. cbn [snd].
    destruct (press_context {| self := set_status s1
                                 (set_conversation_context
                                    (negb (conversation_context (self w))) (self w));
                               reads := n1 |}) as (s2 & n2 & H2).
    rewrite H2. cbn [snd self]. split; [reflexivity |].
    destruct (self w). cbn. rewrite negb_involutive. reflexivity.
  - destruct (press_streaming w) as (s1 & n1 & H1). rewrite H1. cbn [snd].
    destruct (press_streaming {| self := set_status s1
                                 (set_streaming (negb (streaming (self w))) (self w));
                                 reads := n1 |}) as (s2 & n2 & H2).
    rewrite H2. cbn [snd self]. split; [reflexivity |].
    destruct (self w). cbn. rewrite negb_involutive. reflexivity.
  - destruct (press_copy_mode w) as (s1 & n1 & H1). rewrite H1. cbn [snd].
    destruct (press_copy_mode {| self := set_status s1
                                 (set_copy_mode (negb (copy_mode (self w))) (self w));
                                 reads := n1 |}) as (s2 & n2 & H2).
    rewrite H2. cbn [snd self]. split; [reflexivity |].
    destruct (self w). cbn. rewrite negb_involutive. reflexivity.
Qed.

(** X9.  Ctrl+O is a shortcut only for the local provider.  With any other
    provider the key is swallowed: it is reported as handled and nothing
    changes, not even the status line.  With the local provider it flips
    the tools flag, and two presses change nothing but the status line. *)
Theorem tools_toggle_needs_local (w : World) :
  (provider (self w) <> lit "local" -> handle_shortcuts 15 w = (Done Handled, w))
  /\ (provider (self w) = lit "local" ->
      fst (handle_shortcuts 15 w) = Done Handled
      /\ tools_enabled (self (press 15 w)) = negb (tools_enabled (self w))
      /\ same_but_status (self (press 15 (press 15 w))) (self w)).
Proof.
  split.
  - intros Hp. rewrite press_tools. apply str_eqb_neq in Hp. rewrite Hp. reflexivity.
  - intros Hp.
    assert (Hstep : forall w0 : World,
               provider (self w0) = lit "local" ->
               exists s n,
                 handle_shortcuts 15 w0
                 = (Done Handled,
                    {| self := set_status s (set_tools_enabled
                                               (negb (tools_enabled (self w0))) (self w0));
                       reads := n |})).
    { intros w0 H0. rewrite press_tools. apply str_eqb_eq in H0. rewrite H0.
      apply (set_then_status (fun t => set_tools_enabled (negb (tools_enabled t)) t)). }
    unfold press, same_but_status.
    destruct (Hstep w Hp) as (s1 & n1 & H1). rewrite H1. cbn [fst snd].
    match goal with |- context [handle_shortcuts 15 ?w1] =>
      destruct (Hstep w1 Hp) as (s2 & n2 & H2) end.
    rewrite H2. cbn [snd self]. split; [reflexivity |]. split; [reflexivity |].
    destruct (self w). cbn. rewrite negb_involutive. reflexivity.
Qed.

(** A key outside the list is no shortcut and changes nothing. *)
Lemma handle_shortcuts_other (ch : Z) (w : World) :
  ~ In ch shortcut_keys -> handle_shortcuts ch w = (Done NotAShortcut, w).
Proof.
  intros Hout. unfold handle_shortcuts.
  repeat match goal with
         | |- context [(ch =? ?k)%Z] =>
             let E := fresh in
             destruct (Z.eqb_spec ch k) as [E | E];
             [exfalso; apply Hout; rewrite E; cbn; tauto |]
         end.
  reflexivity.
Qed.

(** X10.  What a key can do in [handle_shortcuts].  The call never raises.
    It answers "EXIT" exactly for Ctrl+C and "not a shortcut" exactly for
    the keys outside its list, and in both cases changes nothing.  A handled
    key leaves the conversation alone (messages, thinking flag, activity,
    timers, counters) and changes at most the status line and its own
    setting: the provider changes only by Ctrl+T, the context flag only by
    Ctrl+L, streaming only by Ctrl+S, the personality only by Ctrl+P, the
    view only by Ctrl+V, copy mode only by Ctrl+R, and the tools flag only
    by Ctrl+O under the local provider. *)
Theorem shortcuts_change_own_setting_only (ch : Z) (w : World) :
  exists r w',
    handle_shortcuts ch w = (Done r, w')
    /\ session_kept (self w) (self w')
    /\ (r = ExitRequested <-> ch = 3%Z)
    /\ (r = NotAShortcut <-> ~ In ch shortcut_keys)
    /\ (r <> Handled -> w' = w)
    /\ (provider (self w') <> provider (self w) -> ch = 20%Z)
    /\ (conversation_context (self w') <> conversation_context (self w) -> ch = 12%Z)
    /\ (streaming (self w') <> streaming (self w) -> ch = 19%Z)
    /\ (personality (self w') <> personality (self w) -> ch = 16%Z)
    /\ (view_mode (self w') <> view_mode (self w) -> ch = 22%Z)
    /\ (copy_mode (self w') <> copy_mode (self w) -> ch = 18%Z)
    /\ (tools_enabled (self w') <> tools_enabled (self w) ->
        ch = 15%Z /\ provider (self w) = lit "local").
Proof.
  destruct (Z.eq_dec ch 20) as [-> | N20].
  { destruct (press_provider w) as (s & n & H). eexists _, _. split; [exact H |].
    cbn [self]. repeat split; cbn; try tauto; try discriminate; intros; try congruence. }
  destruct (Z.eq_dec ch 12) as [-> | N12].
  { destruct (press_context w) as (s & n & H). eexists _, _. split; [exact H |].
    cbn [self]. repeat split; cbn; try tauto; try discriminate; intros; try congruence. }
  destruct (Z.eq_dec ch 19) as [-> | N19].
  { destruct (press_streaming w) as (s & n & H). eexists _, _. split; [exact H |].
    cbn [self]. repeat split; cbn; try tauto; try discriminate; intros; try congruence. }
  destruct (Z.eq_dec ch 16) as [-> | N16].
  { destruct (press_personality w) as (s & n & H). eexists _, _. split; [exact H |].
    cbn [self]. repeat split; cbn; try tauto; try discriminate; intros; try congruence. }
  destruct (Z.eq_dec ch 22) as [-> | N22].
  { destruct (press_view w) as (s & n & H). eexists _, _. split; [exact H |].
    cbn [self].
    destruct (str_eqb (view_mode (self w)) (lit "personality"));
      repeat split; cbn; try tauto; try discriminate; intros; try congruence. }
  destruct (Z.eq_dec ch 18) as [-> | N18].
  { destruct (press_copy_mode w) as (s & n & H). eexists _, _. split; [exact H |].
    cbn [self]. repeat split; cbn; try tauto; try discriminate; intros; try congruence. }
  destruct (Z.eq_dec ch 15) as [-> | N15].
  { rewrite press_tools. destruct (str_eqb (provider (self w)) (lit "local")) eqn:Hp.
    - destruct (set_then_status
                  (fun t => set_tools_enabled (negb (tools_enabled t)) t) w)
        as (s & n & H).
      eexists _, _. split; [exact H |]. apply str_eqb_eq in Hp.
      cbn [self]. repeat split; cbn; try tauto; try discriminate; intros; try congruence.
    - eexists _, _. split; [reflexivity |].
      repeat split; cbn; try tauto; try discriminate; intros; try congruence. }
  destruct (Z.eq_dec ch 3) as [-> | N3].
  { eexists _, _. split; [reflexivity |].
    repeat split; cbn; try tauto; try discriminate; intros; try congruence. }
  eexists _, _. split; [apply handle_shortcuts_other; cbn; intuition congruence |].
  repeat split; cbn; try tauto; try discriminate; intros; try congruence.
  unfold shortcut_keys in *. cbn in *. intuition congruence.
Qed.

End Shortcuts.

(* ===================================================================== *)
(** * What the diagnostic stream can change *)
(* ===================================================================== *)

Section Frame.

Context {RT : PyRuntime} {TE : Terminal}.

Lemma evolves_refl (w : World) : evolves w w.
Proof.
  unfold evolves, log_extends, settings_kept, bookkeeping_kept.
  split; [exists []; rewrite app_nil_r; reflexivity |]. repeat split. lia.
Qed.

Lemma evolves_trans (a b c : World) : evolves a b -> evolves b c -> evolves a c.
Proof.
  unfold evolves, log_extends, settings_kept, bookkeeping_kept.
  intros ([x Hx] & Hs1 & Hb1 & Hr1) ([y Hy] & Hs2 & Hb2 & Hr2).
  split; [exists (x ++ y); rewrite Hy, Hx, app_assoc; reflexivity |].
  split; [| split; [| lia]].
  - repeat match goal with H : _ /\ _ |- _ => destruct H end.
    repeat split; congruence.
  - repeat match goal with H : _ /\ _ |- _ => destruct H end.
    repeat split; congruence.
Qed.

Lemma steady_ret {A} (a : A) : steady (ret a).
Proof. intros w. apply evolves_refl. Qed.

Lemma steady_raise {A} (e : exn) : steady (@raise A e).
Proof. intros w. apply evolves_refl. Qed.

Lemma steady_eval {A} (o : outcome A) : steady (eval o).
Proof. intros w. apply evolves_refl. Qed.

Lemma steady_get : steady get.
Proof. intros w. apply evolves_refl. Qed.

Lemma steady_now : steady now.
Proof.
  intros w. unfold now. cbn [snd]. unfold evolves, log_extends, settings_kept,
    bookkeeping_kept. cbn [self reads].
  split; [exists []; rewrite app_nil_r; reflexivity |]. repeat split. lia.
Qed.

Lemma steady_bind {A B} (m : M A) (k : A -> M B) :
  steady m -> (forall a, steady (k a)) -> steady (bind m k).
Proof.
  intros Hm Hk w. unfold bind. specialize (Hm w).
  destruct (m w) as [[a | e] w1]; cbn [snd] in *.
  - eapply evolves_trans; [exact Hm | apply Hk].
  - exact Hm.
Qed.

Lemma steady_try_except {A} (m : M A) (catches : exn -> bool) (h : exn -> M A) :
  steady m -> (forall e, steady (h e)) -> steady (try_except m catches h).
Proof.
  intros Hm Hh w. unfold try_except. specialize (Hm w).
  destruct (m w) as [[a | e] w1]; cbn [snd] in *.
  - exact Hm.
  - destruct (catches e); [| exact Hm].
    eapply evolves_trans; [exact Hm | apply Hh].
Qed.

(** The setters the event handlers use on the status line, the activity
    label, its dots and its start time. *)
Lemma steady_modify (f : TUI -> TUI) :
  (forall t, messages (f t) = messages t
             /\ settings_kept t (f t) /\ bookkeeping_kept t (f t)) ->
  steady (modify f).
Proof.
  intros Hf w. unfold modify. cbn [snd]. destruct (Hf (self w)) as (Hm & Hs & Hb).
  unfold evolves. cbn [self reads].
  split; [exists []; rewrite Hm, app_nil_r; reflexivity |].
  split; [exact Hs |]. split; [exact Hb | lia].
Qed.

Lemma steady_set_status (s : pystr) : steady (modify (set_status s)).
Proof. apply steady_modify. intros t. repeat split. Qed.

Lemma steady_set_activity (s : pystr) : steady (modify (set_current_tool_activity s)).
Proof. apply steady_modify. intros t. repeat split. Qed.

Lemma steady_set_dots (z : Z) : steady (modify (set_tool_progress_dots z)).
Proof. apply steady_modify. intros t. repeat split. Qed.

Lemma steady_set_start (q : option Q) : steady (modify (set_tool_start_time q)).
Proof. apply steady_modify. intros t. repeat split. Qed.

Lemma steady_append (m : message) : steady (append_message m).
Proof.
  intros w. unfold append_message, modify. cbn [snd]. unfold evolves. cbn [self reads].
  split; [exists [m]; reflexivity |]. repeat split. lia.
Qed.

Lemma steady_log_debug : steady log_debug.
Proof. apply steady_ret. Qed.

Lemma steady_redraw : steady redraw.
Proof. intros w. rewrite redraw_state. apply evolves_refl. Qed.

Lemma steady_update_status : steady update_status.
Proof.
  intros w. destruct (update_status_frame w) as (s & n & H & Hn & _). rewrite H.
  cbn [snd]. unfold evolves. cbn [self reads].
  split; [exists []; rewrite app_nil_r; reflexivity |]. repeat split. exact Hn.
Qed.

Ltac steady_step :=
  lazymatch goal with
  | |- steady (bind _ _) => apply steady_bind; [| intros ?]
  | |- steady (ret _) => apply steady_ret
  | |- steady (eval _) => apply steady_eval
  | |- steady now => apply steady_now
  | |- steady get => apply steady_get
  | |- steady log_debug => apply steady_log_debug
  | |- steady redraw => apply steady_redraw
  | |- steady update_status => apply steady_update_status
  | |- steady (append_message _) => apply steady_append
  | |- steady (modify (set_status _)) => apply steady_set_status
  | |- steady (modify (set_current_tool_activity _)) => apply steady_set_activity
  | |- steady (modify (set_tool_progress_dots _)) => apply steady_set_dots
  | |- steady (modify (set_tool_start_time _)) => apply steady_set_start
  | |- steady (if ?b then _ else _) => destruct b
  end.

Lemma steady_start_timer : steady start_timer.
Proof. unfold start_timer. repeat steady_step. Qed.

Lemma steady_progress (a b : pystr) : steady (progress a b).
Proof. unfold progress. repeat steady_step. apply steady_start_timer. Qed.

Ltac steady_steps :=
  repeat lazymatch goal with
         | |- steady (progress _ _) => apply steady_progress
         | |- steady start_timer => apply steady_start_timer
         | |- _ => steady_step
         end.

Lemma steady_engine_status (message metadata : json) :
  steady (engine_status message metadata).
Proof. unfold engine_status. steady_steps. Qed.

Lemma steady_handle_event (msg : list (pystr * json)) : steady (handle_event msg).
Proof.
  unfold handle_event. cbv zeta.
  repeat lazymatch goal with
         | |- steady (engine_status _ _) => apply steady_engine_status
         | |- _ => progress steady_steps
         end.
Qed.

Lemma steady_process_line (line : pystr) : steady (process_line line).
Proof.
  unfold process_line. destruct (nonempty (strip line)); [| apply steady_ret].
  apply steady_try_except; [| intros e; apply steady_ret].
  apply steady_bind; [apply steady_eval |]. intros v.
  destruct v; try apply steady_ret. apply steady_handle_event.
Qed.

Lemma steady_for_each {A} (xs : list A) (body : A -> M unit) :
  (forall x, steady (body x)) -> steady (for_each xs body).
Proof.
  intros Hbody. induction xs as [| x rest IH]; cbn [for_each].
  - apply steady_ret.
  - apply steady_bind; [apply Hbody | intros _; exact IH].
Qed.

Lemma steady_process_system_messages (chunk : pystr) :
  steady (process_system_messages chunk).
Proof.
  unfold process_system_messages, classify_lines.
  apply steady_try_except; [| intros e; apply steady_log_debug].
  apply steady_for_each. apply steady_process_line.
Qed.

(** X11.  Whatever the backend writes to its diagnostic stream, handling a
    chunk of it never raises and can only do this to the object: add
    messages at the end of the log (none is removed or changed), and change
    the status line, the activity label, its dots and its start time.  The
    settings (provider, personality, streaming, copy mode, context, tools,
    view), the thinking flag, the response time, the message counter and
    the system indicators are what they were. *)
Theorem diagnostics_only_add_and_animate (chunk : pystr) (w : World) :
  fst (process_system_messages chunk w) = Done tt
  /\ evolves w (snd (process_system_messages chunk w)).
Proof.
  split; [apply process_system_messages_done | apply steady_process_system_messages].
Qed.

End Frame.

(* ===================================================================== *)
(** * Properties of a whole send *)
(* ===================================================================== *)

Section Send.

Context {RT : PyRuntime} {TE : Terminal}.

Lemma process_system_messages_run (chunk : pystr) (w : World) :
  exists w', process_system_messages chunk w = (Done tt, w') /\ evolves w w'.
Proof.
  pose proof (process_system_messages_done chunk w) as Hd.
  pose proof (steady_process_system_messages chunk w) as He.
  destruct (process_system_messages chunk w) as [o w']. cbn [fst snd] in *. subst o.
  exists w'. split; [reflexivity | exact He].
Qed.

(** The polling loop only lets the world evolve, however it ends. *)
Lemma pump_evolves (child : Child) (fuel : nat) :
  forall turn stdout_lines stderr_lines w o w',
    pump fuel turn child stdout_lines stderr_lines w = Some (o, w') ->
    evolves w w'.
Proof.
  induction fuel as [| fuel IH]; intros turn outs errs w o w' Hrun; [discriminate |].
  cbn [pump] in Hrun. destruct (poll child turn) as [return_code |].
  - destruct (nonempty (remaining_stderr child)).
    + destruct (process_system_messages_run (remaining_stderr child) w) as (w1 & H1 & He).
      rewrite H1 in Hrun. injection Hrun as <- <-. exact He.
    + injection Hrun as <- <-. apply evolves_refl.
  - destruct (nonempty (stderr_at child turn)); [| exact (IH _ _ _ _ _ _ Hrun)].
    rewrite classified_then_redrawn in Hrun.
    destruct (process_system_messages_run (stderr_at child turn) w) as (w1 & H1 & He).
    rewrite H1 in Hrun. cbn [snd] in Hrun.
    destruct (fst (redraw w1)) as [[] | e].
    + eapply evolves_trans; [exact He | exact (IH _ _ _ _ _ _ Hrun)].
    + destruct (exn_eqb e OSError).
      * eapply evolves_trans; [exact He | exact (IH _ _ _ _ _ _ Hrun)].
      * injection Hrun as <- <-. exact He.
Qed.

(** In copy mode nothing is drawn inside the loop, so nothing ends the loop
    while the child runs. *)
Lemma pump_in_copy_mode (child : Child) :
  (forall turn, poll child turn = None) ->
  forall fuel turn stdout_lines stderr_lines w,
    copy_mode (self w) = true ->
    pump fuel turn child stdout_lines stderr_lines w = None.
Proof.
  intros Hrunning. induction fuel as [| fuel IH]; intros turn outs errs w Hcopy;
    [reflexivity |].
  cbn [pump]. rewrite Hrunning.
  destruct (nonempty (stderr_at child turn)); [| apply IH; exact Hcopy].
  rewrite classified_then_redrawn.
  destruct (process_system_messages_run (stderr_at child turn) w) as (w1 & H1 & He).
  rewrite H1. cbn [snd].
  assert (Hcopy1 : copy_mode (self w1) = true).
  { destruct He as (_ & (_ & _ & _ & Hc & _) & _). congruence. }
  rewrite redraw_outcome, Hcopy1. apply IH. exact Hcopy1.
Qed.

(** C3 (what the code does).  The polling loop has no deadline.  Against a
    child that starts and then never exits, [send_message] does not come
    back by itself.  When the draw before the [try] succeeds, it is still
    inside the loop after any number of turns if the child prints no
    diagnostics, and also, whatever the child prints, in copy mode, where
    the loop draws nothing; so it appends no 'Error: Request timed out'
    message and nothing in it ends the child.  The one thing that takes
    [send_message] out of the loop is a draw that raises: either the draw
    before the [try], whose exception leaves [send_message], or a draw in
    the loop, whose exception the handler reports as 'Error: ' and its
    text; no deadline ever does. *)
Theorem send_waits_without_bound (fuel : nat) (message : pystr) (child : Child)
    (w : World) :
  str_eqb (view_mode (self w)) (lit "claude_raw") = false ->
  spawn_error child = None ->
  (forall turn, poll child turn = None) ->
  (fst (send_prologue message {| self := self w; reads := S (reads w) |}) = Done tt ->
   (forall turn, stderr_at child turn = []) ->
   send_message fuel message child w = None)
  /\ (fst (send_prologue message {| self := self w; reads := S (reads w) |}) = Done tt ->
      copy_mode (self w) = true ->
      send_message fuel message child w = None)
  /\ (forall o w',
        send_message fuel message child w = Some (o, w') ->
        exists e t,
          draw t = Raised e
          /\ (o = Raised e
              \/ o = Done tt
                 /\ exists earlier stamp,
                      messages (self w')
                      = earlier
                        ++ [{| msg_role := Assistant;
                               msg_content := JStr (lit "Error: " ++ exn_text e);
                               msg_timestamp := stamp; msg_immediate := false;
                               msg_source := None; msg_tool := None |}])).
Proof.
  intros Hview Hspawn Hrunning.
  destruct (send_message_chat fuel message child w Hview) as (s & n & _ & Hpro & Hsend).
  cbv zeta in Hpro, Hsend. rewrite Hsend, Hpro, Hspawn. clear Hsend Hpro.
  set (w1 := {| self := set_status s (set_thinking true (self w)); reads := n |}).
  destruct (draw (self w1)) as [[] | e] eqn:Hdraw.
  - split; [| split].
    + intros _ Hsilent. rewrite (pump_never_exits child Hrunning Hsilent). reflexivity.
    + intros _ Hcopy. rewrite (pump_in_copy_mode child Hrunning); [reflexivity |].
      exact Hcopy.
    + intros o w'.
      match goal with |- context [pump fuel 0 child [] [] ?w0] =>
        destruct (pump fuel 0 child [] [] w0) as [[po w2] |] eqn:Hpump end;
        [| discriminate].
      destruct (pump_left_by_draw child Hrunning _ _ _ _ _ _ _ Hpump) as (e & -> & He).
      destruct (reported_then_finished e (clock (reads w)) w2) as (w4 & Hfin & Hmsgs).
      rewrite Hfin. intros Hrun. injection Hrun as <- <-.
      exists e, (self w2). split; [exact He |]. right.
      split; [reflexivity |]. rewrite Hmsgs. eexists _, _. reflexivity.
  - split; [| split].
    + intros Hok. discriminate Hok.
    + intros Hok. discriminate Hok.
    + intros o w' Hrun. injection Hrun as <- <-.
      exists e, (self w1). split; [exact Hdraw | left; reflexivity].
Qed.


(** Finishing a send, in closed form. *)
Lemma finish_send_run (start_time : Q) (w : World) :
  let t := set_total_messages_processed
             (total_messages_processed (self w) + 1)%Z
             (set_last_response_time (clock (reads w) - start_time)%Q
                (set_tool_start_time None
                   (set_current_tool_activity [] (set_thinking false (self w))))) in
  finish_send start_time w
  = (Done tt,
     {| self := set_status (status_head t ++ copy_mode_mark t) t;
        reads := S (reads w) |}).
Proof.
  intros t. unfold finish_send.
  assert (H : forall k : unit -> M unit,
             (modify (set_thinking false) ;;
              modify (set_current_tool_activity []) ;;
              modify (set_tool_start_time None) ;;
              finished <- now ;;
              modify (set_last_response_time (finished - start_time)%Q) ;;
              modify (fun t => set_total_messages_processed
                                 (total_messages_processed t + 1)%Z t) ;;
              k tt) w = k tt {| self := t; reads := S (reads w) |}) by reflexivity.
  rewrite (H (fun _ => update_status)).
  rewrite (update_status_idle {| self := t; reads := S (reads w) |} eq_refl).
  reflexivity.
Qed.

(** The course of a send in the chat view.  The draw before the [try] may
    raise, and then the exception leaves [send_message] with the thinking
    flag on and no message appended.  Else the user's message is appended,
    the loop runs and the diagnostics do what they do, one assistant
    message is appended (the reply or a report), and the epilogue runs. *)
Lemma send_message_course (fuel : nat) (message : pystr) (child : Child)
    (w : World) (r : outcome unit * World) :
  str_eqb (view_mode (self w)) (lit "claude_raw") = false ->
  send_message fuel message child w = Some r ->
  exists s n,
    let w1 := {| self := set_status s (set_thinking true (self w)); reads := n |} in
    let w2 :=
      {| self := set_messages
                   (messages (self w)
                    ++ [{| msg_role := User; msg_content := JStr message;
                           msg_timestamp := clock n; msg_immediate := false;
                           msg_source := None; msg_tool := None |}])
                   (self w1);
         reads := S n |} in
    fst r = fst (send_prologue message {| self := self w; reads := S (reads w) |})
    /\ ((exists e, draw (self w1) = Raised e /\ r = (Raised e, w1))
        \/ (draw (self w1) = Done tt
            /\ exists w3 c,
                 evolves w2 w3
                 /\ (forall e, spawn_error child = Some e ->
                               w3 = w2 /\ c = JStr (lit "Error: " ++ exn_text e))
                 /\ r = finish_send (clock (reads w)) (snd (assistant_says c w3)))).
Proof.
  intros Hview Hrun.
  destruct (send_message_chat fuel message child w Hview) as (s & n & _ & Hpro & Hsend).
  exists s, n. cbv zeta in *. rewrite Hpro. rewrite Hsend in Hrun. clear Hsend Hpro.
  set (w1 := {| self := set_status s (set_thinking true (self w)); reads := n |}) in *.
  set (w2 := {| self := set_messages
                          (messages (self w)
                           ++ [{| msg_role := User; msg_content := JStr message;
                                  msg_timestamp := clock n; msg_immediate := false;
                                  msg_source := None; msg_tool := None |}])
                          (self w1);
                reads := S n |}) in *.
  destruct (draw (self w1)) as [[] | e] eqn:Hdraw.
  - assert (Hr : fst r = Done tt /\
                 exists w3 c,
                   evolves w2 w3
                   /\ (forall e, spawn_error child = Some e ->
                                 w3 = w2 /\ c = JStr (lit "Error: " ++ exn_text e))
                   /\ r = finish_send (clock (reads w)) (snd (assistant_says c w3))).
    { destruct (spawn_error child) as [e |] eqn:Hspawn.
      - injection Hrun as <-.
        split; [destruct (reported_then_finished e (clock (reads w)) w2)
                  as (w4 & -> & _); reflexivity |].
        eexists _, (JStr (lit "Error: " ++ exn_text e)).
        split; [apply evolves_refl |].
        split; [intros e' He'; injection He' as <-; split; reflexivity |].
        reflexivity.
      - match type of Hrun with context [pump fuel 0 child [] [] ?w0] =>
          destruct (pump fuel 0 child [] [] w0) as [[o w3] |] eqn:Hpump end;
          [| discriminate].
        pose proof (pump_evolves child fuel _ _ _ _ _ _ Hpump) as Hev.
        destruct o as [[[outs errs] return_code] | e].
        + injection Hrun as <-.
          destruct (try_result_says return_code (concat outs) (concat errs) w3)
            as [c Hc].
          assert (Hcs : complete_send (clock (reads w)) return_code (concat outs)
                                      (concat errs) w3
                        = finish_send (clock (reads w)) (snd (assistant_says c w3))).
          { unfold complete_send. unfold bind at 1. rewrite Hc. reflexivity. }
          split; [rewrite Hcs, finish_send_run; reflexivity |].
          exists w3, c. split; [exact Hev |].
          split; [intros e He; discriminate | exact Hcs].
        + injection Hrun as <-.
          split; [destruct (reported_then_finished e (clock (reads w)) w3)
                    as (w4 & -> & _); reflexivity |].
          exists w3, (JStr (lit "Error: " ++ exn_text e)). split; [exact Hev |].
          split; [intros e' He'; discriminate | reflexivity]. }
    destruct Hr as [Hfst Hr]. split; [exact Hfst |]. right. split; [reflexivity | exact Hr].
  - injection Hrun as <-. split; [reflexivity |]. left. exists e. split; reflexivity.
Qed.

(** X13.  How a send in the chat view ends.  It raises exactly when the
    draw before its [try] raises (the one statement of [send_message] that
    can raise and stands outside the [try]); the settings are untouched
    either way.  When it returns, the object is idle: the thinking flag is
    off, no activity is shown and its timer is cleared, the message counter
    has gone up by exactly one, and the status line is the idle one built
    from the settings (no 'thinking...' and no activity part), whatever the
    backend printed and whatever went wrong inside the [try].  When it
    raises, the thinking flag is left on, no message has been appended and
    the counter is what it was. *)
Theorem send_leaves_idle (fuel : nat) (message : pystr) (child : Child)
    (w w' : World) (o : outcome unit) :
  str_eqb (view_mode (self w)) (lit "claude_raw") = false ->
  send_message fuel message child w = Some (o, w') ->
  o = fst (send_prologue message {| self := self w; reads := S (reads w) |})
  /\ settings_kept (self w) (self w')
  /\ (o = Done tt ->
      thinking (self w') = false
      /\ current_tool_activity (self w') = []
      /\ tool_start_time (self w') = None
      /\ total_messages_processed (self w') = (total_messages_processed (self w) + 1)%Z
      /\ status (self w') = status_head (self w') ++ copy_mode_mark (self w'))
  /\ (forall e, o = Raised e ->
      thinking (self w') = true
      /\ messages (self w') = messages (self w)
      /\ total_messages_processed (self w') = total_messages_processed (self w)).
Proof.
  intros Hview Hrun.
  destruct (send_message_course fuel message child w _ Hview Hrun)
    as (s & n & Hfst & Hcases).
  cbv zeta in Hcases. cbn [fst] in Hfst. split; [exact Hfst |].
  destruct Hcases as [(e & _ & Hr) | (_ & w3 & c & Hev & _ & Hr)].
  - injection Hr as -> ->. cbn [self].
    split; [repeat split |]. split; [discriminate |].
    intros e' _. repeat split.
  - rewrite finish_send_run in Hr. injection Hr as -> ->.
    destruct Hev as (_ & Hset & Hbook & _).
    unfold settings_kept, bookkeeping_kept in *. cbn in Hset, Hbook.
    repeat match goal with H : _ /\ _ |- _ => destruct H end.
    split; [cbn; repeat split; assumption |].
    split; [| intros e He; discriminate He].
    intros _. cbn -[status_head copy_mode_mark].
    repeat split; try reflexivity.
    match goal with H : total_messages_processed (self w) = _ |- _ => rewrite H end.
    reflexivity.
Qed.

(** X14.  The log after a send in the chat view that has returned is the
    log before it, then the user's message with the text sent, then
    whatever the diagnostics added while the backend ran, then exactly one
    assistant message (the reply or the error report), which is the last
    one; no earlier message is removed or changed.  When the backend cannot
    be started, nothing stands between the user's message and the report,
    which says 'Error: ' and then the text of the exception. *)
Theorem send_log_shape (fuel : nat) (message : pystr) (child : Child) (w w' : World) :
  str_eqb (view_mode (self w)) (lit "claude_raw") = false ->
  send_message fuel message child w = Some (Done tt, w') ->
  exists asked added reply,
    messages (self w') = messages (self w) ++ [asked] ++ added ++ [reply]
    /\ msg_role asked = User /\ msg_content asked = JStr message
    /\ msg_role reply = Assistant
    /\ (forall e, spawn_error child = Some e ->
                  added = []
                  /\ msg_content reply = JStr (lit "Error: " ++ exn_text e)).
Proof.
  intros Hview Hrun.
  destruct (send_message_course fuel message child w _ Hview Hrun)
    as (s & n & _ & Hcases).
  cbv zeta in Hcases.
  destruct Hcases as [(e & _ & Hr) | (_ & w3 & c & Hev & Hspawn & Hr)];
    [discriminate Hr |].
  rewrite finish_send_run in Hr. injection Hr as ->.
  destruct Hev as ([added Hadded] & _). cbn [self messages set_messages] in Hadded.
  eexists _, added, _. cbn [self messages set_status set_total_messages_processed
    set_last_response_time set_tool_start_time set_current_tool_activity set_thinking
    assistant_says snd bind now append_message modify set_messages].
  split; [rewrite Hadded, <- !app_assoc; reflexivity |].
  split; [reflexivity |]. split; [reflexivity |]. split; [reflexivity |].
  intros e He. destruct (Hspawn e He) as [Hw3 Hc]. split.
  - rewrite Hw3 in Hadded. cbn [self messages set_messages] in Hadded.
    rewrite <- (app_nil_r (_ ++ [_])) in Hadded at 1.
    apply app_inv_head in Hadded. congruence.
  - cbn [msg_content]. exact Hc.
Qed.

(** X15.  A backend that exits with a return code other than 0: its primary
    output is ignored altogether, and the one assistant message appended
    says 'Error: ' followed by everything the diagnostic stream held, or by
    'Command failed' when that stream was empty; the send ends without an
    exception. *)
Theorem nonzero_exit_reports_stderr (start_time : Q) (return_code : Z)
    (full_stdout full_stderr : pystr) (w : World) :
  return_code <> 0%Z ->
  exists w',
    complete_send start_time return_code full_stdout full_stderr w = (Done tt, w')
    /\ messages (self w')
       = messages (self w)
         ++ [{| msg_role := Assistant;
                msg_content :=
                  JStr (lit "Error: "
                        ++ (if nonempty full_stderr then full_stderr
                            else lit "Command failed"));
                msg_timestamp := clock (reads w); msg_immediate := false;
                msg_source := None; msg_tool := None |}].
Proof.
  intros Hrc. unfold complete_send.
  assert (Htry : try_except (handle_result return_code full_stdout full_stderr)
                            (fun _ => true) report_exception w
                 = assistant_says
                     (JStr (lit "Error: "
                            ++ (if nonempty full_stderr then full_stderr
                                else lit "Command failed"))) w).
  { unfold try_except, handle_result.
    destruct (Z.eqb_spec return_code 0) as [E | _]; [contradiction | reflexivity]. }
  rewrite (bind_done _ _ w _ tt Htry).
  match goal with |- context [finish_send _ ?w1] =>
    destruct (finish_send_done start_time w1) as (w' & Hfin & Hmsgs) end.
  exists w'. split; [exact Hfin | rewrite Hmsgs; reflexivity].
Qed.

End Send.

(* ===================================================================== *)
(** * Properties of the main loop *)
(* ===================================================================== *)

Section Keys.

Context {RT : PyRuntime} {TE : Terminal}.

(** What the loop does from a key that is neither the time-out nor a
    shortcut. *)
Lemma on_key_other (fuel : nat) (child : Child) (ch : Z) (current_input : pystr)
    (w : World) :
  ch <> (-1)%Z -> ~ In ch shortcut_keys ->
  on_key fuel child ch current_input w
  = if (ch =? 10)%Z || (ch =? 13)%Z then
      if nonempty (strip current_input) then
        match send_message (TE := typing [] TE) fuel (strip current_input) child w with
        | None => None
        | Some (Done _, w2) => Some (Done KeepRunning, [], w2)
        | Some (Raised e, w2) => Some (Raised e, [], w2)
        end
      else Some (Done KeepRunning, current_input, w)
    else Some (Done KeepRunning, edit_input ch current_input, w).
Proof.
  intros Htick Hout. unfold on_key.
  destruct (Z.eqb_spec ch (-1)) as [E | _]; [congruence |].
  rewrite (handle_shortcuts_other ch w Hout). reflexivity.
Qed.

(** A shortcut key other than Ctrl+C is handled, without an exception. *)
Lemma handle_shortcuts_handled (ch : Z) (w : World) :
  In ch shortcut_keys -> ch <> 3%Z ->
  exists w1, handle_shortcuts ch w = (Done Handled, w1).
Proof.
  intros Hin N3. cbn in Hin.
  destruct Hin as [<- | [<- | [<- | [<- | [<- | [<- | [<- | [<- | []]]]]]]]].
  - destruct (press_provider w) as (s & n & H); eauto.
  - destruct (press_context w) as (s & n & H); eauto.
  - destruct (press_streaming w) as (s & n & H); eauto.
  - destruct (press_personality w) as (s & n & H); eauto.
  - destruct (press_view w) as (s & n & H); eauto.
  - destruct (press_copy_mode w) as (s & n & H); eauto.
  - rewrite press_tools. destruct (str_eqb _ _); [| eauto].
    destruct (set_then_status
                (fun t => set_tools_enabled (negb (tools_enabled t)) t) w)
      as (s & n & H); eauto.
  - congruence.
Qed.

(** The time-out turn never raises and keeps the input line. *)
Lemma on_key_tick (fuel : nat) (child : Child) (current_input : pystr) (w : World) :
  exists w', on_key fuel child (-1) current_input w
             = Some (Done KeepRunning, current_input, w').
Proof.
  unfold on_key. cbn [Z.eqb]. unfold bind at 1. unfold get at 1.
  destruct (nonempty (current_tool_activity (self w))).
  - unfold bind at 1. unfold modify at 1.
    match goal with |- context [update_status ?w1] =>
      destruct (update_status_frame w1) as (s & n & Hup & _) end.
    rewrite Hup. eexists. reflexivity.
  - eexists. reflexivity.
Qed.

(** X16.  Typing and erasing.  A printable key (32 to 126) is never taken
    for a shortcut: it is added at the end of the input line and nothing
    else changes.  Backspace (8, 127 or the curses key) takes the last
    character off again, so typing a character and erasing it gives back
    the line; on an empty line it does nothing. *)
Theorem type_then_erase (fuel : nat) (child : Child) (ch erase : Z)
    (current_input : pystr) (w : World) :
  (32 <= ch <= 126)%Z -> In erase [8; 127; KEY_BACKSPACE]%Z ->
  on_key fuel child ch current_input w
  = Some (Done KeepRunning, current_input ++ [Z.to_N ch], w)
  /\ on_key fuel child erase (current_input ++ [Z.to_N ch]) w
     = Some (Done KeepRunning, current_input, w)
  /\ on_key fuel child erase [] w = Some (Done KeepRunning, [], w).
Proof.
  intros Hch Herase.
  assert (Hch_out : ~ In ch shortcut_keys) by (cbn; lia).
  assert (Herase_out : ~ In erase shortcut_keys)
    by (unfold KEY_BACKSPACE in Herase; cbn in *; lia).
  assert (Herase_tick : erase <> (-1)%Z)
    by (unfold KEY_BACKSPACE in Herase; cbn in *; lia).
  assert (Herase_nl : ((erase =? 10) || (erase =? 13))%Z = false)
    by (unfold KEY_BACKSPACE in Herase; cbn in Herase;
        destruct Herase as [<- | [<- | [<- | []]]]; reflexivity).
  assert (Herase_bs : ((erase =? 8) || (erase =? 127) || (erase =? KEY_BACKSPACE))%Z = true)
    by (unfold KEY_BACKSPACE in *; cbn in Herase;
        destruct Herase as [<- | [<- | [<- | []]]]; reflexivity).
  split; [| split].
  - rewrite on_key_other by (assumption || lia).
    assert (H1 : ((ch =? 10) || (ch =? 13))%Z = false) by lia. rewrite H1.
    unfold edit_input, KEY_BACKSPACE.
    assert (H2 : ((ch =? 8) || (ch =? 127) || (ch =? 263))%Z = false) by lia. rewrite H2.
    assert (H3 : ((32 <=? ch) && (ch <=? 126))%Z = true) by lia. rewrite H3.
    reflexivity.
  - rewrite on_key_other by assumption. rewrite Herase_nl.
    unfold edit_input. rewrite Herase_bs.
    assert (Hne : nonempty (current_input ++ [Z.to_N ch]) = true)
      by (destruct current_input; reflexivity).
    rewrite Hne, removelast_last. reflexivity.
  - rewrite on_key_other by assumption. rewrite Herase_nl.
    unfold edit_input. rewrite Herase_bs. reflexivity.
Qed.

Lemma edit_input_printable (ch : Z) (current_input : pystr) :
  Forall (fun c => 32 <= c <= 126) current_input ->
  Forall (fun c => 32 <= c <= 126) (edit_input ch current_input).
Proof.
  intros Hok. unfold edit_input.
  destruct ((ch =? 8) || (ch =? 127) || (ch =? KEY_BACKSPACE))%Z.
  - destruct (nonempty current_input); [| exact Hok].
    rewrite Forall_forall in *. intros c Hc. apply Hok.
    clear - Hc. induction current_input as [| x l IH]; [contradiction |].
    destruct l as [| y l]; [contradiction |].
    destruct Hc as [<- | Hc]; [left; reflexivity | right; apply IH; exact Hc].
  - destruct ((32 <=? ch) && (ch <=? 126))%Z eqn:Hp; [| exact Hok].
    apply Forall_app. split; [exact Hok |]. constructor; [lia | constructor].
Qed.

(** X17.  The input line only ever holds printable ASCII: if every
    character of the line is in 32..126 before a turn of the loop, so is
    every character after it, whatever the key and whatever the turn does.
    So no message typed at the prompt holds a line break or a control
    character. *)
Theorem input_stays_printable (fuel : nat) (child : Child) (ch : Z)
    (current_input input' : pystr) (w w' : World) (o : outcome loop_step) :
  Forall (fun c => 32 <= c <= 126) current_input ->
  on_key fuel child ch current_input w = Some (o, input', w') ->
  Forall (fun c => 32 <= c <= 126) input'.
Proof.
  intros Hok Hrun. unfold on_key in Hrun.
  destruct (ch =? -1)%Z.
  { destruct (bind get _ _) as [[u | e] w1]; injection Hrun as <- <- <-; exact Hok. }
  destruct (handle_shortcuts ch w) as [[[] | e] w1];
    try (injection Hrun as <- <- <-; exact Hok).
  destruct ((ch =? 10) || (ch =? 13))%Z.
  - destruct (nonempty (strip current_input)).
    + destruct (send_message _ _ _ _) as [[[u | e] w2] |]; [| | discriminate];
        injection Hrun as <- <- <-; constructor.
    + injection Hrun as <- <- <-; exact Hok.
  - injection Hrun as <- <- <-. apply edit_input_printable, Hok.
Qed.

(** X18.  Enter.  On a line that is empty or white space only, Enter sends
    nothing and changes nothing; the line is not cleared either.  On any
    other line the text sent is the line without the white space around it,
    and the line is cleared before the send, so the draws of the send show
    an empty prompt; the loop goes on when the send returns, and an
    exception of the send leaves the loop with the line already cleared.
    In the chat view the one exception a send can raise is that of the draw
    before its [try].  In the raw view such a send goes to the PTY only: the
    chat log and every other field stay as they are, the backend is not
    started and nothing is drawn, so the turn cannot raise. *)
Theorem enter_sends_trimmed_line (fuel : nat) (child : Child) (ch : Z)
    (blank_input current_input : pystr) (w : World) :
  In ch [10; 13]%Z ->
  strip blank_input = [] ->
  strip current_input <> [] ->
  on_key fuel child ch blank_input w = Some (Done KeepRunning, blank_input, w)
  /\ on_key fuel child ch current_input w
     = match send_message (TE := typing [] TE) fuel (strip current_input) child w with
       | Some (Done _, w2) => Some (Done KeepRunning, [], w2)
       | Some (Raised e, w2) => Some (Raised e, [], w2)
       | None => None
       end
  /\ (forall e input' w',
        on_key fuel child ch current_input w = Some (Raised e, input', w') ->
        input' = []
        /\ str_eqb (view_mode (self w)) (lit "claude_raw") = false
        /\ fst (send_prologue (TE := typing [] TE) (strip current_input)
                  {| self := self w; reads := S (reads w) |}) = Raised e)
  /\ (view_mode (self w) = lit "claude_raw" ->
      on_key fuel child ch current_input w
      = Some (Done KeepRunning, [], {| self := self w; reads := S (reads w) |})).
Proof.
  intros Hch Hblank Hne.
  assert (Hout : ~ In ch shortcut_keys) by (cbn in *; lia).
  assert (Htick : ch <> (-1)%Z) by (cbn in *; lia).
  assert (Hnl : ((ch =? 10) || (ch =? 13))%Z = true) by (cbn in *; lia).
  rewrite !(on_key_other fuel child ch _ w Htick Hout), Hnl.
  apply nonempty_false in Hblank. apply nonempty_true in Hne. rewrite Hblank, Hne.
  assert (Hraw : view_mode (self w) = lit "claude_raw" ->
                 send_message (TE := typing [] TE) fuel (strip current_input) child w
                 = Some (Done tt, {| self := self w; reads := S (reads w) |})).
  { intros Hview. unfold send_message. unfold bind at 1. unfold now at 1.
    unfold log_debug at 1. unfold bind at 1. cbn [ret self reads].
    rewrite Hview. reflexivity. }
  split; [reflexivity |]. split; [reflexivity |]. split.
  - intros e input' w' Hrun.
    destruct (str_eqb (view_mode (self w)) (lit "claude_raw")) eqn:Hview.
    + apply str_eqb_eq in Hview. rewrite (Hraw Hview) in Hrun. discriminate.
    + destruct (send_message _ _ _ _) as [[[u | e'] w2] |] eqn:Hsend;
        [discriminate | | discriminate].
      injection Hrun as <- <- <-.
      destruct (send_message_course (TE := typing [] TE) fuel (strip current_input)
                  child w _ Hview Hsend) as (s & n & Hfst & _).
      cbn [fst] in Hfst. repeat split. symmetry. exact Hfst.
  - intros Hview. rewrite (Hraw Hview). reflexivity.
Qed.

(** X19.  How the loop is left.  A turn ends the loop by itself exactly
    when its draw succeeds and the key is Ctrl+C, and then nothing has
    changed and the line typed so far has not been sent.  Any other way
    out is an exception, and there are three places a turn can raise one:
    its own draw, [getch], and, on Enter over a line that is not blank, the
    draw before the [try] of the send, when the line has been cleared
    already.  The time-out turn, the shortcuts and the editing keys never
    raise. *)
Theorem loop_left_by_ctrl_c_or_exception (fuel : nat) (child : Child)
    (got : outcome Z) (current_input input' : pystr) (w w' : World) :
  (turn fuel child got current_input w = Some (Done LeaveLoop, input', w')
   <-> fst (redraw (TE := typing current_input TE) w) = Done tt
       /\ got = Done 3%Z /\ input' = current_input /\ w' = w)
  /\ (forall e,
        turn fuel child got current_input w = Some (Raised e, input', w') ->
        (fst (redraw (TE := typing current_input TE) w) = Raised e
         /\ input' = current_input /\ w' = w)
        \/ (got = Raised e /\ input' = current_input /\ w' = w)
        \/ (exists ch,
              got = Done ch /\ In ch [10; 13]%Z /\ strip current_input <> []
              /\ input' = []
              /\ fst (send_prologue (TE := typing [] TE) (strip current_input)
                        {| self := self w; reads := S (reads w) |}) = Raised e)).
Proof.
  assert (Hkey : forall ch o,
             on_key fuel child ch current_input w = Some (o, input', w') ->
             match o with
             | Done LeaveLoop => ch = 3%Z /\ input' = current_input /\ w' = w
             | Done KeepRunning => True
             | Raised e =>
                 In ch [10; 13]%Z /\ strip current_input <> [] /\ input' = []
                 /\ fst (send_prologue (TE := typing [] TE) (strip current_input)
                           {| self := self w; reads := S (reads w) |}) = Raised e
             end).
  { intros ch o Hrun.
    destruct (Z.eq_dec ch (-1)) as [-> | Htick].
    { destruct (on_key_tick fuel child current_input w) as [w1 H1].
      rewrite H1 in Hrun. injection Hrun as <- <- <-. exact I. }
    destruct (Z.eq_dec ch 3) as [-> | N3].
    { unfold on_key in Hrun. cbn in Hrun. injection Hrun as <- <- <-. repeat split. }
    destruct (in_dec Z.eq_dec ch shortcut_keys) as [Hin | Hout].
    - destruct (handle_shortcuts_handled ch w Hin N3) as [w1 Hh].
      unfold on_key in Hrun.
      destruct (Z.eqb_spec ch (-1)) as [E | _]; [congruence |].
      rewrite Hh in Hrun. injection Hrun as <- <- <-. exact I.
    - rewrite (on_key_other fuel child ch current_input w Htick Hout) in Hrun.
      destruct ((ch =? 10) || (ch =? 13))%Z eqn:Hnl;
        [| injection Hrun as <- <- <-; exact I].
      destruct (nonempty (strip current_input)) eqn:Hne;
        [| injection Hrun as <- <- <-; exact I].
      destruct (send_message _ _ _ _) as [[[u | e] w2] |] eqn:Hsend;
        [injection Hrun as <- <- <-; exact I | | discriminate].
      injection Hrun as <- <- <-.
      split; [cbn; lia |].
      split; [intros Hs; rewrite Hs in Hne; discriminate |].
      split; [reflexivity |].
      destruct (str_eqb (view_mode (self w)) (lit "claude_raw")) eqn:Hview.
      + exfalso. unfold send_message in Hsend. unfold bind at 1 in Hsend.
        unfold now at 1 in Hsend. unfold log_debug at 1 in Hsend.
        unfold bind at 1 in Hsend. cbn [ret self reads] in Hsend.
        rewrite Hview in Hsend. discriminate.
      + destruct (send_message_course (TE := typing [] TE) fuel (strip current_input)
                    child w _ Hview Hsend) as (s & n & Hfst & _).
        cbn [fst] in Hfst. symmetry. exact Hfst. }
  unfold turn. rewrite (redraw_runs (TE := typing current_input TE) w).
  destruct (fst (redraw (TE := typing current_input TE) w)) as [[] | e0].
  - destruct got as [ch | e1].
    + split.
      * split.
        -- intros Hrun. destruct (Hkey ch _ Hrun) as (-> & -> & ->). repeat split.
        -- intros (_ & Hgot & -> & ->). injection Hgot as ->. reflexivity.
      * intros e Hrun. right. right. exists ch.
        destruct (Hkey ch _ Hrun) as (Hch & Hne & -> & Hpro). repeat split; assumption.
    + split.
      * split; [discriminate | intros (_ & Hgot & _); discriminate].
      * intros e Hrun. injection Hrun as <- <- <-. right. left. repeat split.
  - split.
    + split; [discriminate | intros (Hd & _); discriminate].
    + intros e Hrun. injection Hrun as <- <- <-. left. repeat split.
Qed.

(** X20.  The time-out turn.  When no key arrives, the input line is kept;
    without a running activity nothing changes at all, and with one the
    dots advance by one and are then in 0..3 whatever they were, and only
    the dots and the status line change. *)
Theorem idle_tick_animates (fuel : nat) (child : Child) (current_input : pystr)
    (w : World) :
  exists w',
    on_key fuel child (-1) current_input w = Some (Done KeepRunning, current_input, w')
    /\ (current_tool_activity (self w) = [] -> w' = w)
    /\ (current_tool_activity (self w) <> [] ->
        (0 <= tool_progress_dots (self w') < 4)%Z
        /\ exists s,
             self w' = set_status s
                         (set_tool_progress_dots
                            ((tool_progress_dots (self w) + 1) mod 4)%Z (self w))).
Proof.
  unfold on_key. cbn [Z.eqb].
  unfold bind at 1. unfold get at 1.
  destruct (current_tool_activity (self w)) as [| c act] eqn:Hact; cbn [nonempty].
  - exists w. split; [reflexivity |]. split; [reflexivity | congruence].
  - unfold bind at 1. unfold modify at 1.
    match goal with |- context [update_status ?w1] =>
      destruct (update_status_frame w1) as (s & n & Hup & _) end.
    rewrite Hup. eexists. split; [reflexivity |]. split; [discriminate |].
    intros _. cbn [self tool_progress_dots set_status set_tool_progress_dots].
    split; [apply Z.mod_pos_bound; lia | exists s; reflexivity].
Qed.

End Keys.

(* ===================================================================== *)
(** * Properties of single events *)
(* ===================================================================== *)

Section Events.

Context {RT : PyRuntime} {TE : Terminal}.

Lemma starts_with_app (p t : pystr) : starts_with p (p ++ t) = true.
Proof. induction p as [| c p IH]; [reflexivity |]. cbn. rewrite N.eqb_refl. exact IH. Qed.

Lemma starts_with_inv (p s : pystr) :
  starts_with p s = true -> exists t, s = p ++ t.
Proof.
  revert s. induction p as [| c p IH]; intros s H; [exists s; reflexivity |].
  destruct s as [| x s]; [discriminate |]. cbn in H.
  apply andb_true_iff in H as [Hc Hp]. apply N.eqb_eq in Hc. subst x.
  destruct (IH s Hp) as [t ->]. exists t. reflexivity.
Qed.

(** [needle in hay] says that [hay] is [needle] between two other parts. *)
Lemma contains_inv (needle hay : pystr) :
  contains needle hay = true -> exists pre post, hay = pre ++ needle ++ post.
Proof.
  induction hay as [| c hay IH]; intros H.
  - cbn [contains] in H. rewrite orb_false_r in H.
    destruct (starts_with_inv _ _ H) as [t Ht]. exists [], t. exact Ht.
  - cbn [contains] in H. apply orb_true_iff in H as [H | H].
    + destruct (starts_with_inv _ _ H) as [t Ht]. exists [], t. exact Ht.
    + destruct (IH H) as (pre & post & ->). exists (c :: pre), post. reflexivity.
Qed.

Lemma contains_intro (needle pre post : pystr) :
  contains needle (pre ++ needle ++ post) = true.
Proof.
  induction pre as [| c pre IH].
  - cbn [app]. destruct (needle ++ post) eqn:E; cbn [contains];
      rewrite <- E, starts_with_app; reflexivity.
  - cbn [app contains]. rewrite IH. apply orb_true_r.
Qed.

(** A part of a part is a part. *)
Lemma contains_trans (a b c : pystr) :
  contains a b = true -> contains b c = true -> contains a c = true.
Proof.
  intros Hab Hbc.
  destruct (contains_inv _ _ Hab) as (p1 & q1 & ->).
  destruct (contains_inv _ _ Hbc) as (p2 & q2 & ->).
  replace (p2 ++ (p1 ++ a ++ q1) ++ q2) with ((p2 ++ p1) ++ a ++ (q1 ++ q2))
    by (rewrite <- !app_assoc; reflexivity).
  apply contains_intro.
Qed.

(** An event of a kind other than 'error' and 'engine' with the message
    test out of the way. *)
Lemma handle_event_passes (msg : list (pystr * json)) (w : World) (k : pystr) :
  dict_get msg (lit "type") (JStr []) = JStr k ->
  k <> lit "error" -> k <> lit "engine" ->
  should_ignore_message (dict_get msg (lit "message") (JStr []))
                        (dict_get msg (lit "type") (JStr [])) = Done false.
Proof.
  intros Hty H1 H2. rewrite Hty. apply should_ignore_other_kind; cbn [py_eq_str];
    apply str_eqb_neq; assumption.
Qed.

(** X21.  A tool_blurb event is never filtered, whatever its message field
    holds (the noise keywords apply to engine events only).  When its
    content is a str that is not blank, exactly one system message is
    appended: the wrench, a space and the content as it is (not trimmed),
    stamped with the clock and carrying the tool name of the event (the
    empty string when the event has none); nothing else changes, and the
    screen is then drawn again unless copy mode is on, so the event ends as
    that draw ends, with its exception if it raises one.  When the content
    is blank, nothing changes at all and nothing is drawn. *)
Theorem tool_blurb_appends (msg : list (pystr * json)) (content : pystr) (w : World) :
  dict_get msg (lit "type") (JStr []) = JStr (lit "tool_blurb") ->
  dict_get msg (lit "content") (JStr []) = JStr content ->
  handle_event msg w
  = if nonempty (strip content) then
      let w1 :=
        {| self := set_messages
                     (messages (self w)
                      ++ [{| msg_role := System;
                             msg_content := JStr ([0x1F527] ++ lit " " ++ content);
                             msg_timestamp := clock (reads w); msg_immediate := false;
                             msg_source := None;
                             msg_tool := Some (dict_get msg (lit "tool_name") (JStr [])) |}])
                     (self w);
           reads := S (reads w) |} in
      (fst (redraw w1), w1)
    else (Done tt, w).
Proof.
  intros Hty Hcontent.
  pose proof (handle_event_passes msg w _ Hty ltac:(discriminate) ltac:(discriminate))
    as Hpass.
  unfold handle_event. rewrite Hpass. rewrite Hty, Hcontent.
  rewrite (bind_done _ _ w w false) by reflexivity. cbv iota.
  change (py_eq_str (JStr (lit "tool_blurb")) (lit "assistant_message")) with false.
  change (py_eq_str (JStr (lit "tool_blurb")) (lit "tool_activity")) with false.
  change (py_eq_str (JStr (lit "tool_blurb")) (lit "tool_blurb")) with true.
  cbv iota.
  rewrite (bind_done _ _ w w (strip content)) by reflexivity.
  destruct (nonempty (strip content)); [| reflexivity].
  cbv zeta. unfold bind, now, append_message, modify. cbn [self reads fstr].
  apply redraw_runs.
Qed.

(** X22.  An event whose type is none of the five kinds the loop knows
    (assistant_message, tool_activity, tool_blurb, engine, error) changes
    nothing, whatever else it carries: a type that is another str, a type
    that is no str, or no type at all. *)
Theorem unknown_kind_changes_nothing (msg : list (pystr * json)) (w : World) :
  (forall k, In k [lit "assistant_message"; lit "tool_activity"; lit "tool_blurb";
                   lit "engine"; lit "error"] ->
             py_eq_str (dict_get msg (lit "type") (JStr [])) k = false) ->
  handle_event msg w = (Done tt, w).
Proof.
  intros Hne. unfold handle_event.
  rewrite should_ignore_other_kind by (apply Hne; cbn; tauto).
  rewrite (bind_done _ _ w w false) by reflexivity. cbv iota.
  rewrite !Hne by (cbn; tauto).
  reflexivity.
Qed.

(** The engine branch of the loop for an event that passed the filter. *)
Lemma handle_engine_event (msg : list (pystr * json)) (m : pystr) (w : World) :
  dict_get msg (lit "type") (JStr []) = JStr (lit "engine") ->
  dict_get msg (lit "message") (JStr []) = JStr m ->
  existsb (fun k => contains k m) debug_noise_keywords = false ->
  existsb (fun k => contains k m) important_keywords = true ->
  let metadata := dict_get msg (lit "metadata") (JObj []) in
  handle_event msg w
  = if contains (lit "system_state_changed") m then
      (status <- eval (py_get metadata (lit "status") (JStr [])) ;;
       status_message <- eval (py_get metadata (lit "message") (JStr [])) ;;
       if py_eq_str status (lit "ready") && py_truthy status_message then
         stamp <- now ;;
         append_message {| msg_role := System; msg_content := status_message;
                           msg_timestamp := stamp; msg_immediate := false;
                           msg_source := None; msg_tool := None |} ;;
         modify (set_status (lit "Status: Ready"))
       else ret tt) w
    else if contains (lit "file_operations_user_acknowledgment") m then
      (acknowledgment <- eval (py_get metadata (lit "acknowledgment") (JStr [])) ;;
       stripped <- eval (py_strip acknowledgment) ;;
       if nonempty stripped then
         stamp <- now ;;
         append_message {| msg_role := Assistant; msg_content := acknowledgment;
                           msg_timestamp := stamp; msg_immediate := false;
                           msg_source := None; msg_tool := None |}
       else ret tt) w
    else engine_status (JStr m) metadata w.
Proof.
  intros Hty Hmsg Hnoise Himportant metadata.
  unfold handle_event. rewrite Hty, Hmsg, should_ignore_engine, Hnoise, Himportant.
  cbn [orb negb].
  rewrite (bind_done _ _ w w false) by reflexivity. cbv iota.
  change (py_eq_str (JStr (lit "engine")) (lit "assistant_message")) with false.
  change (py_eq_str (JStr (lit "engine")) (lit "tool_activity")) with false.
  change (py_eq_str (JStr (lit "engine")) (lit "tool_blurb")) with false.
  change (py_eq_str (JStr (lit "engine")) (lit "engine")) with true.
  cbv iota. cbn [py_in].
  rewrite (bind_done _ _ w w (contains (lit "system_state_changed") m)) by reflexivity.
  destruct (contains (lit "system_state_changed") m); [reflexivity |].
  rewrite (bind_done _ _ w w (contains (lit "file_operations_user_acknowledgment") m))
    by reflexivity.
  destruct (contains (lit "file_operations_user_acknowledgment") m); reflexivity.
Qed.


(** X23.  A system_state_changed event (an engine event whose message
    holds that keyword and no noise keyword) with a dict as metadata: when
    the status in the metadata is 'ready' and its message is truthy, that
    message is appended as a system message, as it is, and the status line
    becomes 'Status: Ready'; with any other status, or a missing or empty
    message, nothing changes. *)
Theorem ready_event_announces (msg : list (pystr * json)) (m : pystr)
    (metadata : list (pystr * json)) (w : World) :
  dict_get msg (lit "type") (JStr []) = JStr (lit "engine") ->
  dict_get msg (lit "message") (JStr []) = JStr m ->
  dict_get msg (lit "metadata") (JObj []) = JObj metadata ->
  contains (lit "system_state_changed") m = true ->
  existsb (fun k => contains k m) debug_noise_keywords = false ->
  let status_message := dict_get metadata (lit "message") (JStr []) in
  handle_event msg w
  = if py_eq_str (dict_get metadata (lit "status") (JStr [])) (lit "ready")
       && py_truthy status_message
    then (Done tt,
          {| self := set_status (lit "Status: Ready")
                       (set_messages
                          (messages (self w)
                           ++ [{| msg_role := System; msg_content := status_message;
                                  msg_timestamp := clock (reads w);
                                  msg_immediate := false;
                                  msg_source := None; msg_tool := None |}]) (self w));
             reads := S (reads w) |})
    else (Done tt, w).
Proof.
  intros Hty Hmsg Hmeta Hkey Hnoise status_message.
  assert (Himportant : existsb (fun k => contains k m) important_keywords = true).
  { cbn [existsb important_keywords]. rewrite Hkey. reflexivity. }
  rewrite (handle_engine_event msg m w Hty Hmsg Hnoise Himportant), Hkey, Hmeta.
  cbn [py_get]. unfold bind at 1. unfold eval at 1. unfold bind at 1. unfold eval at 1.
  fold status_message.
  destruct (py_eq_str _ _ && py_truthy status_message); reflexivity.
Qed.

(** X24.  The message of a ready event is not checked to be a str: when it
    is a truthy value of another type (a number, a list, a dict, true), it
    becomes the content of the newest message of the log, and while it is
    the newest one the message window of [draw_screen] cannot be computed,
    whatever the size of the terminal: wrapping that content raises
    AttributeError. *)
Theorem ready_event_breaks_window (msg : list (pystr * json)) (m : pystr)
    (metadata : list (pystr * json)) (w : World) (height width : Z) :
  dict_get msg (lit "type") (JStr []) = JStr (lit "engine") ->
  dict_get msg (lit "message") (JStr []) = JStr m ->
  dict_get msg (lit "metadata") (JObj []) = JObj metadata ->
  contains (lit "system_state_changed") m = true ->
  existsb (fun k => contains k m) debug_noise_keywords = false ->
  dict_get metadata (lit "status") (JStr []) = JStr (lit "ready") ->
  py_truthy (dict_get metadata (lit "message") (JStr [])) = true ->
  (forall s, dict_get metadata (lit "message") (JStr []) <> JStr s) ->
  fst (handle_event msg w) = Done tt
  /\ visible_messages height width (self (snd (handle_event msg w)))
     = Raised AttributeError.
Proof.
  intros Hty Hmsg Hmeta Hkey Hnoise Hready Htruthy Hnostr.
  assert (Himportant : existsb (fun k => contains k m) important_keywords = true).
  { cbn [existsb important_keywords]. rewrite Hkey. reflexivity. }
  rewrite (handle_engine_event msg m w Hty Hmsg Hnoise Himportant), Hkey, Hmeta.
  cbn [py_get]. unfold bind, eval, now, append_message, modify.
  rewrite Hready, Htruthy.
  change (py_eq_str (JStr (lit "ready")) (lit "ready")) with true. cbn [andb].
  split; [reflexivity |].
  unfold visible_messages.
  cbn [snd self reads messages set_status set_messages].
  rewrite rev_app_distr. cbn [rev app window_go msg_content].
  unfold wrap_value. rewrite Htruthy. cbn [negb].
  destruct (dict_get metadata (lit "message") (JStr [])) as [| | | | s | |];
    try reflexivity.
  exfalso. apply (Hnostr s). reflexivity.
Qed.


Ltac engine_branch :=
  unfold progress, start_timer, bind, eval, modify, now, ret;
  repeat match goal with
         | |- context [py_get ?a ?b ?c] => destruct (py_get a b c)
         | |- context [if py_truthy ?d then _ else _] => destruct (py_truthy d)
         end;
  cbn [snd self status set_status set_current_tool_activity set_tool_start_time];
  solve [left; reflexivity | right; reflexivity].

Ltac engine_test k :=
  match goal with
  | |- context [contains (lit k) ?m] =>
      let E := fresh "E" in
      destruct (contains (lit k) m) eqn:E;
      [ rewrite ?(bind_done _ _ _ _ true) by reflexivity; cbv iota; engine_branch
      | rewrite ?(bind_done _ _ _ _ false) by reflexivity; cbv iota ]
  end.

(** An engine message with one of these parts is taken by a branch of the
    chain that stands before the last one, so that the status line after it
    is the old one or one that does not begin with the cross and 'Error:'. *)
Lemma engine_status_never_fails (m : pystr) (metadata : json) (w : World) :
  contains (lit "intelligence_router") m
  || contains (lit "tools_agent_start") m
  || contains (lit "tools_agent_executing_step") m
  || contains (lit "subconscious_reasoning") m
  || contains (lit "personality_interpretation") m
  || contains (lit "_success") m = true ->
  let w' := snd (engine_status (JStr m) metadata w) in
  status (self w') = status (self w)
  \/ starts_with ([0x274C] ++ lit " Error: ") (status (self w')) = false.
Proof.
  intros Hhit w'. subst w'.
  unfold engine_status, in_or. cbn [py_in].
  engine_test "loading_personality"%string.
  engine_test "file_operations_calling_gemma"%string.
  engine_test "file_operation_executing"%string.
  engine_test "personalizing"%string.
  engine_test "personality_interpretation"%string.
  engine_test "intent_classification"%string.
  engine_test "intelligence_router"%string.
  engine_test "tools_agent_start"%string.
  engine_test "tools_agent_executing_step"%string.
  engine_test "recursive_validation"%string.
  engine_test "subconscious_reasoning"%string.
  engine_test "deepseek_attempt"%string.
  rewrite ?(bind_done _ _ _ _ false) by reflexivity; cbv iota.
  engine_test "thinking"%string.
  engine_test "_complete"%string.
  engine_test "_success"%string.
  discriminate Hhit.
Qed.


(** Each important keyword other than the first holds a part that one of
    the earlier branches of the chain tests for. *)
Lemma important_keyword_is_taken (m : pystr) :
  existsb (fun k => contains k m) important_keywords = true ->
  contains (lit "system_state_changed") m = false ->
  contains (lit "intelligence_router") m
  || contains (lit "tools_agent_start") m
  || contains (lit "tools_agent_executing_step") m
  || contains (lit "subconscious_reasoning") m
  || contains (lit "personality_interpretation") m
  || contains (lit "_success") m = true.
Proof.
  intros Himportant Hstate. apply existsb_exists in Himportant as (k & Hk & Hin).
  assert (Hpart : forall part, contains part k = true -> contains part m = true)
    by (intros part Hp; exact (contains_trans part k m Hp Hin)).
  cbn [important_keywords In] in Hk.
  repeat match goal with H : _ \/ _ |- _ => destruct H as [<- | H] end;
    try contradiction.
  - congruence.
  - rewrite (Hpart (lit "intelligence_router")) by reflexivity. reflexivity.
  - rewrite (Hpart (lit "intelligence_router")) by reflexivity. reflexivity.
  - rewrite (Hpart (lit "tools_agent_start")) by reflexivity. apply orb_true_iff; left.
    apply orb_true_iff; left. apply orb_true_iff; left. apply orb_true_iff; left.
    apply orb_true_r.
  - rewrite (Hpart (lit "tools_agent_executing_step")) by reflexivity.
    apply orb_true_iff; left. apply orb_true_iff; left. apply orb_true_iff; left.
    apply orb_true_r.
  - rewrite (Hpart (lit "subconscious_reasoning")) by reflexivity.
    apply orb_true_iff; left. apply orb_true_iff; left. apply orb_true_r.
  - rewrite (Hpart (lit "subconscious_reasoning")) by reflexivity.
    apply orb_true_iff; left. apply orb_true_iff; left. apply orb_true_r.
  - rewrite (Hpart (lit "personality_interpretation")) by reflexivity.
    apply orb_true_iff; left. apply orb_true_r.
  - rewrite (Hpart (lit "personality_interpretation")) by reflexivity.
    apply orb_true_iff; left. apply orb_true_r.
  - rewrite (Hpart (lit "_success")) by reflexivity. apply orb_true_r.
Qed.

(** X25.  The last branch of the engine chain, the one that would show the
    cross and 'Error: ...' in the status line, is never taken for an engine
    event whose message is a str: the filter lets through only messages
    with an important keyword, and each of them is taken by an earlier
    branch.  So after any such event the status line is either the one
    before it or one that does not begin with that mark; a failure the
    backend reports in an engine event never reaches the status line. *)
Theorem engine_error_status_is_dead (msg : list (pystr * json)) (m : pystr) (w : World) :
  dict_get msg (lit "type") (JStr []) = JStr (lit "engine") ->
  dict_get msg (lit "message") (JStr []) = JStr m ->
  let w' := snd (handle_event msg w) in
  status (self w') = status (self w)
  \/ starts_with ([0x274C] ++ lit " Error: ") (status (self w')) = false.
Proof.
  intros Hty Hmsg w'. subst w'.
  destruct (existsb (fun k => contains k m) debug_noise_keywords) eqn:Hnoise.
  { rewrite handle_event_ignored; [left; reflexivity |].
    rewrite Hty, Hmsg, should_ignore_engine, Hnoise. reflexivity. }
  destruct (existsb (fun k => contains k m) important_keywords) eqn:Himportant.
  2: { rewrite handle_event_ignored; [left; reflexivity |].
       rewrite Hty, Hmsg, should_ignore_engine, Hnoise, Himportant. reflexivity. }
  rewrite (handle_engine_event msg m w Hty Hmsg Hnoise Himportant).
  destruct (contains (lit "system_state_changed") m) eqn:Hstate.
  { unfold bind, eval, now, append_message, modify, ret.
    destruct (py_get _ (lit "status") _) as [st | e]; [| left; reflexivity].
    destruct (py_get _ (lit "message") _) as [sm | e]; [| left; reflexivity].
    destruct (py_eq_str st (lit "ready") && py_truthy sm);
      [right; reflexivity | left; reflexivity]. }
  destruct (contains (lit "file_operations_user_acknowledgment") m).
  { unfold bind, eval, now, append_message, modify, ret.
    destruct (py_get _ _ _) as [ack | e]; [| left; reflexivity].
    destruct (py_strip ack) as [stripped | e]; [| left; reflexivity].
    destruct (nonempty stripped); left; reflexivity. }
  apply engine_status_never_fails.
  apply important_keyword_is_taken; assumption.
Qed.

End Events.

(* ===================================================================== *)
(** * More on the cleanup, the candidate scan and the PTY buffer *)
(* ===================================================================== *)

Section Texts.

Context {RT : PyRuntime} {TE : Terminal}.

(** A character of [s.replace(old, new)] comes from [s] or from [new]. *)
Lemma replace_go_in (old new : pystr) (y : N) (s : pystr) :
  forall skip, In y (replace_go old new skip s) -> In y s \/ In y new.
Proof.
  induction s as [| c t IH]; intros skip H; [contradiction |].
  cbn [replace_go] in H. destruct skip as [| k].
  - destruct (starts_with old (c :: t)).
    + apply in_app_or in H as [H | H]; [right; exact H |].
      destruct (IH _ H) as [H' | H']; [left; right; exact H' | right; exact H'].
    + destruct H as [<- | H]; [left; left; reflexivity |].
      destruct (IH _ H) as [H' | H']; [left; right; exact H' | right; exact H'].
  - destruct (IH _ H) as [H' | H']; [left; right; exact H' | right; exact H'].
Qed.

Lemma replace_in (old new : pystr) (y : N) (s : pystr) :
  In y (replace old new s) -> In y s \/ In y new.
Proof. apply replace_go_in. Qed.

(** X26.  What [clean_response_formatting] returns holds no asterisk and
    no underscore, and has no white space at either end (trimming it again
    changes nothing), whatever the content. *)
Theorem cleanup_result_is_plain_and_trimmed (content : pystr) :
  ~ In 42 (clean_response_formatting content)
  /\ ~ In 95 (clean_response_formatting content)
  /\ strip (clean_response_formatting content) = clean_response_formatting content.
Proof.
  destruct content as [| c0 content']; [cbn; tauto |].
  set (content := c0 :: content'). unfold clean_response_formatting. fold content.
  change (lit "*") with [42]. change (lit "_") with [95].
  assert (Hkeep : forall y, y <> 34 -> y <> 10 ->
            In y (replace [92; 110] [10]
                    (replace [92; 34] [34]
                       (collapse_spaces (collapse_newlines
                          (replace (lit "__") []
                             (replace (lit "**") []
                                (replace [95] [] (replace [42] [] content)))))))) ->
            In y (replace [95] [] (replace [42] [] content))).
  { intros y H34 H10 H.
    apply replace_in in H as [H | [H | []]]; [| congruence].
    apply replace_in in H as [H | [H | []]]; [| congruence].
    apply collapse_spaces_in, collapse_newlines_in in H.
    apply replace_in in H as [H | []].
    apply replace_in in H as [H | []]. exact H. }
  split; [| split].
  - intros H. apply strip_in, Hkeep in H; [| discriminate | discriminate].
    apply remove_char_in in H as [H _]. apply remove_char_in in H as [_ H]. congruence.
  - intros H. apply strip_in, Hkeep in H; [| discriminate | discriminate].
    apply remove_char_in in H as [_ H]. congruence.
  - apply strip_idem.
Qed.

(** A slice is a contiguous part. *)
Lemma slice_part {A} (s : list A) (a b : nat) :
  exists pre post, s = pre ++ slice s a b ++ post.
Proof.
  exists (firstn a s), (skipn (b - a) (skipn a s)). unfold slice.
  rewrite firstn_skipn, firstn_skipn. reflexivity.
Qed.

(** Every candidate the scan records is a slice of the text. *)
Lemma scan_from_slices (clean_stdout : pystr) (rest : pystr) :
  forall i st,
    Forall (fun p => exists a b, fst p = slice clean_stdout a b) (json_candidates st) ->
    Forall (fun p => exists a b, fst p = slice clean_stdout a b)
           (json_candidates (scan_from clean_stdout i rest st)).
Proof.
  induction rest as [| char rest IH]; intros i st Hst; cbn [scan_from]; [exact Hst |].
  apply IH. unfold scan_char.
  destruct (char =? 123); [exact Hst |].
  destruct (char =? 125); [| exact Hst].
  destruct (_ && _); [| exact Hst]. cbn [json_candidates].
  destruct (looks_like_response _); [| exact Hst].
  apply Forall_app. split; [exact Hst |]. constructor; [| constructor].
  cbn [fst]. eauto.
Qed.

(** X27.  The text handed to the final [json.loads] is always a contiguous
    part of the trimmed primary output: the extraction cuts, it never
    rewrites or joins.  And when the output holds no brace at all, that
    text is the whole trimmed output. *)
Theorem chosen_json_is_part_of_output (clean_stdout : pystr) :
  (exists pre post, clean_stdout = pre ++ choose_json clean_stdout ++ post)
  /\ (brace_free clean_stdout = true -> choose_json clean_stdout = clean_stdout).
Proof.
  split.
  - unfold choose_json.
    pose proof (scan_from_slices clean_stdout clean_stdout 0
                  {| brace_count := 0; start_pos := -1; json_candidates := [] |}
                  (Forall_nil _)) as Hcands.
    fold (scan_candidates clean_stdout) in Hcands.
    destruct (rev (scan_candidates clean_stdout)) as [| [clean_json pos] earlier] eqn:Hrev.
    + destruct (negb (find_char 123 clean_stdout 0 =? -1)%Z).
      * set (json_part := skipn _ clean_stdout).
        destruct (negb (find_json_end 0 0 json_part =? -1)%Z).
        -- eexists (firstn _ clean_stdout), (skipn _ json_part).
           rewrite firstn_skipn. subst json_part. rewrite firstn_skipn. reflexivity.
        -- eexists (firstn _ clean_stdout), []. rewrite app_nil_r. subst json_part.
           rewrite firstn_skipn. reflexivity.
      * exists [], []. rewrite app_nil_r. reflexivity.
    + assert (Hin : In (clean_json, pos) (scan_candidates clean_stdout)).
      { apply in_rev. rewrite Hrev. left. reflexivity. }
      rewrite Forall_forall in Hcands. destruct (Hcands _ Hin) as (a & b & Hs).
      cbn [fst] in Hs. rewrite Hs. apply slice_part.
  - intros Hfree. unfold choose_json, scan_candidates.
    rewrite (scan_brace_free clean_stdout clean_stdout Hfree). cbn [json_candidates rev].
    assert (Hfind : forall s i, brace_free s = true -> find_char 123 s i = (-1)%Z).
    { induction s as [| c s IH]; intros i H; [reflexivity |].
      cbn [brace_free forallb] in H. apply andb_true_iff in H as [Hc Hs].
      apply negb_true_iff, orb_false_iff in Hc. destruct Hc as [Hc _].
      cbn [find_char]. rewrite Hc. apply IH, Hs. }
    rewrite (Hfind _ _ Hfree). reflexivity.
Qed.

(** One read keeps a tail of the extended buffer. *)
Lemma pty_append_suffix (buffer : list pystr) (data : pystr) :
  exists dropped, buffer ++ splitlines data = dropped ++ pty_append buffer data.
Proof.
  unfold pty_append. destruct data as [| c data'].
  - exists []. cbn [splitlines splitlines_go]. rewrite app_nil_r. reflexivity.
  - cbv zeta. destruct (1000 <? _)%nat.
    + eexists. symmetry. apply last_n_suffix.
    + exists []. reflexivity.
Qed.

Lemma pty_fold_suffix (datas : list pystr) :
  forall buffer,
    exists dropped,
      buffer ++ concat (map splitlines datas) = dropped ++ fold_left pty_append datas buffer.
Proof.
  induction datas as [| data datas IH]; intros buffer.
  - exists []. cbn. rewrite app_nil_r. reflexivity.
  - cbn [map concat fold_left].
    destruct (pty_append_suffix buffer data) as [d1 H1].
    destruct (IH (pty_append buffer data)) as [d2 H2].
    exists (d1 ++ d2). rewrite app_assoc, H1, <- !app_assoc, H2. reflexivity.
Qed.

(** X28.  The PTY buffer is always a tail of everything read: the lines of
    all reads so far, in order, are some dropped lines followed by exactly
    the buffer.  Lines are lost only at the old end, and the ones kept are
    never reordered or changed. *)
Theorem pty_buffer_is_tail_of_reads (datas : list pystr) :
  exists dropped, concat (map splitlines datas) = dropped ++ pty_run datas.
Proof. exact (pty_fold_suffix datas []). Qed.

End Texts.

(* ===================================================================== *)
(** * Properties of what is painted *)
(* ===================================================================== *)

Section Painting.

Lemma py_prefix_length {A} (s : list A) (k : Z) :
  (0 <= k)%Z -> (k <= Z.of_nat (length s))%Z -> Z.of_nat (length (py_prefix s k)) = k.
Proof.
  intros H0 Hk. unfold py_prefix. destruct (Z.ltb_spec k 0) as [H | _]; [lia |].
  rewrite length_firstn. lia.
Qed.

Lemma py_prefix_part {A} (s : list A) (k : Z) : exists rest, s = py_prefix s k ++ rest.
Proof.
  unfold py_prefix. destruct (k <? 0)%Z; eexists; symmetry; apply firstn_skipn.
Qed.

Lemma py_suffix_part {A} (s : list A) (k : Z) : exists hidden, s = hidden ++ py_suffix s k.
Proof.
  unfold py_suffix. destruct (k <? 0)%Z; eexists; symmetry; apply firstn_skipn.
Qed.

(** The cut applied to the status line and to the lines of the raw view. *)
Lemma cut_fits (width : Z) (text : pystr) :
  (7 <= width)%Z ->
  let shown := if (Z.of_nat (length text) >? width - 4)%Z
               then py_prefix text (width - 7) ++ lit "..." else text in
  (Z.of_nat (length shown) <= width - 4)%Z
  /\ (shown = text
      \/ exists kept rest, text = kept ++ rest /\ rest <> [] /\ shown = kept ++ lit "...").
Proof.
  intros Hw shown. subst shown.
  destruct (Z.gtb_spec (Z.of_nat (length text)) (width - 4)) as [Hlong | Hshort].
  - pose proof (py_prefix_length text (width - 7) ltac:(lia) ltac:(lia)) as Hlen.
    split.
    + rewrite length_app. change (length (lit "...")) with 3%nat. lia.
    + right. destruct (py_prefix_part text (width - 7)) as [rest Hrest].
      exists (py_prefix text (width - 7)), rest. split; [exact Hrest |].
      split; [| reflexivity]. intros ->. rewrite app_nil_r in Hrest.
      rewrite <- Hrest in Hlen. lia.
  - split; [lia | left; reflexivity].
Qed.

(** X29.  The two lines at the foot of the chat view fit a terminal of at
    least 11 columns.  The status text painted is at most [width - 4]
    characters: it is the status line itself, or a beginning of it followed
    by three dots.  The input painted is at most [width - 7] characters:
    it is the input line itself, or three dots followed by its last
    [width - 10] characters, so that the end being typed is always in view;
    and the cursor block behind it is always painted. *)
Theorem foot_of_chat_view_fits (width : Z) (status_text current_input : pystr) :
  (11 <= width)%Z ->
  ((Z.of_nat (length (shown_status width status_text)) <= width - 4)%Z
   /\ (shown_status width status_text = status_text
       \/ exists kept rest,
            status_text = kept ++ rest /\ rest <> []
            /\ shown_status width status_text = kept ++ lit "..."))
  /\ (Z.of_nat (length (display_input width current_input)) <= width - 7)%Z
  /\ (display_input width current_input = current_input
      \/ exists hidden shown,
           current_input = hidden ++ shown /\ hidden <> []
           /\ Z.of_nat (length shown) = (width - 10)%Z
           /\ display_input width current_input = lit "..." ++ shown)
  /\ cursor_shown width current_input = true.
Proof.
  intros Hw. split; [apply (cut_fits width status_text); lia |].
  assert (Hinput :
            (Z.of_nat (length (display_input width current_input)) <= width - 7)%Z
            /\ (display_input width current_input = current_input
                \/ exists hidden shown,
                     current_input = hidden ++ shown /\ hidden <> []
                     /\ Z.of_nat (length shown) = (width - 10)%Z
                     /\ display_input width current_input = lit "..." ++ shown)).
  { unfold display_input, prompt_length.
    destruct (Z.gtb_spec (Z.of_nat (length current_input)) (width - 4 - 3))
      as [Hlong | Hshort]; [| split; [lia | left; reflexivity]].
    unfold py_suffix. destruct (Z.ltb_spec (- (width - 4 - 3 - 3)) 0) as [_ | H]; [| lia].
    replace (- - (width - 4 - 3 - 3))%Z with (width - 10)%Z by lia.
    set (n := (length current_input - Z.to_nat (width - 10))%nat).
    assert (Hshown : Z.of_nat (length (skipn n current_input)) = (width - 10)%Z)
      by (rewrite length_skipn; subst n; lia).
    split.
    - rewrite length_app. change (length (lit "...")) with 3%nat. lia.
    - right. exists (firstn n current_input), (skipn n current_input).
      split; [symmetry; apply firstn_skipn |].
      split; [| split; [exact Hshown | reflexivity]].
      intros Hnil. apply (f_equal (@length N)) in Hnil.
      rewrite length_firstn in Hnil. cbn [length] in Hnil. subst n. lia. }
  destruct Hinput as [Hlen Hform]. split; [exact Hlen |]. split; [exact Hform |].
  unfold cursor_shown, prompt_length. apply Z.ltb_lt. lia.
Qed.

(** X30.  The raw view paints the newest lines of the PTY buffer: in a
    terminal of more than 6 rows, exactly the last [height - 6] lines of
    the buffer (all of them when there are fewer), in order; in a terminal
    of 6 rows or fewer, none.  Each line painted has lost its carriage
    returns and erase-line sequences and, in a terminal of at least 7
    columns, is at most [width - 4] characters long. *)
Theorem raw_view_shows_newest_lines (height width : Z) (claude_output_buffer : list pystr)
    (line : pystr) :
  ((6 < height)%Z ->
   raw_display_lines height claude_output_buffer
   = last_n (Z.to_nat (height - 6)) claude_output_buffer)
  /\ ((height <= 6)%Z -> raw_display_lines height claude_output_buffer = [])
  /\ ~ In 13 (raw_clean_line width line)
  /\ ((7 <= width)%Z -> (Z.of_nat (length (raw_clean_line width line)) <= width - 4)%Z).
Proof.
  split; [| split; [| split]].
  - intros Hh. unfold raw_display_lines, last_n.
    destruct (Z.gtb_spec (Z.of_nat (length claude_output_buffer)) (height - 6))
      as [Hlong | Hshort].
    + unfold py_suffix. destruct (Z.ltb_spec (- (height - 6)) 0) as [_ | H]; [| lia].
      replace (- - (height - 6))%Z with (height - 6)%Z by lia.
      apply firstn_all2. rewrite length_skipn. lia.
    + replace (length claude_output_buffer - Z.to_nat (height - 6))%nat with 0%nat by lia.
      cbn [skipn]. apply firstn_all2. lia.
  - intros Hh. unfold raw_display_lines.
    replace (Z.to_nat (height - 6)) with 0%nat by lia. reflexivity.
  - unfold raw_clean_line.
    set (clean_line := replace [13] [] _).
    assert (Hclean : ~ In 13 clean_line).
    { unfold clean_line. rewrite remove_char_in. tauto. }
    destruct (_ >? _)%Z; [| exact Hclean].
    intros H. apply in_app_or in H as [H | H].
    + apply Hclean. destruct (py_prefix_part clean_line (width - 7)) as [rest Hrest].
      rewrite Hrest. apply in_or_app. left. exact H.
    + cbn in H. intuition discriminate.
  - intros Hw. unfold raw_clean_line. apply (cut_fits width _ Hw).
Qed.

End Painting.

(* ===================================================================== *)
(** * Further worked examples on the reference runtime *)
(* ===================================================================== *)

Section FurtherExamples.

Import Ref.

(** X2, witness. *)
Lemma wrap_text_width_witness :
  (Z.of_nat (length (lit "a b")) <= 3)%Z
  \/ In (lit "a b") (words (lit "a b c")) \/ lit "a b" = [].
Proof.
  apply (wrap_text_width (lit "a b c") 3 (lit "a b")). vm_compute. left. reflexivity.
Defined.

(** X4, witness. *)
Lemma window_shows_newest_that_fit_witness :
  exists older,
    messages short_chat = older ++ map fst short_chat_window
    /\ Forall (fun p : message * Z => (1 <= snd p)%Z) short_chat_window
    /\ (fold_right Z.add 0 (map snd short_chat_window) <= Z.max 0 (10 - 8))%Z
    /\ (forall older' msg content_lines,
          older = older' ++ [msg] ->
          wrap_value (msg_content msg) (80 - 20) = Done content_lines ->
          (10 - 8 < fold_right Z.add 0 (map snd short_chat_window)
                    + Z.max 1 (Z.of_nat (length content_lines)))%Z).
Proof.
  apply (window_shows_newest_that_fit 10 80 short_chat short_chat_window).
  vm_compute. reflexivity.
Defined.


(** C3, witness: a child that never exits and prints nothing; and, in copy
    mode, one that never exits and prints a diagnostic line at every turn. *)
Lemma send_waits_without_bound_witness :
  send_message 1000 (lit "ping") hung_child boot = None
  /\ send_message 50 (lit "ping") chatty_child copy_world = None.
Proof.
  split.
  - apply (proj1 (send_waits_without_bound 1000 (lit "ping") hung_child boot
                    eq_refl eq_refl (fun _ => eq_refl))).
    + vm_compute. reflexivity.
    + intros turn. reflexivity.
  - apply (proj1 (proj2 (send_waits_without_bound 50 (lit "ping") chatty_child copy_world
                           eq_refl eq_refl (fun _ => eq_refl)))).
    + vm_compute. reflexivity.
    + reflexivity.
Defined.


(** X13, witness: a send that returns, and a send whose first draw raises
    because the log holds a message that is no text. *)
Lemma send_leaves_idle_witness :
  (thinking (self sent_world) = false
   /\ current_tool_activity (self sent_world) = []
   /\ tool_start_time (self sent_world) = None
   /\ total_messages_processed (self sent_world)
      = (total_messages_processed (self boot) + 1)%Z
   /\ status (self sent_world)
      = status_head (self sent_world) ++ copy_mode_mark (self sent_world))
  /\ (send_message 5 (lit "ping") streaming_child numbered_world
      = Some (Raised AttributeError, stuck_world)
      /\ thinking (self stuck_world) = true
      /\ messages (self stuck_world) = messages (self numbered_world)
      /\ total_messages_processed (self stuck_world)
         = total_messages_processed (self numbered_world)).
Proof.
  split.
  - assert (Hrun : send_message 5 (lit "ping") streaming_child boot
                   = Some (Done tt, sent_world)) by (vm_compute; reflexivity).
    exact (proj1 (proj2 (proj2 (send_leaves_idle 5 (lit "ping") streaming_child boot
                                  sent_world (Done tt) eq_refl Hrun))) eq_refl).
  - assert (Hrun : send_message 5 (lit "ping") streaming_child numbered_world
                   = Some (Raised AttributeError, stuck_world))
      by (vm_compute; reflexivity).
    split; [exact Hrun |].
    exact (proj2 (proj2 (proj2 (send_leaves_idle 5 (lit "ping") streaming_child
                                  numbered_world stuck_world (Raised AttributeError)
                                  eq_refl Hrun))) AttributeError eq_refl).
Defined.

(** X14, witness. *)
Lemma send_log_shape_witness :
  exists asked added reply,
    messages (self refused_world) = messages (self boot) ++ [asked] ++ added ++ [reply]
    /\ msg_role asked = User /\ msg_content asked = JStr (lit "ping")
    /\ msg_role reply = Assistant
    /\ (forall e, spawn_error broken_child = Some e ->
                  added = []
                  /\ msg_content reply = JStr (lit "Error: " ++ exn_text e)).
Proof.
  apply (send_log_shape 0 (lit "ping") broken_child boot refused_world);
    vm_compute; reflexivity.
Defined.

(** X15, witness. *)
Lemma nonzero_exit_reports_stderr_witness :
  exists w',
    complete_send 0%Q 1 (lit "out") (lit "boom") boot = (Done tt, w')
    /\ messages (self w')
       = messages (self boot)
         ++ [{| msg_role := Assistant;
                msg_content :=
                  JStr (lit "Error: "
                        ++ (if nonempty (lit "boom") then lit "boom"
                            else lit "Command failed"));
                msg_timestamp := clock (reads boot); msg_immediate := false;
                msg_source := None; msg_tool := None |}].
Proof.
  apply (nonzero_exit_reports_stderr 0%Q 1 (lit "out") (lit "boom") boot). discriminate.
Defined.

(** X16, witness. *)
Lemma type_then_erase_witness :
  on_key 1 hung_child 97 (lit "hi") boot
  = Some (Done KeepRunning, lit "hi" ++ [Z.to_N 97], boot)
  /\ on_key 1 hung_child 127 (lit "hi" ++ [Z.to_N 97]) boot
     = Some (Done KeepRunning, lit "hi", boot)
  /\ on_key 1 hung_child 127 [] boot = Some (Done KeepRunning, [], boot).
Proof.
  apply (type_then_erase 1 hung_child 97 127 (lit "hi") boot); [lia |].
  vm_compute. tauto.
Defined.

(** X17, witness. *)
Lemma input_stays_printable_witness :
  Forall (fun c => 32 <= c <= 126) (lit "hia").
Proof.
  apply (input_stays_printable 1 hung_child 97 (lit "hi") (lit "hia") boot boot
           (Done KeepRunning)).
  - repeat constructor; vm_compute; discriminate.
  - vm_compute. reflexivity.
Defined.

(** X18, witness: Enter on a blank line and on ' ping ', in the chat view
    and in the raw view. *)
Lemma enter_sends_trimmed_line_witness :
  (on_key 5 streaming_child 10 (lit "  ") boot = Some (Done KeepRunning, lit "  ", boot)
   /\ on_key 5 streaming_child 10 (lit " ping ") boot
      = match send_message (TE := typing [] terminal) 5 (strip (lit " ping "))
                streaming_child boot with
        | Some (Done _, w2) => Some (Done KeepRunning, [], w2)
        | Some (Raised e, w2) => Some (Raised e, [], w2)
        | None => None
        end)
  /\ on_key 5 streaming_child 13 (lit " ping ") raw_world
     = Some (Done KeepRunning, [], {| self := self raw_world; reads := S (reads raw_world) |}).
Proof.
  assert (Hblank : strip (lit "  ") = []) by reflexivity.
  assert (Hne : strip (lit " ping ") <> []) by (vm_compute; discriminate).
  split.
  - destruct (enter_sends_trimmed_line 5 streaming_child 10 (lit "  ") (lit " ping ") boot
                (or_introl eq_refl) Hblank Hne) as (H1 & H2 & _).
    split; [exact H1 | exact H2].
  - exact (proj2 (proj2 (proj2 (enter_sends_trimmed_line 5 streaming_child 13 (lit "  ")
                                  (lit " ping ") raw_world
                                  (or_intror (or_introl eq_refl)) Hblank Hne))) eq_refl).
Defined.

(** X21, witness. *)
Lemma tool_blurb_appends_witness :
  handle_event blurb_event boot
  = if nonempty (strip (lit "ran ls")) then
      let w1 :=
        {| self := set_messages
                     (messages (self boot)
                      ++ [{| msg_role := System;
                             msg_content := JStr ([0x1F527] ++ lit " " ++ lit "ran ls");
                             msg_timestamp := clock (reads boot); msg_immediate := false;
                             msg_source := None;
                             msg_tool := Some (dict_get blurb_event (lit "tool_name")
                                                        (JStr [])) |}])
                     (self boot);
           reads := S (reads boot) |} in
      (fst (redraw w1), w1)
    else (Done tt, boot).
Proof.
  exact (tool_blurb_appends blurb_event (lit "ran ls") boot eq_refl eq_refl).
Defined.

(** X22, witness. *)
Lemma unknown_kind_changes_nothing_witness :
  handle_event progress_event boot = (Done tt, boot).
Proof.
  apply (unknown_kind_changes_nothing progress_event boot).
  intros k Hk. cbn [In] in Hk.
  destruct Hk as [<- | [<- | [<- | [<- | [<- | []]]]]]; reflexivity.
Defined.

(** X23, witness. *)
Lemma ready_event_announces_witness :
  let metadata := [(lit "status", JStr (lit "ready"));
                   (lit "message", JStr (lit "Ani is ready"))] in
  let status_message := dict_get metadata (lit "message") (JStr []) in
  handle_event ready_event boot
  = if py_eq_str (dict_get metadata (lit "status") (JStr [])) (lit "ready")
       && py_truthy status_message
    then (Done tt,
          {| self := set_status (lit "Status: Ready")
                       (set_messages
                          (messages (self boot)
                           ++ [{| msg_role := System; msg_content := status_message;
                                  msg_timestamp := clock (reads boot);
                                  msg_immediate := false;
                                  msg_source := None; msg_tool := None |}]) (self boot));
             reads := S (reads boot) |})
    else (Done tt, boot).
Proof.
  exact (ready_event_announces ready_event (lit "system_state_changed")
           [(lit "status", JStr (lit "ready")); (lit "message", JStr (lit "Ani is ready"))]
           boot eq_refl eq_refl eq_refl eq_refl eq_refl).
Defined.

(** X24, witness. *)
Lemma ready_event_breaks_window_witness :
  fst (handle_event ready_number_event boot) = Done tt
  /\ visible_messages 24 80 (self (snd (handle_event ready_number_event boot)))
     = Raised AttributeError.
Proof.
  apply (ready_event_breaks_window ready_number_event (lit "system_state_changed")
           [(lit "status", JStr (lit "ready")); (lit "message", JInt 5)] boot 24 80);
    try reflexivity.
  intros s. vm_compute. discriminate.
Defined.

(** X25, witness. *)
Lemma engine_error_status_is_dead_witness :
  status (self (snd (handle_event failed_event boot))) = status (self boot)
  \/ starts_with ([0x274C] ++ lit " Error: ")
                 (status (self (snd (handle_event failed_event boot)))) = false.
Proof.
  exact (engine_error_status_is_dead failed_event (lit "tools_agent_start_failed") boot
           eq_refl eq_refl).
Defined.

(** X29, witness. *)
Lemma foot_of_chat_view_fits_witness :
  ((Z.of_nat (length (shown_status 12 (lit "claude | ani"))) <= 12 - 4)%Z
   /\ (shown_status 12 (lit "claude | ani") = lit "claude | ani"
       \/ exists kept rest,
            lit "claude | ani" = kept ++ rest /\ rest <> []
            /\ shown_status 12 (lit "claude | ani") = kept ++ lit "..."))
  /\ (Z.of_nat (length (display_input 12 (lit "hello world"))) <= 12 - 7)%Z
  /\ (display_input 12 (lit "hello world") = lit "hello world"
      \/ exists hidden shown,
           lit "hello world" = hidden ++ shown /\ hidden <> []
           /\ Z.of_nat (length shown) = (12 - 10)%Z
           /\ display_input 12 (lit "hello world") = lit "..." ++ shown)
  /\ cursor_shown 12 (lit "hello world") = true.
Proof.
  apply (foot_of_chat_view_fits 12 (lit "claude | ani") (lit "hello world")). lia.
Defined.

End FurtherExamples.
